(* ===== verification/_CoqProject ===== *)
-Q . S2P
Prelude.v
PyStr.v
Dates.v
Json.v
Store.v
Http.v
Auth.v
Activities.v
Feedback.v
Statistics.v
App.v
Spec.v
Concurrency.v
Schema.v
