(* ===== verification/Prelude.v ===== *)
(** * A verified model of the work-log and earnings tracker ([src/app.py])

    The program is one Flask module, [src/app.py].  It keeps three SQLite
    tables (User, Activity, Feedback, lines 15-35), reads a signed session
    cookie holding ['user_id'], and serves eleven routes.  The only shared
    state is the store; a request reads the cookie, touches the store
    through SQLAlchemy inside one transaction, and returns a response.

    ** Library layout (the order of [_CoqProject])

    - [Prelude] (this file): the Python exceptions the handlers raise or
      catch ([pyexc]), the result type [result] of a computation that may
      raise, its notation [x <-? c ;; k] in [py_scope], the tactics
      ([invc], [bool_to_prop]), the hint databases [worklog] and
      [worklog_rw] shared by all files, and generic lemmas on lists
      searched with [find] and [filter], on sortedness and on keys.
    - [PyStr] (Module [PyStr]): the Python string built-ins the handlers
      call on stored data: [str.split(':')] ([py_split]), [int(str)]
      ([py_int], with whitespace stripping, sign and underscore
      separators), [float(str)] ([py_float]: white space, sign, decimal
      literal with underscores and exponent, [nan]), and zero-padded
      decimal printing ([pad_dec]).  Round trip [py_int (pad_dec w n) =
      Ok n] for [n >= 0].
    - [Dates] (Module [Dates]): [datetime.date] as a record with its
      validity (years 1..9999, month lengths, leap years), its order,
      [date.replace], [isoformat] and [strftime('%d.%m.%Y')]; the type
      class [DateParser], the interface by which the handlers call
      [dateutil.parser.parse(..).date()]: it only promises valid dates
      and to read back [isoformat]; [iso_parser] (ISO dates) is an
      instance, and [iso_datetime_parser] reads the ISO datetimes with an
      offset that the calendar widget sends to [/events].
    - [Json] (Module [Json]): the JSON values of [request.json] and of
      [jsonify], [data['k']] and [data.get('k')] with their exceptions,
      and Python's [==] between a value sent and a column value
      ([py_eq]), which SQLAlchemy uses to tell a changed attribute.
    - [Store] (Module [Store]): the rows of the three tables, a table as
      the list of its rows in rowid order (Section [Table], generic in
      the row type), SQLite's rowid allocation ([next_rowid]), the
      queries the code issues ([.get(id)], delete, update), the database
      record [db], the well-formedness of a table ([rowids_ok]), and the
      [Float] column's bind processor [float(value)] ([to_float]).
    - [Http] (Module [Http]): the session, request forms, query
      arguments, pages and responses.
    - [Auth] (Module [Auth]): [register], [login], [logout], [dashboard]
      (app.py 47-76, 167-170).
    - [Activities] (Module [Activities]): [get_events], [get_event],
      [save_event] (with its [try] body [save_event_tx]) and
      [delete_event] (app.py 78-165).  The commit of line 150 is
      SQLAlchemy's flush: [flush_insert] binds the new row (the salary
      through [float()], the text columns through sqlite3);
      [flush_update] compares each assigned attribute with the value
      loaded at line 132 and issues [UPDATE ... SET <changed columns>
      WHERE id = ?], or no statement when nothing changed, raising
      [StaleDataError] when the UPDATE matches no row.  The
      one-row-per-(user, date) invariant [one_per_date], the sequential
      upsert [upsert_rows] and the decoding [decode_save] of a body.
    - [Feedback] (Module [Feedback]): [index] and [submit_feedback]
      (app.py 42-45, 172-189); [ORDER BY timestamp DESC] as a stable
      insertion sort.
    - [Statistics] (Module [Statistics]): [calculate_statistics] (app.py
      194-267): the period to date-range derivation [period_range],
      [calc_duration], Python's [round(x, 2)], the six aggregates and the
      detail list ([compute_stats]).
    - [App] (Module [App]): the route table ([request], [handle]), the
      store's [step] relation (any client, any cookie, any request),
      [create_all] at start-up and [reachable] (a new database file,
      requests, restarts on the file left), the invariants [db_ok] of
      every reachable store.
    - [Spec] (Module [Spec]): the calendar as an abstract finite map
      ([gmap]) from (user, date) to entry, its operations [a_save] and
      [a_delete], the abstract effect [a_effect] of a request, the
      abstraction [abs] of the activity table, and the refinement of the
      views and of every request by these operations.  Entries are
      compared by [≡] (stdpp's [Equiv], an [Equivalence]): equal ids and
      columns equal or [==] in Python, since the flush leaves a stored
      value alone when the value sent is [==] to it.
    - [Concurrency] (Module [Concurrency]): [save_event] split at its
      commit into [save_read] and [save_write] (the same [flush_insert]
      and [flush_update] as the sequential handler, on the store as it
      is at the commit); [cstep], the server with interleaved requests
      (any request, a save's read, a pending save's commit); [register]
      split the same way ([reg_read], [reg_write], the UNIQUE index
      checked at the commit).
    - [Schema] (Module [Schema]): the spec's table of the HTTP surface
      (section 6) as a test [route_ok] on responses: endpoints of
      redirects, statuses and messages of texts, keys of JSON objects.

    ** What the theorems show

    - Activities: a successful save leaves exactly one row of the key
      holding the values sent (as Python's [==] compares them) and the
      salary [float()] made of the one sent, and touches no other key;
      a body that does not decode (a salary [float()] refuses included)
      is answered with its exception and writes nothing, whether the
      date has a row or not; two saves of a day keep one row with the
      second values and the first id; delete removes exactly the
      owner's row, and answers 404 without writing for anyone else; the
      range and lookup queries return exactly the rows asked for.
    - App: every reachable store has unique user names, ordered rowids,
      one activity per (user, date), valid dates, salaries that are
      numbers or NULL, and filled feedback (rule induction on
      [reachable]); requests without a session write nothing.  A forged
      session stores an activity without an owner (a counterexample, not
      an invariant).
    - Spec: every request acts on the calendar exactly as [a_effect]
      says (the abstract save of the session user, date and values, the
      abstract delete of the session user's entry by id, or no change;
      an undecodable save fails with its exception and writes nothing);
      [get_event] is the map lookup, and [get_events] lists, up to
      order, the user's entries of the map in the range asked for
      ([a_events], through [map_to_list] of [abs]).
    - Concurrency: without a lock two saves of one day insert twice (the
      race of the spec); a save racing the delete of its row fails at
      its commit when it changes a column ([StaleDataError]) and
      succeeds without a row when it changes none; two saves of one day
      that change different columns merge into a row neither serial
      order produces; user names stay unique under any interleaving, the
      UNIQUE index refusing the second of two racing registrations.
    - Schema: every answer of [handle] is one the table lists for its
      route, with its JSON shape (type soundness of the surface).
    - PyStr: [int()] reads back zero-padded numbers; the fuelled digit
      count terminates with the right count (see below).  [float()] is
      checked on the literals of the examples by evaluation.
    - Statistics: the aggregates and their bounds (extrema attained by
      rows, detail lines in the order of the rows), the spec's example,
      the period windows (including the week window's quirk), the error
      answers (unknown period 400, malformed row 500).
    - Auth and Feedback: the branches of each view, errors included.

    ** Bounds and fuel

    The only fuel is that of [ndigits_fuel] in [PyStr]: the bit length
    [1 + log2 n] of [n], which is at least the number of decimal digits;
    [ndigits_fuel_enough] proves that any fuel above [log2 n] gives the
    same count, the number of decimal digits of [n], so the fuel never
    runs out.  Every other function recurses structurally.
    Rowids are unbounded [Z]: SQLite switches to a random rowid only past
    2^63 - 1 rows, which is not modelled.

    ** Modelling choices

    - Python [int] values and row ids are [Z]; Python [float] values
      (salaries, durations) are exact rationals [Q]: binary rounding of
      floating-point sums is not modelled, [round(x, 2)] is modelled as the
      exact round-half-to-even of the rational value.
    - A table is a list of rows in ascending rowid order; [.all()] and
      [.first()] without [ORDER BY] follow that order (SQLite's full
      table scan).  A new rowid is one more than the largest rowid present
      (1 for an empty table), as SQLite does for [INTEGER PRIMARY KEY]
      below 2^63-1.
    - A request either commits all of its writes or none: every exception
      that escapes a handler or is caught by its [except] clause leaves the
      store unchanged (Flask-SQLAlchemy rolls the session back at teardown).
    - The session cookie is client-held and signed with the key hard-coded
      at app.py line 8, so the model lets a request carry any session.
    - [datetime.today()] and [datetime.utcnow()] are inputs of the handler
      that reads them.

    ** Not modelled
    - Template rendering, static files, the calendar widget: only the name
      of the template and the data passed to it are kept.
    - The rest of [dateutil]'s grammar (month names, fuzzy and day-first
      parsing): the handlers are proved for any parser meeting
      [DateParser]; the witnesses use the two ISO instances.  dateutil
      fills the fields a string leaves out from the current date; an
      instance is a function of the string only.
    - SQLite's TEXT affinity (a number stored in a [String] column is
      read back as text): the model keeps the JSON scalar as sent; it
      needs SQLite's printing of REAL values ([%!.15g]).  The [Float]
      column is modelled: [float()] at bind time, a NaN stored as NULL.
      VARCHAR lengths are not enforced by SQLite, and the model stores
      values whole.
    - Infinite floats: [float('inf')] and decimal literals beyond the
      double range are not rationals; the model refuses the spellings
      [inf] and [infinity] ([ValueError]) and reads a long literal as its
      exact value.  JSON integers beyond 64 bits, which sqlite3 refuses
      to bind in a text column ([OverflowError]), are bound: the model
      does not tell a JSON [int] from a [float].
    - Concurrency beyond [save_event] and [register]: the other handlers
      write once and run atomically in [step] and [cstep] ([app.run] is
      threaded); SQLite's lock waiting and
      [busy_timeout] are not modelled (a write waits for the lock, it
      never fails).
    - The configuration values (database URI, [debug=True]): they select
      the file and the error page, not the behaviour of a handler.
*)

From Stdlib Require Export ZArith QArith Qround List Bool Ascii String.
From stdpp Require Export base list strings.
From Stdlib Require Export Sorting.Sorted.
Export ListNotations.

(** ** Python exceptions raised by the modelled code *)

(** The exception classes that the handlers of [app.py] can raise or catch.
    [str(e)], the message of an exception, is not modelled. *)
Inductive pyexc : Type :=
| KeyError            (** [d['k']] on a dict without ['k'] *)
| BadRequestKeyError  (** [request.form['k']] without ['k'] (Werkzeug) *)
| TypeError           (** e.g. [None['k']], [parser.parse(None)], [0 + 'x'] *)
| ValueError          (** e.g. [int('x')], unpacking a wrong number of parts *)
| AttributeError      (** e.g. [None.split], [None.username], [[].get] *)
| ParserError         (** [dateutil.parser.ParserError] *)
| InterfaceError      (** sqlite3 cannot bind a list or dict parameter *)
| StaleDataError      (** SQLAlchemy: an UPDATE of a row that is gone matched no row *)
| IntegrityError      (** SQLite: a UNIQUE index refuses a second row with the key *)
| BadRequest.         (** [request.json] on a body that is not JSON (Werkzeug) *)

#[export] Instance pyexc_eq_dec : EqDecision pyexc.
Proof. solve_decision. Defined.

(** A computation that returns an [A] or raises. *)
Inductive result (A : Type) : Type :=
| Ok (a : A)
| Exc (e : pyexc).
Arguments Ok {A} a.
Arguments Exc {A} e.

Definition rbind {A B} (c : result A) (k : A -> result B) : result B :=
  match c with
  | Ok a => k a
  | Exc e => Exc e
  end.

(** [ok_of o e]: the value of [o], or raise [e] when it is [None]. *)
Definition ok_of {A} (o : option A) (e : pyexc) : result A :=
  match o with
  | Some a => Ok a
  | None => Exc e
  end.

(** [[f(x) for x in l]], stopping at the first exception. *)
Fixpoint map_result {A B} (f : A -> result B) (l : list A) : result (list B) :=
  match l with
  | [] => Ok []
  | x :: r => match f x with
              | Ok y => match map_result f r with
                        | Ok ys => Ok (y :: ys)
                        | Exc e => Exc e
                        end
              | Exc e => Exc e
              end
  end.

Declare Scope py_scope.
Delimit Scope py_scope with py.
Notation "x <-? c ;; k" := (rbind c (fun x => k))
  (at level 60, c at next level, right associativity) : py_scope.
Open Scope py_scope.

Lemma rbind_Ok {A B} (c : result A) (k : A -> result B) b :
  rbind c k = Ok b <-> exists a, c = Ok a /\ k a = Ok b.
Proof.
  destruct c as [a|e]; simpl; split.
  - intros H; by exists a.
  - by intros (a' & [= ->] & H).
  - done.
  - by intros (a' & ? & _).
Qed.

Lemma rbind_Exc {A B} (c : result A) (k : A -> result B) e :
  c = Exc e -> rbind c k = Exc e.
Proof. by intros ->. Qed.

Lemma map_result_Ok {A B} (f : A -> result B) l ys :
  map_result f l = Ok ys -> Forall2 (fun x y => f x = Ok y) l ys.
Proof.
  revert ys; induction l as [|x l IH]; intros ys H; simpl in H.
  - injection H as <-. constructor.
  - destruct (f x) eqn:E; [|discriminate].
    destruct (map_result f l) eqn:E'; [|discriminate]. injection H as <-. constructor; auto.
Qed.

Lemma map_result_Forall2 {A B} (f : A -> result B) l ys :
  Forall2 (fun x y => f x = Ok y) l ys -> map_result f l = Ok ys.
Proof. induction 1 as [|x y l ys Hxy _ IH]; simpl; [done|]. by rewrite Hxy, IH. Qed.

Lemma map_result_length {A B} (f : A -> result B) l ys :
  map_result f l = Ok ys -> length ys = length l.
Proof. intros H. apply map_result_Ok in H. symmetry. by eapply Forall2_length. Qed.

Lemma map_result_total {A B} (f : A -> result B) l :
  (forall x, In x l -> exists y, f x = Ok y) -> exists ys, map_result f l = Ok ys.
Proof.
  induction l as [|x l IH]; simpl; intros H; [by exists []|].
  destruct (H x (or_introl eq_refl)) as [y ->].
  destruct IH as [ys ->]; [auto|]. by exists (y :: ys).
Qed.

Lemma map_result_exc {A B} (f : A -> result B) l x e :
  In x l -> f x = Exc e -> exists e', map_result f l = Exc e'.
Proof.
  induction l as [|y l IH]; simpl; [done|]. intros [<-|Hx] He.
  - rewrite He. by eexists.
  - destruct (f y); [|by eexists]. destruct (IH Hx He) as [e' ->]. by eexists.
Qed.

Lemma ok_of_Ok {A} (o : option A) e a : ok_of o e = Ok a <-> o = Some a.
Proof. destruct o; simpl; split; congruence. Qed.

(** ** Tactics and hints shared by the development *)

Create HintDb worklog discriminated.
Create Rewrite HintDb worklog_rw.

Ltac invc H := inversion H; subst; clear H.

(** Turn the boolean tests the models compute with into propositions. *)
Ltac bool_to_prop :=
  repeat match goal with
  | H : (_ && _)%bool = true |- _ => apply andb_true_iff in H as [? ?]
  | H : (_ || _)%bool = false |- _ => apply orb_false_iff in H as [? ?]
  | H : negb _ = true |- _ => apply negb_true_iff in H
  | H : negb _ = false |- _ => apply negb_false_iff in H
  | H : Z.eqb _ _ = true |- _ => apply Z.eqb_eq in H
  | H : Z.eqb _ _ = false |- _ => apply Z.eqb_neq in H
  | H : Z.leb _ _ = true |- _ => apply Z.leb_le in H
  | H : Z.leb _ _ = false |- _ => apply Z.leb_gt in H
  | H : Z.ltb _ _ = true |- _ => apply Z.ltb_lt in H
  | H : Z.ltb _ _ = false |- _ => apply Z.ltb_ge in H
  | H : String.eqb _ _ = true |- _ => apply String.eqb_eq in H
  | H : String.eqb _ _ = false |- _ => apply String.eqb_neq in H
  end.

(** ** Generic lemmas on [find] and [filter] *)

Section ListSearch.
Context {A : Type}.
Implicit Types (p q : A -> bool) (l : list A).

Lemma find_some_in p l x : List.find p l = Some x -> In x l /\ p x = true.
Proof. apply find_some. Qed.

Lemma find_none_all p l : List.find p l = None -> forall x, In x l -> p x = false.
Proof. apply find_none. Qed.

Lemma find_none_intro p l : (forall x, In x l -> p x = false) -> List.find p l = None.
Proof.
  induction l as [|y l IH]; simpl; intros H; [done|].
  rewrite H by auto. apply IH; auto.
Qed.

Lemma find_exists p l x : In x l -> p x = true -> exists y, List.find p l = Some y.
Proof.
  induction l as [|z l IH]; simpl; [done|]. intros [->|Hx] Hp; [rewrite Hp; eauto|].
  destruct (p z); eauto.
Qed.

Lemma find_app_l p l1 l2 x :
  List.find p l1 = Some x -> List.find p (l1 ++ l2) = Some x.
Proof. induction l1 as [|y l1 IH]; simpl; [discriminate|]. by destruct (p y). Qed.

Lemma find_app_none p l1 l2 :
  List.find p l1 = None -> List.find p (l1 ++ l2) = List.find p l2.
Proof. induction l1 as [|y l1 IH]; simpl; [done|]. by destruct (p y). Qed.

(** [find] returns the head of [filter]. *)
Lemma find_filter_hd p l : List.find p l = hd_error (List.filter p l).
Proof. induction l as [|y l IH]; simpl; [done|]. by destruct (p y). Qed.

Lemma find_filter_and p q l :
  List.find p (List.filter q l) = List.find (fun x => p x && q x)%bool l.
Proof. induction l as [|y l IH]; simpl; [done|]. destruct (q y); simpl; by destruct (p y). Qed.

Lemma filter_map_gen {B} (p : B -> bool) (g : A -> B) l :
  List.filter p (map g l) = map g (List.filter (fun x => p (g x)) l).
Proof. induction l as [|y l IH]; simpl; [done|]. destruct (p (g y)); simpl; by rewrite IH. Qed.

(** [filter] respects permutations (as in ConCert's [Extras]). *)
Lemma Permutation_filter' p l l' :
  Permutation l l' -> Permutation (List.filter p l) (List.filter p l').
Proof.
  induction 1; simpl; try done.
  - destruct (p x); [by constructor | done].
  - destruct (p x), (p y); try constructor; done.
  - by etrans.
Qed.

Lemma filter_true l : List.filter (fun _ => true) l = l.
Proof. induction l; simpl; congruence. Qed.

Lemma filter_ext_in p q l :
  (forall x, In x l -> p x = q x) -> List.filter p l = List.filter q l.
Proof. apply List.filter_ext_in. Qed.

Lemma filter_none p l : (forall x, In x l -> p x = false) -> List.filter p l = [].
Proof.
  induction l as [|y l IH]; simpl; intros H; [done|].
  rewrite H by auto. apply IH; auto.
Qed.

Lemma filter_app' p l1 l2 : List.filter p (l1 ++ l2) = List.filter p l1 ++ List.filter p l2.
Proof. apply List.filter_app. Qed.

Lemma filter_map_comm p (g : A -> A) l :
  (forall x, p (g x) = p x) -> List.filter p (map g l) = map g (List.filter p l).
Proof.
  intros Hg. induction l as [|y l IH]; simpl; [done|].
  rewrite Hg. destruct (p y); simpl; by rewrite IH.
Qed.

Lemma map_id_in' (g : A -> A) l : (forall x, In x l -> g x = x) -> map g l = l.
Proof.
  induction l as [|y l IH]; simpl; intros H; [done|].
  rewrite H, IH; auto.
Qed.

Lemma filter_filter p q l :
  List.filter p (List.filter q l) = List.filter (fun x => q x && p x)%bool l.
Proof.
  induction l as [|y l IH]; simpl; [done|].
  destruct (q y); simpl; [destruct (p y); simpl; by rewrite IH | done].
Qed.
End ListSearch.

(** ** Generic lemmas on [StronglySorted] *)

Section Sortedness.
Context {A : Type} (R : A -> A -> Prop).

Lemma StronglySorted_snoc l x :
  StronglySorted R l -> Forall (fun y => R y x) l -> StronglySorted R (l ++ [x]).
Proof.
  induction l as [|y l IH]; intros Hs Hf; simpl.
  - repeat constructor.
  - invc Hs. invc Hf. constructor; [auto|].
    apply Forall_app; split; [done|]. by constructor.
Qed.

Lemma StronglySorted_filter (p : A -> bool) l :
  StronglySorted R l -> StronglySorted R (List.filter p l).
Proof.
  induction l as [|y l IH]; intros Hs; simpl; [constructor|].
  invc Hs. destruct (p y); [|auto]. constructor; [auto|].
  apply List.Forall_forall. intros z Hz. apply filter_In in Hz as [Hz _].
  by eapply List.Forall_forall in Hz; [|eassumption].
Qed.

(** A map that keeps the order keeps sortedness. *)
Lemma StronglySorted_map_same (f : A -> A) l :
  (forall a b, R a b -> R (f a) (f b)) ->
  StronglySorted R l -> StronglySorted R (map f l).
Proof.
  intros Hf. induction l as [|y l IH]; intros Hs; simpl; [constructor|].
  invc Hs. constructor; [auto|]. apply Forall_map. eapply Forall_impl; eauto.
Qed.
End Sortedness.

Section Keys.
Context {A K : Type} `{EqDecision K} (key : A -> K).

(** Two members of a list whose keys are distinct are equal when their
    keys are. *)
Lemma NoDup_map_eq l x y :
  List.NoDup (map key l) -> In x l -> In y l -> key x = key y -> x = y.
Proof.
  induction l as [|z l IH]; simpl; intros Hn Hx Hy Hk; [done|].
  invc Hn. destruct Hx as [<-|Hx], Hy as [<-|Hy]; auto.
  - exfalso. apply H1. rewrite Hk. by apply in_map.
  - exfalso. apply H1. rewrite <- Hk. by apply in_map.
Qed.

(** The rows with the key of [x] are [x] alone. *)
Lemma filter_key_single l x :
  List.NoDup (map key l) -> In x l ->
  List.filter (fun y => bool_decide (key y = key x)) l = [x].
Proof.
  induction l as [|z l IH]; simpl; intros Hn Hx; [done|].
  invc Hn. destruct Hx as [<-|Hx].
  - rewrite bool_decide_eq_true_2 by done. f_equal.
    apply filter_none. intros y Hy. apply bool_decide_eq_false_2.
    intros Hk. apply H1. rewrite <- Hk. by apply in_map.
  - rewrite bool_decide_eq_false_2; [auto|].
    intros Hk. apply H1. rewrite Hk. by apply in_map.
Qed.

Lemma filter_key_none l k :
  (forall y, In y l -> key y <> k) -> List.filter (fun y => bool_decide (key y = k)) l = [].
Proof. intros H. apply filter_none. intros y Hy. apply bool_decide_eq_false_2. auto. Qed.
End Keys.

Lemma NoDup_map_filter {A B} (f : A -> B) (p : A -> bool) l :
  List.NoDup (map f l) -> List.NoDup (map f (List.filter p l)).
Proof.
  induction l as [|x l IH]; simpl; intros Hn; [constructor|]. invc Hn.
  destruct (p x); simpl; [|auto]. constructor; [|auto].
  intros Hin. apply H1. apply in_map_iff in Hin as (y & Hy & Hin).
  apply filter_In in Hin as [Hin _]. rewrite <- Hy. by apply in_map.
Qed.

Lemma NoDup_snoc {A} (l : list A) x : List.NoDup l -> ~ In x l -> List.NoDup (l ++ [x]).
Proof.
  intros Hl Hx. apply List.NoDup_app; [done| repeat constructor; simpl; tauto |].
  intros a Ha [<-|[]]. tauto.
Qed.

(** ** Strings as lists of characters *)

Lemma list_ascii_of_string_append (s1 s2 : string) :
  list_ascii_of_string (s1 ++ s2)%string = list_ascii_of_string s1 ++ list_ascii_of_string s2.
Proof. induction s1 as [|c s1 IH]; simpl; [done|]. by rewrite IH. Qed.

#[export] Hint Resolve find_app_l find_app_none filter_none : worklog.
#[export] Hint Rewrite @filter_app' @filter_filter : worklog_rw.
