(* ===== verification/PyStr.v ===== *)
(** * Python string built-ins used by [src/app.py]

    [calc_duration] (app.py 240-243) reads a stored time such as ["08:30"]
    with [s.split(":")] and [int(..)]; dates are printed with zero-padded
    decimals ([%02d], [%04d]).  This file models these built-ins on the
    ASCII subset of [str] (a Python [str] is a [string] here), and proves
    the round trip between printing and [int]. *)

From S2P Require Import Prelude.

Local Open Scope Z_scope.

Module PyStr.

(** ** Characters *)

(** [str.isspace] on ASCII: tab, newline, vertical tab, form feed,
    carriage return, the four information separators 0x1c-0x1f, space. *)
Definition is_py_space (c : ascii) : bool :=
  let n := nat_of_ascii c in
  ((9 <=? n) && (n <=? 13) || (28 <=? n) && (n <=? 32))%nat.

Definition is_digit (c : ascii) : bool :=
  let n := nat_of_ascii c in ((48 <=? n) && (n <=? 57))%nat.

Definition digit_val (c : ascii) : Z := Z.of_nat (nat_of_ascii c) - 48.

Definition digit_char (d : Z) : ascii := ascii_of_nat (Z.to_nat (48 + d)).

(** ** [str.strip()] *)

Fixpoint lstrip_l (l : list ascii) : list ascii :=
  match l with
  | c :: r => if is_py_space c then lstrip_l r else l
  | [] => []
  end.

Definition strip_l (l : list ascii) : list ascii := rev (lstrip_l (rev (lstrip_l l))).

(** ** [int(s)] for a [str] argument, base 10 *)

(** Digits after the first one: a digit, or one [_] between two digits.
    [us] records that the previous character was [_]. *)
Fixpoint uint_tail (l : list ascii) (acc : Z) (us : bool) : option Z :=
  match l with
  | [] => if us then None else Some acc
  | c :: r =>
      if is_digit c then uint_tail r (acc * 10 + digit_val c) false
      else if (Ascii.eqb c "_" && negb us)%bool then uint_tail r acc true
      else None
  end.

Definition parse_uint (l : list ascii) : option Z :=
  match l with
  | c :: r => if is_digit c then uint_tail r (digit_val c) false else None
  | [] => None
  end.

Definition int_of_list (l : list ascii) : option Z :=
  match strip_l l with
  | "-"%char :: r => option_map Z.opp (parse_uint r)
  | "+"%char :: r => parse_uint r
  | t => parse_uint t
  end.

(** [int(s)]: [ValueError] when [s] is not a decimal literal. *)
Definition py_int (s : string) : result Z :=
  ok_of (int_of_list (list_ascii_of_string s)) ValueError.

(** ** [float(s)] for a [str] argument *)

(** What [float()] returns for a string: a finite value, or a NaN
    ([nan]); an infinity ([inf], [infinity]) is not a rational and is
    left out of the model (see the header). *)
Inductive pyfloat := PFinite (q : Q) | PNaN.

(** A [digitpart] ([digit (["_"] digit)*]) at the head of [l], read on
    from [acc]: the value, the number of digits read and the rest.  [us]
    says that a digit must come next (at the start and after [_]). *)
Fixpoint scan_digits (l : list ascii) (acc : Z) (k : nat) (us : bool)
  : option (Z * nat * list ascii) :=
  match l with
  | c :: r =>
      if is_digit c then scan_digits r (acc * 10 + digit_val c) (S k) false
      else if us then None
      else if Ascii.eqb c "_" then scan_digits r acc k true
      else Some (acc, k, l)
  | [] => if us then None else Some (acc, k, [])
  end.

(** An optional [digitpart]. *)
Definition opt_digits (l : list ascii) (acc : Z) : option (Z * nat * list ascii) :=
  match l with
  | c :: _ => if is_digit c then scan_digits l acc 0 true else Some (acc, 0%nat, l)
  | [] => Some (acc, 0%nat, [])
  end.

Definition split_sign (l : list ascii) : bool * list ascii :=
  match l with
  | "-"%char :: r => (true, r)
  | "+"%char :: r => (false, r)
  | _ => (false, l)
  end.

(** [number [exponent]] with [number ::= [digitpart] "." digitpart |
    digitpart ["."]]: the digits [m] of the mantissa, the number [k] of
    them after the point and the exponent [e]; the value is
    [m * 10^(e-k)]. *)
Definition float_lit (l : list ascii) : option (Z * nat * Z) :=
  match opt_digits l 0 with
  | None => None
  | Some (m1, k1, r1) =>
      let frac := match r1 with
                  | "."%char :: r2 => opt_digits r2 m1
                  | _ => Some (m1, 0%nat, r1)
                  end in
      match frac with
      | None => None
      | Some (m, kf, r3) =>
          if (k1 + kf =? 0)%nat then None
          else match r3 with
               | [] => Some (m, kf, 0)
               | c :: r4 =>
                   if Ascii.eqb c "e" || Ascii.eqb c "E" then
                     let '(neg, r5) := split_sign r4 in
                     match scan_digits r5 0 0 true with
                     | Some (e, _, []) => Some (m, kf, if neg then - e else e)
                     | _ => None
                     end
                   else None
               end
      end
  end.

(** [m * 10^e] as a rational. *)
Definition q_of_dec (m e : Z) : Q :=
  if 0 <=? e then inject_Z (m * 10 ^ e) else Qmake m (Z.to_pos (10 ^ (- e))).

Definition lower (c : ascii) : ascii :=
  let n := nat_of_ascii c in
  if ((65 <=? n) && (n <=? 90))%nat then ascii_of_nat (n + 32) else c.

(** [float(s)]: surrounding white space, a sign, then a decimal literal
    or [nan] in any case; [None] is Python's [ValueError]. *)
Definition py_float_l (l : list ascii) : option pyfloat :=
  let '(neg, r) := split_sign (strip_l l) in
  if bool_decide (map lower r = ["n"; "a"; "n"]%char) then Some PNaN
  else match float_lit r with
       | Some (m, k, e) => Some (PFinite (q_of_dec (if neg then - m else m) (e - Z.of_nat k)))
       | None => None
       end.

Definition py_float (s : string) : option pyfloat := py_float_l (list_ascii_of_string s).

(** ** [str.split(sep)] with a one-character separator *)

Fixpoint split_l (sep : ascii) (l : list ascii) : list (list ascii) :=
  match l with
  | [] => [[]]
  | c :: r =>
      if Ascii.eqb c sep then [] :: split_l sep r
      else match split_l sep r with
           | p :: ps => (c :: p) :: ps
           | [] => [[c]]
           end
  end.

Definition py_split (sep : ascii) (s : string) : list string :=
  map string_of_list_ascii (split_l sep (list_ascii_of_string s)).

(** ** Zero-padded decimal printing, [%0wd] for [n >= 0] *)

(** The last [k] decimal digits of [n]. *)
Fixpoint digits_fixed (k : nat) (n : Z) : list ascii :=
  match k with
  | O => []
  | S k' => digits_fixed k' (n / 10) ++ [digit_char (n mod 10)]
  end.

(** Number of decimal digits of [n >= 0] ([1] for [0]); the fuel, the bit
    length of [n], is at least the number of decimal digits. *)
Fixpoint ndigits_fuel (fuel : nat) (n : Z) : nat :=
  match fuel with
  | O => 1%nat
  | S f => if n <? 10 then 1%nat else S (ndigits_fuel f (n / 10))
  end.

Definition ndigits (n : Z) : nat := ndigits_fuel (S (Z.to_nat (Z.log2 n))) n.

(** [%0wd % n]: all the digits of [n], padded with zeros to width [w]. *)
Definition pad_dec (w : nat) (n : Z) : string :=
  string_of_list_ascii (digits_fixed (Nat.max w (ndigits n)) n).


(** ** Lemmas *)

Lemma digit_char_ok d : 0 <= d < 10 ->
  is_digit (digit_char d) = true /\ digit_val (digit_char d) = d /\
  is_py_space (digit_char d) = false.
Proof.
  intros Hd.
  assert (d = 0 \/ d = 1 \/ d = 2 \/ d = 3 \/ d = 4 \/ d = 5 \/ d = 6 \/
          d = 7 \/ d = 8 \/ d = 9) as Hc by lia.
  repeat destruct Hc as [-> | Hc]; [..|subst]; vm_compute; auto.
Qed.

Lemma digits_fixed_length k n : length (digits_fixed k n) = k.
Proof.
  revert n; induction k as [|k IH]; intros n; simpl; [done|].
  rewrite length_app, IH; simpl; lia.
Qed.

Lemma digits_fixed_digits k n :
  Forall (fun c => is_digit c = true /\ is_py_space c = false) (digits_fixed k n).
Proof.
  revert n; induction k as [|k IH]; intros n; simpl; [constructor|].
  apply Forall_app; split; [apply IH|].
  constructor; [|constructor].
  destruct (digit_char_ok (n mod 10)) as (? & _ & ?); [apply Z.mod_pos_bound; lia|].
  auto.
Qed.

(** Reading [k] printed digits appends the [k] low digits of [n]. *)
Lemma uint_tail_digits_fixed k n r acc :
  uint_tail (digits_fixed k n ++ r) acc false =
  uint_tail r (acc * 10 ^ Z.of_nat k + n mod 10 ^ Z.of_nat k) false.
Proof.
  revert n r acc; induction k as [|k IH]; intros n r acc.
  - simpl. by rewrite Z.mul_1_r, Z.mod_1_r, Z.add_0_r.
  - simpl. rewrite <- app_assoc. simpl. rewrite IH. simpl.
    destruct (digit_char_ok (n mod 10)) as (Hd & Hv & _); [apply Z.mod_pos_bound; lia|].
    rewrite Hd, Hv. f_equal.
    rewrite Nat2Z.inj_succ, Z.pow_succ_r by lia.
    rewrite Z.rem_mul_r by (pose proof (Z.pow_pos_nonneg 10 (Z.of_nat k)); lia).
    pose proof (Z.pow_pos_nonneg 10 (Z.of_nat k)). lia.
Qed.

Lemma lstrip_l_digits l :
  Forall (fun c => is_py_space c = false) l -> lstrip_l l = l.
Proof. intros H; destruct H as [|c l Hc _]; simpl; [done|]. by rewrite Hc. Qed.

Lemma strip_l_digits l :
  Forall (fun c => is_py_space c = false) l -> strip_l l = l.
Proof.
  intros H. unfold strip_l. rewrite (lstrip_l_digits l H).
  rewrite lstrip_l_digits by (apply Forall_rev; done). apply rev_involutive.
Qed.

Lemma ndigits_fuel_bound f n :
  0 <= n < 10 ^ Z.of_nat (S f) -> n < 10 ^ Z.of_nat (ndigits_fuel f n).
Proof.
  revert n; induction f as [|f IH]; intros n Hn; simpl in *; [lia|].
  destruct (n <? 10) eqn:E; bool_to_prop; [lia|].
  rewrite Nat2Z.inj_succ, Z.pow_succ_r by lia.
  assert (n / 10 < 10 ^ Z.of_nat (ndigits_fuel f (n / 10))).
  { apply IH. split; [apply Z.div_pos; lia|].
    apply Z.div_lt_upper_bound; [lia|].
    rewrite <- Z.pow_succ_r, <- Nat2Z.inj_succ by lia. lia. }
  pose proof (Z.mul_div_le n 10). pose proof (Z.mod_pos_bound n 10).
  pose proof (Z.div_mod n 10). lia.
Qed.

(** Every [n >= 0] has fewer than [10 ^ ndigits n] as bound: [pad_dec]
    prints all of its digits. *)
Lemma ndigits_bound n : 0 <= n -> n < 10 ^ Z.of_nat (ndigits n).
Proof.
  intros Hn. apply ndigits_fuel_bound. split; [done|].
  destruct (Z.eq_dec n 0) as [->|Hn0]; [simpl; lia|].
  pose proof (Z.log2_spec n ltac:(lia)) as [_ Hlt].
  rewrite !Nat2Z.inj_succ, Z2Nat.id by (apply Z.log2_nonneg).
  eapply Z.lt_le_trans; [exact Hlt|].
  pose proof (Z.log2_nonneg n).
  eapply Z.le_trans; [apply (Z.pow_le_mono_l 2 10); lia|].
  apply Z.pow_le_mono_r; lia.
Qed.

Lemma ndigits_pos n : (1 <= ndigits n)%nat.
Proof. unfold ndigits. simpl. destruct (n <? 10); lia. Qed.

Lemma parse_uint_digits k n :
  (1 <= k)%nat -> 0 <= n < 10 ^ Z.of_nat k -> parse_uint (digits_fixed k n) = Some n.
Proof.
  intros Hk Hn.
  pose proof (digits_fixed_digits k n) as Hd.
  pose proof (uint_tail_digits_fixed k n [] 0) as Ht.
  rewrite app_nil_r, Z.mod_small in Ht by done. simpl in Ht.
  destruct (digits_fixed k n) as [|c l] eqn:E.
  - pose proof (digits_fixed_length k n). rewrite E in *. simpl in *. lia.
  - invc Hd. destruct H1 as [Hc _]. simpl. simpl in Ht. by rewrite Hc in *.
Qed.

(** A literal made of digits only is read without a sign. *)
Lemma int_of_list_digits c l :
  Forall (fun c => is_py_space c = false) (c :: l) -> is_digit c = true ->
  int_of_list (c :: l) = parse_uint (c :: l).
Proof.
  intros Hs Hc. unfold int_of_list. rewrite strip_l_digits by done.
  destruct c as [[] [] [] [] [] [] [] []]; simpl in Hc; try discriminate; reflexivity.
Qed.

(** Round trip: [int('%0*d' % (w, n)) == n] for every [n >= 0]. *)
Theorem py_int_pad_dec w n : 0 <= n -> py_int (pad_dec w n) = Ok n.
Proof.
  intros Hn. unfold py_int, pad_dec.
  rewrite list_ascii_of_string_of_list_ascii.
  set (k := Nat.max w (ndigits n)).
  assert (0 <= n < 10 ^ Z.of_nat k).
  { split; [done|]. eapply Z.lt_le_trans; [apply ndigits_bound, Hn|].
    apply Z.pow_le_mono_r; lia. }
  pose proof (ndigits_pos n).
  pose proof (digits_fixed_digits k n) as Hd.
  pose proof (parse_uint_digits k n ltac:(lia) ltac:(done)) as Hp.
  destruct (digits_fixed k n) as [|c l]; [discriminate Hp|].
  rewrite int_of_list_digits, Hp; [done| |].
  - eapply Forall_impl; [exact Hd|]. by intros ? [_ ?].
  - by invc Hd; destruct H3.
Qed.

Lemma ndigits_fuel_le f n w :
  (1 <= w)%nat -> 0 <= n < 10 ^ Z.of_nat w -> (ndigits_fuel f n <= w)%nat.
Proof.
  revert n w; induction f as [|f IH]; intros n w Hw Hn; simpl; [lia|].
  destruct (n <? 10) eqn:E; bool_to_prop; [lia|].
  destruct w as [|[|w]]; [lia| simpl in Hn; lia|].
  enough (ndigits_fuel f (n / 10) <= S w)%nat by lia.
  apply IH; [lia|]. split; [apply Z.div_pos; lia|].
  apply Z.div_lt_upper_bound; [lia|].
  rewrite <- Z.pow_succ_r, <- Nat2Z.inj_succ by lia. lia.
Qed.

(** Below [10 ^ w], [%0wd] prints exactly [w] digits. *)
Lemma pad_dec_exact w n :
  (1 <= w)%nat -> 0 <= n < 10 ^ Z.of_nat w ->
  list_ascii_of_string (pad_dec w n) = digits_fixed w n.
Proof.
  intros Hw Hn. unfold pad_dec. rewrite list_ascii_of_string_of_list_ascii.
  unfold ndigits. rewrite Nat.max_l; [done|]. by apply ndigits_fuel_le.
Qed.

(** [split] on a string without the separator returns it whole. *)
Lemma split_l_nosep sep l : ~ In sep l -> split_l sep l = [l].
Proof.
  induction l as [|c l IH]; intros Hn; simpl; [done|].
  destruct (Ascii.eqb_spec c sep) as [->|]; [simpl in Hn; tauto|].
  rewrite IH by (simpl in Hn; tauto). done.
Qed.

Lemma split_l_app sep l1 l2 :
  ~ In sep l1 -> split_l sep (l1 ++ sep :: l2) = l1 :: split_l sep l2.
Proof.
  induction l1 as [|c l1 IH]; intros Hn; simpl.
  - by rewrite Ascii.eqb_refl.
  - destruct (Ascii.eqb_spec c sep) as [->|]; [simpl in Hn; tauto|].
    rewrite IH by (simpl in Hn; tauto). done.
Qed.

Lemma digits_no_sep sep k n :
  is_digit sep = false -> ~ In sep (digits_fixed k n).
Proof.
  intros Hs Hin. pose proof (digits_fixed_digits k n) as Hd.
  rewrite List.Forall_forall in Hd. destruct (Hd sep Hin). congruence.
Qed.

(** The time strings the calendar sends, ["HH:MM"]. *)
Definition fmt_hm (h m : Z) : string :=
  string_of_list_ascii
    (list_ascii_of_string (pad_dec 2 h) ++ ":"%char :: list_ascii_of_string (pad_dec 2 m)).

(** [fmt_hm h m].split(":") gives back the two printed numbers. *)
Lemma py_split_fmt_hm h m :
  py_split ":" (fmt_hm h m) = [pad_dec 2 h; pad_dec 2 m].
Proof.
  unfold py_split, fmt_hm, pad_dec.
  rewrite !list_ascii_of_string_of_list_ascii.
  rewrite split_l_app by (apply digits_no_sep; reflexivity).
  rewrite split_l_nosep by (apply digits_no_sep; reflexivity).
  done.
Qed.

(** ** Termination of the digit count *)

Lemma ndigits_fuel_pos f n : (1 <= ndigits_fuel f n)%nat.
Proof. destruct f; simpl; [lia|]. destruct (n <? 10); lia. Qed.

(** The digit count is not too large: a count of [k >= 2] digits means
    [n >= 10 ^ (k - 1)]. *)
Lemma ndigits_fuel_lower f n :
  0 <= n -> ndigits_fuel f n = 1%nat \/ 10 ^ (Z.of_nat (ndigits_fuel f n) - 1) <= n.
Proof.
  revert n; induction f as [|f IH]; intros n Hn; simpl; [by left|].
  destruct (n <? 10) eqn:E; bool_to_prop; [by left|]. right.
  pose proof (ndigits_fuel_pos f (n / 10)) as Hp.
  replace (Z.of_nat (S (ndigits_fuel f (n / 10))) - 1)
    with (Z.of_nat (ndigits_fuel f (n / 10))) by lia.
  destruct (IH (n / 10) ltac:(apply Z.div_pos; lia)) as [E1|E1].
  - rewrite E1. simpl. lia.
  - replace (Z.of_nat (ndigits_fuel f (n / 10)))
      with (Z.succ (Z.of_nat (ndigits_fuel f (n / 10)) - 1)) by lia.
    rewrite Z.pow_succ_r by lia. pose proof (Z.mul_div_le n 10). lia.
Qed.

(** A number has one digit count. *)
Lemma digit_count_unique n k1 k2 :
  (1 <= k1)%nat -> (1 <= k2)%nat ->
  n < 10 ^ Z.of_nat k1 -> (k1 = 1%nat \/ 10 ^ (Z.of_nat k1 - 1) <= n) ->
  n < 10 ^ Z.of_nat k2 -> (k2 = 1%nat \/ 10 ^ (Z.of_nat k2 - 1) <= n) -> k1 = k2.
Proof.
  intros H1 H2 Hu1 Hl1 Hu2 Hl2.
  assert (forall a b, (1 <= a)%nat -> (a < b)%nat -> n < 10 ^ Z.of_nat a ->
            (b = 1%nat \/ 10 ^ (Z.of_nat b - 1) <= n) -> False) as Hno.
  { intros a b Ha Hab Hua [->|Hlb]; [lia|].
    assert (10 ^ Z.of_nat a <= 10 ^ (Z.of_nat b - 1)) by (apply Z.pow_le_mono_r; lia). lia. }
  destruct (Nat.lt_trichotomy k1 k2) as [Hlt|[Heq|Hgt]]; [exfalso; eauto | done | exfalso; eauto].
Qed.

(** With more fuel than the bit length of [n], the fuel never runs out. *)
Lemma fuel_bound n f : 0 <= n -> (Z.to_nat (Z.log2 n) < f)%nat -> n < 10 ^ Z.of_nat (S f).
Proof.
  intros Hn Hf. destruct (Z.eq_dec n 0) as [->|Hn0]; [apply Z.pow_pos_nonneg; lia|].
  pose proof (Z.log2_spec n ltac:(lia)) as [_ Hlt]. pose proof (Z.log2_nonneg n).
  eapply Z.lt_le_trans; [exact Hlt|].
  eapply Z.le_trans; [apply (Z.pow_le_mono_l 2 10); lia|].
  apply Z.pow_le_mono_r; lia.
Qed.

(** Termination of the fuelled digit count: once the fuel exceeds
    the bit length of [n >= 0], [ndigits_fuel] returns the same count as
    [ndigits] whatever the fuel, and that count is the number of decimal
    digits of [n]: [n < 10 ^ k], and [10 ^ (k - 1) <= n] unless [k = 1]. *)
Theorem ndigits_fuel_enough n f :
  0 <= n -> (Z.to_nat (Z.log2 n) < f)%nat ->
  ndigits_fuel f n = ndigits n /\ n < 10 ^ Z.of_nat (ndigits n) /\
  (ndigits n = 1%nat \/ 10 ^ (Z.of_nat (ndigits n) - 1) <= n).
Proof.
  intros Hn Hf. pose proof (ndigits_bound n Hn) as Hb.
  pose proof (ndigits_fuel_lower (S (Z.to_nat (Z.log2 n))) n Hn) as Hl. fold (ndigits n) in Hl.
  split; [|done].
  apply (digit_count_unique n (ndigits_fuel f n) (ndigits n));
    [apply ndigits_fuel_pos | apply ndigits_fuel_pos | | by apply ndigits_fuel_lower | done | done].
  apply ndigits_fuel_bound. split; [done | by apply fuel_bound].
Qed.

Lemma ndigits_fuel_enough_witness :
  ndigits_fuel 40 2024 = ndigits 2024 /\ 2024 < 10 ^ Z.of_nat (ndigits 2024) /\
  (ndigits 2024 = 1%nat \/ 10 ^ (Z.of_nat (ndigits 2024) - 1) <= 2024).
Proof. apply ndigits_fuel_enough; [lia | vm_compute; lia]. Defined.

End PyStr.
