(* ===== verification/Dates.v ===== *)
(** * Calendar dates: [datetime.date] and the date parser

    The Activity table stores a [db.Date] (app.py line 23); the handlers
    compare dates (lines 91, 224-225), print them with [isoformat()]
    (line 96) and [strftime('%d.%m.%Y')] (line 257), build range bounds
    with [today.replace(..)] (lines 208-214), and read dates from requests
    with [dateutil.parser.parse(s).date()] (lines 89-90, 110, 131,
    217-218).  A [datetime.date] always satisfies [date_valid]; the
    parser is an interface, [DateParser], the handlers are proved against. *)

From S2P Require Import Prelude PyStr.
From stdpp Require Import countable.

Local Open Scope Z_scope.

Module Dates.
Import PyStr.

Record date := mkDate { year : Z; month : Z; day : Z }.

#[export] Instance date_eq_dec : EqDecision date.
Proof. solve_decision. Defined.

#[export] Instance date_countable : Countable date.
Proof.
  refine (inj_countable' (fun d => (year d, month d, day d))
                         (fun '(y, m, dd) => mkDate y m dd) _).
  by intros [].
Defined.

(** ** Validity: [MINYEAR <= year <= MAXYEAR], [1 <= month <= 12],
    [1 <= day <= _days_in_month(year, month)] *)

Definition is_leap (y : Z) : bool :=
  (y mod 4 =? 0) && (negb (y mod 100 =? 0) || (y mod 400 =? 0)).

Definition days_in_month (y m : Z) : Z :=
  if (m =? 2) && is_leap y then 29
  else nth (Z.to_nat m) [-1; 31; 28; 31; 30; 31; 30; 31; 31; 30; 31; 30; 31] 0.

Definition date_valid (d : date) : bool :=
  (1 <=? year d) && (year d <=? 9999) && (1 <=? month d) && (month d <=? 12) &&
  (1 <=? day d) && (day d <=? days_in_month (year d) (month d)).

(** ** Comparison: Python compares dates as (year, month, day) tuples *)

Definition date_cmp (a b : date) : comparison :=
  match Z.compare (year a) (year b) with
  | Eq => match Z.compare (month a) (month b) with
          | Eq => Z.compare (day a) (day b)
          | c => c
          end
  | c => c
  end.

Definition date_leb (a b : date) : bool :=
  match date_cmp a b with Gt => false | _ => true end.

(** [lo <= d <= hi], the filter of lines 91 and 224-225. *)
Definition date_in (lo hi d : date) : bool := date_leb lo d && date_leb d hi.

(** ** [date.replace(year=.., month=.., day=..)]: [ValueError] when the
    result is not a valid date *)
Definition date_replace (d : date) (y m dd : option Z) : result date :=
  let d' := mkDate (default (year d) y) (default (month d) m) (default (day d) dd) in
  if date_valid d' then Ok d' else Exc ValueError.

(** ** Printing *)

Definition str_cat (l : list string) : string := String.concat "" l.

(** [date.isoformat()]: ["%04d-%02d-%02d"]. *)
Definition isoformat (d : date) : string :=
  str_cat [pad_dec 4 (year d); "-"; pad_dec 2 (month d); "-"; pad_dec 2 (day d)].

(** [date.strftime('%d.%m.%Y')] as CPython on glibc prints it: day and
    month on two digits, [%Y] the digits of the year without padding
    (the year 999 prints as [999]). *)
Definition strftime_dmy (d : date) : string :=
  str_cat [pad_dec 2 (day d); "."; pad_dec 2 (month d); "."; pad_dec 1 (year d)].

(** ** The interface of [dateutil.parser.parse(s).date()]

    What the handlers rely on: a parsed date is a valid date, and the ISO
    form of a valid date is read back as that date.  A failure is an
    exception (in dateutil, [ParserError] or [OverflowError]).  An
    instance is a function of the string: dateutil fills the fields a
    string leaves out from the current date, which does not matter for
    the complete dates of the instances below. *)
Class DateParser := {
  parse_date : string -> result date;
  parse_date_valid : forall s d, parse_date s = Ok d -> date_valid d = true;
  parse_date_iso : forall d, date_valid d = true -> parse_date (isoformat d) = Ok d
}.

(** ** An instance: the strict ISO parser ["YYYY-MM-DD"] *)

Definition parse_fixed (w : nat) (s : string) : option Z :=
  let l := list_ascii_of_string s in
  if Nat.eqb (length l) w then parse_uint l else None.

Definition iso_parse (s : string) : result date :=
  match py_split "-" s with
  | [ys; ms; ds] =>
      match parse_fixed 4 ys, parse_fixed 2 ms, parse_fixed 2 ds with
      | Some y, Some m, Some dd =>
          let d := mkDate y m dd in
          if date_valid d then Ok d else Exc ParserError
      | _, _, _ => Exc ParserError
      end
  | _ => Exc ParserError
  end.

(** ** Lemmas *)

Lemma date_valid_bounds d :
  date_valid d = true ->
  1 <= year d <= 9999 /\ 1 <= month d <= 12 /\ 1 <= day d <= days_in_month (year d) (month d).
Proof. unfold date_valid. intros H. bool_to_prop. lia. Qed.

Lemma days_in_month_le y m : 1 <= m <= 12 -> 28 <= days_in_month y m <= 31.
Proof.
  intros Hm. unfold days_in_month.
  assert (m = 1 \/ m = 2 \/ m = 3 \/ m = 4 \/ m = 5 \/ m = 6 \/ m = 7 \/ m = 8 \/
          m = 9 \/ m = 10 \/ m = 11 \/ m = 12) as Hc by lia.
  repeat destruct Hc as [-> | Hc]; [..|subst]; simpl;
    try (destruct (is_leap y)); simpl; lia.
Qed.

Lemma date_valid_intro y m dd :
  1 <= y <= 9999 -> 1 <= m <= 12 -> 1 <= dd <= days_in_month y m ->
  date_valid (mkDate y m dd) = true.
Proof.
  intros. unfold date_valid; simpl.
  repeat (apply andb_true_iff; split); apply Z.leb_le; lia.
Qed.

(** [date_cmp] is the lexicographic order: a total order. *)
Lemma date_cmp_eq a b : date_cmp a b = Eq <-> a = b.
Proof.
  destruct a as [y1 m1 d1], b as [y2 m2 d2]; unfold date_cmp; simpl.
  destruct (Z.compare_spec y1 y2), (Z.compare_spec m1 m2), (Z.compare_spec d1 d2);
    subst; split; intros E; try congruence; injection E; lia.
Qed.

Lemma date_leb_refl a : date_leb a a = true.
Proof. unfold date_leb. by rewrite (proj2 (date_cmp_eq a a) eq_refl). Qed.

Lemma date_leb_total a b : date_leb a b = true \/ date_leb b a = true.
Proof.
  destruct a as [y1 m1 d1], b as [y2 m2 d2]; unfold date_leb, date_cmp; simpl.
  destruct (Z.compare_spec y1 y2), (Z.compare_spec y2 y1); try lia; auto;
  destruct (Z.compare_spec m1 m2), (Z.compare_spec m2 m1); try lia; auto;
  destruct (Z.compare_spec d1 d2), (Z.compare_spec d2 d1); try lia; auto.
Qed.

(** The order as a number: [y * 10^4 + m * 10^2 + d] for valid dates. *)
Definition date_key (d : date) : Z := year d * 10000 + month d * 100 + day d.

Lemma date_leb_key a b :
  date_valid a = true -> date_valid b = true ->
  date_leb a b = true <-> date_key a <= date_key b.
Proof.
  intros Ha Hb.
  apply date_valid_bounds in Ha as (? & ? & ? & ?), Hb as (? & ? & ? & ?).
  pose proof (days_in_month_le (year a) (month a)).
  pose proof (days_in_month_le (year b) (month b)).
  destruct a as [y1 m1 d1], b as [y2 m2 d2]; unfold date_leb, date_cmp, date_key in *; simpl in *.
  destruct (Z.compare_spec y1 y2), (Z.compare_spec m1 m2), (Z.compare_spec d1 d2);
    split; intros; try discriminate; try done; lia.
Qed.

Lemma date_leb_trans a b c :
  date_leb a b = true -> date_leb b c = true -> date_leb a c = true.
Proof.
  destruct a as [y1 m1 d1], b as [y2 m2 d2], c as [y3 m3 d3]; unfold date_leb, date_cmp; simpl.
  destruct (Z.compare_spec y1 y2), (Z.compare_spec y2 y3), (Z.compare_spec y1 y3);
    try lia; try done; subst;
  destruct (Z.compare_spec m1 m2), (Z.compare_spec m2 m3), (Z.compare_spec m1 m3);
    try lia; try done; subst;
  destruct (Z.compare_spec d1 d2), (Z.compare_spec d2 d3), (Z.compare_spec d1 d3);
    try lia; done.
Qed.

Lemma date_leb_antisym a b : date_leb a b = true -> date_leb b a = true -> a = b.
Proof.
  intros H1 H2. apply date_cmp_eq. unfold date_leb in *.
  destruct a as [y1 m1 d1], b as [y2 m2 d2]; unfold date_cmp in *; simpl in *.
  destruct (Z.compare_spec y1 y2), (Z.compare_spec y2 y1); try lia; try done;
  destruct (Z.compare_spec m1 m2), (Z.compare_spec m2 m1); try lia; try done;
  destruct (Z.compare_spec d1 d2), (Z.compare_spec d2 d1); try lia; done.
Qed.

#[export] Hint Resolve date_leb_refl date_leb_trans : worklog.

(** ** The ISO parser meets [DateParser] *)

Lemma iso_parse_valid s d : iso_parse s = Ok d -> date_valid d = true.
Proof.
  unfold iso_parse. intros H.
  destruct (py_split _ _) as [|ys [|ms [|ds [|]]]]; try discriminate.
  destruct (parse_fixed 4 ys), (parse_fixed 2 ms), (parse_fixed 2 ds); try discriminate.
  destruct (date_valid _) eqn:E; [by invc H | discriminate].
Qed.

Lemma parse_fixed_digits w n :
  (1 <= w)%nat -> 0 <= n < 10 ^ Z.of_nat w ->
  parse_fixed w (string_of_list_ascii (digits_fixed w n)) = Some n.
Proof.
  intros Hw Hn. unfold parse_fixed. rewrite list_ascii_of_string_of_list_ascii.
  rewrite digits_fixed_length, Nat.eqb_refl. by apply parse_uint_digits.
Qed.

Lemma iso_parse_isoformat d : date_valid d = true -> iso_parse (isoformat d) = Ok d.
Proof.
  intros Hv. pose proof (date_valid_bounds d Hv) as (Hy & Hm & Hd).
  pose proof (days_in_month_le (year d) (month d) Hm).
  assert (Hy' : 0 <= year d < 10 ^ Z.of_nat 4) by (simpl; lia).
  assert (Hm' : 0 <= month d < 10 ^ Z.of_nat 2) by (simpl; lia).
  assert (Hd' : 0 <= day d < 10 ^ Z.of_nat 2) by (simpl; lia).
  unfold iso_parse, isoformat, str_cat, py_split. simpl String.concat.
  rewrite !list_ascii_of_string_append.
  rewrite !pad_dec_exact by (lia || done). cbn [list_ascii_of_string app].
  rewrite split_l_app by (apply digits_no_sep; reflexivity).
  rewrite split_l_app by (apply digits_no_sep; reflexivity).
  rewrite ?app_nil_r, split_l_nosep by (apply digits_no_sep; reflexivity).
  cbn [map].
  rewrite !parse_fixed_digits by (lia || done).
  destruct d as [y m dd]; simpl in *. by rewrite Hv.
Qed.

#[export] Instance iso_parser : DateParser :=
  {| parse_date := iso_parse;
     parse_date_valid := iso_parse_valid;
     parse_date_iso := iso_parse_isoformat |}.

(** ** A second parser: ISO datetimes with an offset

    The calendar widget asks [/events] for the visible range with ISO
    datetimes such as ["2024-01-01T00:00:00+02:00"]; [dateutil] parses
    them and [.date()] keeps the date as written.  [iso_datetime_parse]
    accepts an ISO date, optionally followed by ["T"], a time
    ["HH:MM:SS"] and an offset ([""], ["Z"] or ["+HH:MM"] / ["-HH:MM"]). *)

(** A two-digit field below [bound]. *)
Definition field_ok (bound : Z) (l : list ascii) : bool :=
  match parse_fixed 2 (string_of_list_ascii l) with Some n => n <? bound | None => false end.

Definition tz_ok (l : list ascii) : bool :=
  match l with
  | [] => true
  | [c] => Ascii.eqb c "Z"
  | [c; h1; h2; c2; m1; m2] =>
      (Ascii.eqb c "+" || Ascii.eqb c "-") && Ascii.eqb c2 ":" &&
      field_ok 24 [h1; h2] && field_ok 60 [m1; m2]
  | _ => false
  end.

Definition time_ok (t : string) : bool :=
  match list_ascii_of_string t with
  | h1 :: h2 :: c1 :: m1 :: m2 :: c2 :: s1 :: s2 :: tz =>
      Ascii.eqb c1 ":" && Ascii.eqb c2 ":" && field_ok 24 [h1; h2] &&
      field_ok 60 [m1; m2] && field_ok 60 [s1; s2] && tz_ok tz
  | _ => false
  end.

Definition iso_datetime_parse (s : string) : result date :=
  match py_split "T" s with
  | [dp] => iso_parse dp
  | [dp; tp] => if time_ok tp then iso_parse dp else Exc ParserError
  | _ => Exc ParserError
  end.

Lemma iso_datetime_parse_valid s d : iso_datetime_parse s = Ok d -> date_valid d = true.
Proof.
  unfold iso_datetime_parse. destruct (py_split "T" s) as [|dp [|tp [|]]]; try discriminate.
  - apply iso_parse_valid.
  - destruct (time_ok tp); [apply iso_parse_valid | discriminate].
Qed.

Lemma isoformat_no_T d : py_split "T" (isoformat d) = [isoformat d].
Proof.
  unfold py_split. rewrite split_l_nosep; [simpl; by rewrite string_of_list_ascii_of_string|].
  unfold isoformat, str_cat, pad_dec. simpl String.concat.
  rewrite !list_ascii_of_string_append, !list_ascii_of_string_of_list_ascii.
  cbn [list_ascii_of_string app].
  pose proof (fun k n => digits_no_sep "T" k n eq_refl) as Hd.
  intros H. repeat first [apply in_app_iff in H as [H|H] | destruct H as [H|H]];
    try discriminate; exact (Hd _ _ H).
Qed.

Lemma iso_datetime_parse_isoformat d :
  date_valid d = true -> iso_datetime_parse (isoformat d) = Ok d.
Proof. intros Hv. unfold iso_datetime_parse. rewrite isoformat_no_T. by apply iso_parse_isoformat. Qed.

(** Not declared as an instance: the handlers take it explicitly. *)
Definition iso_datetime_parser : DateParser :=
  {| parse_date := iso_datetime_parse;
     parse_date_valid := iso_datetime_parse_valid;
     parse_date_iso := iso_datetime_parse_isoformat |}.

End Dates.
