(* ===== verification/Json.v ===== *)
(** * JSON request bodies

    [save_event] and [calculate_statistics] read [request.json] (app.py
    lines 129, 200) with [data['k']] (lines 131-148) and [data.get('k')]
    (lines 201, 217-218).  This file models the value [json.loads]
    returns and these two accesses, with the exceptions they raise. *)

From S2P Require Import Prelude.

Module Json.

(** The value [json.loads] returns: [None], [bool], [int]/[float] (a
    rational here), [str], [list], [dict] (its items in document order). *)
#[warnings="-register-all"]
Inductive json : Type :=
| JNull
| JBool (b : bool)
| JNum (q : Q)
| JStr (s : string)
| JArr (l : list json)
| JObj (kvs : list (string * json)).

(** [json.loads] keeps the last value of a repeated key. *)
Definition obj_lookup (kvs : list (string * json)) (k : string) : option json :=
  option_map snd (List.find (fun kv => String.eqb (fst kv) k) (rev kvs)).

(** [data[k]]: [KeyError] on a dict without [k]; [TypeError] when [data]
    is not a dict ([None], a list, a string, a number or a bool). *)
Definition json_index (data : json) (k : string) : result json :=
  match data with
  | JObj kvs => ok_of (obj_lookup kvs k) KeyError
  | _ => Exc TypeError
  end.

(** [data.get(k)]: [None] when [k] is missing; [AttributeError] when
    [data] is not a dict. *)
Definition json_get (data : json) (k : string) : result json :=
  match data with
  | JObj kvs => Ok (default JNull (obj_lookup kvs k))
  | _ => Exc AttributeError
  end.

(** A value sqlite3 can bind as a parameter: lists and dicts raise
    [InterfaceError] at flush time. *)
Definition sql_bindable (j : json) : bool :=
  match j with
  | JArr _ | JObj _ => false
  | _ => true
  end.

(** A number for Python's [==]: [bool] is a subclass of [int]. *)
Definition py_num (j : json) : option Q :=
  match j with
  | JBool b => Some (if b then 1 else 0)%Q
  | JNum q => Some q
  | _ => None
  end.

(** Python's [==] between a value a client sent and a value loaded from
    a column (SQLAlchemy's test of a changed attribute): [None] equals
    only [None], numbers and booleans compare as numbers ([True == 1.0]),
    strings by their characters.  A loaded column value is never a list
    or a dict, and a list or dict never equals such a scalar. *)
Definition py_eq (x y : json) : bool :=
  match x, y with
  | JNull, JNull => true
  | JStr s, JStr t => String.eqb s t
  | _, _ => match py_num x, py_num y with
            | Some p, Some q => Qeq_bool p q
            | _, _ => false
            end
  end.

Lemma json_index_get data k v : json_index data k = Ok v -> json_get data k = Ok v.
Proof.
  destruct data; simpl; try discriminate.
  destruct (obj_lookup _ _); simpl; congruence.
Qed.

Lemma py_eq_sym x y : py_eq x y = py_eq y x.
Proof.
  destruct x, y; simpl; try done.
  all: try apply String.eqb_sym.
  all: apply Bool.eq_true_iff_eq; rewrite !Qeq_bool_iff; split; intros; by symmetry.
Qed.

Lemma py_eq_trans x y z : py_eq x y = true -> py_eq y z = true -> py_eq x z = true.
Proof.
  destruct x, y, z; simpl; try done.
  all: try (rewrite !String.eqb_eq; congruence).
  all: rewrite !Qeq_bool_iff; intros; by etrans.
Qed.

(** [==] is reflexive on the values sqlite3 binds. *)
Lemma py_eq_refl x : sql_bindable x = true -> py_eq x x = true.
Proof. destruct x; simpl; intros H; try discriminate; auto using Qeq_bool_refl, String.eqb_refl. Qed.

Lemma py_eq_bindable x y : py_eq x y = true -> sql_bindable x = true.
Proof. by destruct x, y. Qed.

End Json.
