(* ===== verification/Store.v ===== *)
(** * The SQLite store: rows, tables and the queries of [app.py]

    The three models of app.py lines 15-35 ([User], [Activity],
    [Feedback]) become records; a table is the list of its rows in rowid
    order.  The generic [Table] section gives SQLite's rowid allocation
    and the row operations SQLAlchemy issues ([INSERT], [UPDATE],
    [DELETE], [.get(id)], [.first()]), and the well-formedness of a table:
    its rowids strictly increase along the list. *)

From S2P Require Import Prelude PyStr Dates Json.
From Stdlib Require Import Sorting.Sorted.

Local Open Scope Z_scope.

Module Store.
Import PyStr Dates Json.

(** ** Rows *)

(** [class User] (lines 15-19); [activities] is the inverse of
    [Activity.user_id] and is not stored. *)
Record user := mkUser { user_id : Z; username : string; password : string }.

(** [class Activity] (lines 21-28).  The three [String] columns hold the
    JSON scalar the client sent (see the header on column affinity); the
    [Float] column [salary] holds what [float()] made of it: a number, or
    NULL. *)
Record activity := mkActivity {
  act_id : Z; act_date : date;
  start_time : json; end_time : json; notes : json; salary : json;
  act_user : Z }.

(** ** Column types *)

(** The parameter of a [Float] column (line 27): on SQLite, SQLAlchemy's
    bind processor is [float(value)], [None] passing as NULL.  A string
    that is not a float literal raises [ValueError], a list or a dict
    [TypeError]; SQLite stores a NaN as NULL. *)
Definition to_float (j : json) : result json :=
  match j with
  | JNull => Ok JNull
  | JBool b => Ok (JNum (if b then 1 else 0)%Q)
  | JNum q => Ok (JNum q)
  | JStr s =>
      match py_float s with
      | Some (PFinite q) => Ok (JNum q)
      | Some PNaN => Ok JNull
      | None => Exc ValueError
      end
  | JArr _ | JObj _ => Exc TypeError
  end.

(** What a [Float] column holds: a number or NULL. *)
Definition float_value (j : json) : bool :=
  match j with
  | JNull | JNum _ => true
  | _ => false
  end.

(** [class Feedback] (lines 30-35); [timestamp] is [datetime.utcnow()] at
    insertion, in microseconds. *)
Record feedback := mkFeedback {
  fb_id : Z; subject : string; fb_name : string; message : string; timestamp : Z }.

(** The whole database. *)
Record db := mkDb { users : list user; activities : list activity; feedbacks : list feedback }.

Definition empty_db : db := mkDb [] [] [].

(** ** A table *)

Section Table.
Context {R : Type} (rid : R -> Z).
Implicit Types (l : list R) (r : R).

(** The largest rowid present, [0] for an empty table. *)
Definition max_rowid l : Z := fold_right (fun r m => Z.max (rid r) m) 0 l.

(** SQLite's rowid for [INSERT] without an explicit id. *)
Definition next_rowid l : Z := max_rowid l + 1.

(** [INSERT]: the new row goes last in rowid order. *)
Definition tbl_insert l r : list R := l ++ [r].

(** [Model.query.get(i)]. *)
Definition tbl_get l (i : Z) : option R := List.find (fun r => rid r =? i) l.

(** [DELETE ... WHERE id = i]. *)
Definition tbl_delete l (i : Z) : list R := List.filter (fun r => negb (rid r =? i)) l.

(** [UPDATE ... WHERE id = i]. *)
Definition tbl_update l (i : Z) (f : R -> R) : list R :=
  map (fun r => if rid r =? i then f r else r) l.

(** Well-formedness: rowids are positive and strictly increase. *)
Definition rowids_ok l : Prop :=
  Forall (fun r => 0 < rid r) l /\ StronglySorted (fun a b => rid a < rid b) l.

(** The same property, as a test. *)
Fixpoint increasing (l : list Z) : bool :=
  match l with
  | x :: ((y :: _) as t) => (x <? y) && increasing t
  | _ => true
  end.

Definition rowids_okb l : bool :=
  forallb (fun r => 0 <? rid r) l && increasing (map rid l).

Lemma increasing_sorted l :
  increasing (map rid l) = true -> Sorted (fun a b => rid a < rid b) l.
Proof.
  induction l as [|a [|b l] IH]; simpl; intros H; [constructor | repeat constructor |].
  apply andb_true_iff in H as [Hab H]. apply Z.ltb_lt in Hab.
  constructor; [by apply IH | by constructor].
Qed.

Lemma rowids_okb_sound l : rowids_okb l = true -> rowids_ok l.
Proof.
  unfold rowids_okb. intros H. apply andb_true_iff in H as [Hp Hi]. split.
  - apply List.Forall_forall. intros r Hr. eapply forallb_forall in Hp; [|exact Hr].
    by apply Z.ltb_lt.
  - apply Sorted_StronglySorted; [intros ???; lia|]. by apply increasing_sorted.
Qed.

Lemma max_rowid_ge l r : In r l -> rid r <= max_rowid l.
Proof.
  induction l as [|r' l IH]; simpl; [done|].
  intros [->|Hin]; [lia|]. specialize (IH Hin). lia.
Qed.

Lemma max_rowid_nonneg l : 0 <= max_rowid l.
Proof. induction l; simpl; lia. Qed.

(** The new rowid is larger than every rowid present. *)
Lemma next_rowid_fresh l r : In r l -> rid r < next_rowid l.
Proof. intros H. apply max_rowid_ge in H. unfold next_rowid. lia. Qed.

Lemma tbl_get_none_next l : tbl_get l (next_rowid l) = None.
Proof.
  unfold tbl_get. apply find_none_intro. intros r Hin.
  pose proof (next_rowid_fresh l r Hin). apply Z.eqb_neq. lia.
Qed.

Lemma tbl_get_some l i r : tbl_get l i = Some r -> In r l /\ rid r = i.
Proof. unfold tbl_get. intros H. apply find_some in H as [? ?]. bool_to_prop. done. Qed.

Lemma rowids_ok_insert l r :
  rowids_ok l -> rid r = next_rowid l -> rowids_ok (tbl_insert l r).
Proof.
  intros [Hpos Hs] Hr. unfold tbl_insert. split.
  - apply Forall_app; split; [done|]. constructor; [|done].
    pose proof (max_rowid_nonneg l). unfold next_rowid in Hr. lia.
  - apply StronglySorted_snoc; [done|]. apply List.Forall_forall.
    intros y Hy. rewrite Hr. by apply next_rowid_fresh.
Qed.

Lemma rowids_ok_delete l i : rowids_ok l -> rowids_ok (tbl_delete l i).
Proof.
  intros [Hpos Hs]. split.
  - apply List.Forall_forall. intros y Hy. apply filter_In in Hy as [Hy _].
    by eapply List.Forall_forall in Hy; [|eassumption].
  - by apply StronglySorted_filter.
Qed.

Lemma rowids_ok_update l i f :
  (forall r, rid (f r) = rid r) -> rowids_ok l -> rowids_ok (tbl_update l i f).
Proof.
  intros Hf [Hpos Hs]. split.
  - apply Forall_map. eapply Forall_impl; [exact Hpos|].
    intros r. simpl. destruct (rid r =? i); [rewrite Hf|]; done.
  - apply StronglySorted_map_same; [|done].
    intros a b. destruct (rid a =? i), (rid b =? i); rewrite ?Hf; done.
Qed.

(** Distinct rows have distinct rowids. *)
Lemma rowids_ok_nodup l : rowids_ok l -> List.NoDup (map rid l).
Proof.
  intros [_ Hs]. induction Hs as [|r l Hs IH Hf]; simpl; constructor; [|done].
  intros Hin. apply in_map_iff in Hin as (r' & Heq & Hin).
  eapply List.Forall_forall in Hin; [|exact Hf]. simpl in Hin. lia.
Qed.

(** In a well-formed table, [get] finds the one row with that rowid. *)
Lemma tbl_get_in l r : rowids_ok l -> In r l -> tbl_get l (rid r) = Some r.
Proof.
  intros [_ Hs] Hin. unfold tbl_get.
  induction Hs as [|r' l Hs IH Hf]; [done|]. simpl.
  destruct Hin as [->|Hin]; [by rewrite Z.eqb_refl|].
  eapply List.Forall_forall in Hin as Hlt; [|exact Hf]. simpl in Hlt.
  destruct (Z.eqb_spec (rid r') (rid r)); [lia|]. auto.
Qed.

Lemma tbl_delete_in l i r : In r (tbl_delete l i) <-> In r l /\ rid r <> i.
Proof.
  unfold tbl_delete. rewrite filter_In.
  destruct (Z.eqb_spec (rid r) i); simpl; intuition congruence.
Qed.

End Table.

(** ** Lemmas on the column types *)

Lemma to_float_value j v : to_float j = Ok v -> float_value v = true.
Proof. destruct j; simpl; try discriminate; try (by intros [= <-]). by repeat case_match; intros; simplify_eq. Qed.

(** A value [==] to a loaded [Float] value converts, and to a value
    [==] to it: an unchanged salary would bind. *)
Lemma to_float_unchanged j old :
  float_value old = true -> py_eq j old = true -> exists v, to_float j = Ok v /\ py_eq v old = true.
Proof.
  destruct old; simpl; try discriminate; intros _; destruct j; simpl; try discriminate; intros E;
    eexists; (split; [reflexivity|]); simpl; try done.
  all: rewrite Qeq_bool_iff in *; done.
Qed.

End Store.
