(* ===== verification/Http.v ===== *)
(** * The Flask surface: session, forms, query arguments, responses

    What a view of [app.py] reads ([session['user_id']], [request.form],
    [request.args]) and what it returns ([redirect(url_for(..))], a string,
    [jsonify(..)] with a status, [render_template(..)], or an exception
    that Flask turns into an error response). *)

From S2P Require Import Prelude Json Store.

Local Open Scope Z_scope.

Module Http.
Import Json Store.

(** [session.get('user_id')]: the cookie is signed with the constant key
    of line 8, so a client can present any value. *)
Definition session := option Z.

(** The HTTP method of a route that accepts both GET and POST. *)
Inductive method := GET | POST.

(** [request.form]: a MultiDict; [form['k']] returns the first value and
    raises [BadRequestKeyError] when [k] is absent. *)
Definition form := list (string * string).

Definition form_get (f : form) (k : string) : result string :=
  ok_of (option_map snd (List.find (fun kv => String.eqb (fst kv) k) f)) BadRequestKeyError.

Lemma form_get_exc f k e : form_get f k = Exc e -> e = BadRequestKeyError.
Proof. unfold form_get. by destruct (option_map _ _); intros [=]. Qed.

(** [request.args.get('k')]: the first value, or [None]. *)
Definition args := list (string * string).

Definition args_get (a : args) (k : string) : option string :=
  option_map snd (List.find (fun kv => String.eqb (fst kv) k) a).

(** Python truthiness of an optional [str]: [None] and [''] are false. *)
Definition truthy (o : option string) : bool :=
  match o with
  | Some s => negb (String.eqb s "")
  | None => false
  end.

(** The templates and the data passed to them. *)
Inductive page :=
| PIndex (fbs : list feedback)     (** index.html, feedbacks=.. *)
| PRegister                        (** register.html *)
| PLogin                           (** login.html *)
| PCalendar (uname : string).      (** calendar.html, username=.. *)

Inductive response :=
| RRedirect (endpoint : string)      (** [redirect(url_for(endpoint))] *)
| RText (code : Z) (body : string)   (** a [str] returned by the view *)
| RJson (code : Z) (body : json)     (** [jsonify(body), code] *)
| RJsonExc (e : pyexc)               (** [jsonify({'error': str(e)}), 500] *)
| RPage (p : page)                   (** [render_template(..)] *)
| RAbort (code : Z).                 (** Flask's error response *)

(** An exception that escapes a view: Werkzeug's [BadRequestKeyError] is an
    HTTP 400, any other exception an HTTP 500. *)
Definition abort_of_exc (e : pyexc) : response :=
  match e with
  | BadRequestKeyError => RAbort 400
  | _ => RAbort 500
  end.

(** [{'error': msg}]. *)
Definition err_json (msg : string) : json := JObj [("error", JStr msg)].

Definition unauthorized : response := RJson 401 (err_json "Unauthorized").

End Http.
