(* ===== verification/Auth.v ===== *)
(** * Registration and login ([register], [login], [logout], [dashboard])

    app.py lines 47-76 and 167-170.  A view returns its response with the
    new session and, when it writes, the new database. *)

From S2P Require Import Prelude Dates Store Http.

Local Open Scope Z_scope.

Module Auth.
Import Store Http.

(** [User.query.filter_by(username=u).first()] *)
Definition find_by_username (us : list user) (u : string) : option user :=
  List.find (fun x => String.eqb (username x) u) us.

(** [User.query.filter_by(username=u, password=p).first()] *)
Definition find_by_credentials (us : list user) (u p : string) : option user :=
  List.find (fun x => String.eqb (username x) u && String.eqb (password x) p) us.

(** [register()], lines 47-58. *)
Definition register (m : method) (d : db) (f : form) : response * db :=
  match m with
  | GET => (RPage PRegister, d)
  | POST =>
      match (u <-? form_get f "username" ;; p <-? form_get f "password" ;; Ok (u, p)) with
      | Exc e => (abort_of_exc e, d)
      | Ok (u, p) =>
          match find_by_username (users d) u with
          | Some _ => (RText 200 "User already exists", d)
          | None =>
              let nu := mkUser (next_rowid user_id (users d)) u p in
              (RRedirect "login", mkDb (tbl_insert (users d) nu) (activities d) (feedbacks d))
          end
      end
  end.

(** [login()], lines 60-69: a failed login leaves the session as it was. *)
Definition login (m : method) (d : db) (s : session) (f : form) : response * session :=
  match m with
  | GET => (RPage PLogin, s)
  | POST =>
      match (u <-? form_get f "username" ;; p <-? form_get f "password" ;; Ok (u, p)) with
      | Exc e => (abort_of_exc e, s)
      | Ok (u, p) =>
          match find_by_credentials (users d) u p with
          | Some usr => (RRedirect "dashboard", Some (user_id usr))
          | None => (RText 200 "Invalid credentials", s)
          end
      end
  end.

(** [logout()], lines 167-170: [session.pop('user_id', None)]. *)
Definition logout (s : session) : response * session := (RRedirect "index", None).

(** [dashboard()], lines 71-76: [User.query.get(uid)] is [None] for an id
    without a row, and [user.username] then raises [AttributeError]. *)
Definition dashboard (d : db) (s : session) : response :=
  match s with
  | None => RRedirect "login"
  | Some uid =>
      match tbl_get user_id (users d) uid with
      | Some usr => RPage (PCalendar (username usr))
      | None => abort_of_exc AttributeError
      end
  end.

(** The [unique=True] constraint of [User.username] (line 17). *)
Definition usernames_unique (us : list user) : Prop := List.NoDup (map username us).

(** ** Lemmas *)

Lemma find_by_username_some us u x :
  find_by_username us u = Some x -> In x us /\ username x = u.
Proof. unfold find_by_username. intros H. apply find_some in H as [? ?]. by bool_to_prop. Qed.

Lemma find_by_username_none us u :
  find_by_username us u = None <-> forall x, In x us -> username x <> u.
Proof.
  unfold find_by_username. split.
  - intros H x Hin. eapply find_none in H; [|done]. by bool_to_prop.
  - intros H. apply find_none_intro. intros x Hin. apply String.eqb_neq; auto.
Qed.

(** With unique user names, the credentials of a row select that row. *)
Lemma find_by_credentials_unique us usr :
  usernames_unique us -> In usr us ->
  find_by_credentials us (username usr) (password usr) = Some usr.
Proof.
  unfold usernames_unique, find_by_credentials. intros Hu Hin.
  induction us as [|x us IH]; [done|]. simpl in *. invc Hu.
  destruct Hin as [->|Hin]; [by rewrite !String.eqb_refl|].
  destruct (String.eqb_spec (username x) (username usr)) as [He|He].
  - exfalso. apply H1. rewrite He. by apply in_map.
  - simpl. auto.
Qed.

Lemma find_by_credentials_some us u p x :
  find_by_credentials us u p = Some x -> In x us /\ username x = u /\ password x = p.
Proof.
  unfold find_by_credentials. intros H. apply find_some in H as [? ?]. by bool_to_prop.
Qed.

Lemma find_by_credentials_none us u p :
  (forall x, In x us -> username x <> u \/ password x <> p) ->
  find_by_credentials us u p = None.
Proof.
  intros H. apply find_none_intro. intros x Hin.
  destruct (H x Hin); [rewrite (proj2 (String.eqb_neq _ _) H0) |
                       rewrite (proj2 (String.eqb_neq _ _) H0), andb_false_r]; done.
Qed.

Lemma form_pair_ok f u p :
  form_get f "username" = Ok u -> form_get f "password" = Ok p ->
  (u' <-? form_get f "username" ;; p' <-? form_get f "password" ;; Ok (u', p')) = Ok (u, p).
Proof. intros Hu Hp. by rewrite Hu; simpl; rewrite Hp. Qed.

(** The user row [register] inserts for a fresh name. *)
Definition new_user (d : db) (u p : string) : user := mkUser (next_rowid user_id (users d)) u p.

Lemma register_post_ok d f u p :
  form_get f "username" = Ok u -> form_get f "password" = Ok p ->
  register POST d f =
    match find_by_username (users d) u with
    | Some _ => (RText 200 "User already exists", d)
    | None => (RRedirect "login",
               mkDb (tbl_insert (users d) (new_user d u p)) (activities d) (feedbacks d))
    end.
Proof. intros Hu Hp. unfold register. by rewrite form_pair_ok with (u := u) (p := p). Qed.

(** [register] keeps the user names unique, whatever the request. *)
Lemma register_usernames_unique m d f :
  usernames_unique (users d) -> usernames_unique (users (snd (register m d f))).
Proof.
  intros Hu. destruct m; simpl; [done|].
  destruct (u <-? _ ;; _) as [[u p]|e]; simpl; [|done].
  destruct (find_by_username (users d) u) eqn:E; simpl; [done|].
  unfold usernames_unique, tbl_insert. rewrite map_app. simpl.
  apply NoDup_snoc; [done|]. intros Hx. apply in_map_iff in Hx as (y & Hyu & Hy).
  eapply find_by_username_none in E; eauto.
Qed.

Lemma register_rowids_ok m d f :
  rowids_ok user_id (users d) -> rowids_ok user_id (users (snd (register m d f))).
Proof.
  intros Hr. destruct m; simpl; [done|].
  destruct (u <-? _ ;; _) as [[u p]|e]; simpl; [|done].
  destruct (find_by_username (users d) u); simpl; [done|].
  by apply rowids_ok_insert.
Qed.

#[export] Hint Resolve register_usernames_unique register_rowids_ok : worklog.

(** ** Properties *)

(** Registering a user name that is already taken answers
    ["User already exists"] and leaves the database unchanged. *)
Theorem register_conflict d f u p x :
  form_get f "username" = Ok u -> form_get f "password" = Ok p ->
  In x (users d) -> username x = u ->
  register POST d f = (RText 200 "User already exists", d).
Proof.
  intros Hu Hp Hin Hx. rewrite (register_post_ok d f u p Hu Hp).
  destruct (find_by_username (users d) u) eqn:E; [done|].
  exfalso. eapply find_by_username_none in E; eauto.
Qed.

Lemma register_conflict_witness :
  register POST (mkDb [mkUser 1 "ann" "pw"] [] []) [("username", "ann"); ("password", "x")] =
    (RText 200 "User already exists", mkDb [mkUser 1 "ann" "pw"] [] []).
Proof.
  apply (register_conflict _ _ "ann" "x" (mkUser 1 "ann" "pw")); try reflexivity. simpl; tauto.
Defined.

(** C28: two registrations with the same user name: the second one fails
    with ["User already exists"] and leaves the database as the first one
    left it, in which the name is registered. *)
Theorem register_twice d f f' u p p' :
  form_get f "username" = Ok u -> form_get f "password" = Ok p ->
  form_get f' "username" = Ok u -> form_get f' "password" = Ok p' ->
  let d1 := snd (register POST d f) in
  register POST d1 f' = (RText 200 "User already exists", d1) /\
  exists x, In x (users d1) /\ username x = u.
Proof.
  intros Hu Hp Hu' Hp' d1.
  assert (Hx : exists x, In x (users d1) /\ username x = u).
  { subst d1. rewrite (register_post_ok d f u p Hu Hp).
    destruct (find_by_username (users d) u) as [x|] eqn:E.
    - apply find_by_username_some in E. by exists x.
    - exists (new_user d u p). simpl. split; [|done].
      unfold tbl_insert. apply in_or_app. simpl; auto. }
  destruct Hx as (x & Hin & Hxu).
  split; [|by exists x]. by eapply register_conflict.
Qed.

Lemma register_twice_witness :
  let f := [("username", "ann"); ("password", "pw1")] in
  let f' := [("username", "ann"); ("password", "pw2")] in
  let d1 := snd (register POST empty_db f) in
  register POST d1 f' = (RText 200 "User already exists", d1) /\
  exists x, In x (users d1) /\ username x = "ann".
Proof.
  exact (register_twice empty_db [("username", "ann"); ("password", "pw1")]
           [("username", "ann"); ("password", "pw2")] "ann" "pw1" "pw2"
           eq_refl eq_refl eq_refl eq_refl).
Defined.

(** C29: a login with the user name and password of a registered user
    binds the session to that user's id and redirects to the dashboard. *)
Theorem login_success d s f usr :
  usernames_unique (users d) -> In usr (users d) ->
  form_get f "username" = Ok (username usr) -> form_get f "password" = Ok (password usr) ->
  login POST d s f = (RRedirect "dashboard", Some (user_id usr)).
Proof.
  intros Hu Hin Hfu Hfp. unfold login.
  rewrite (form_pair_ok f _ _ Hfu Hfp).
  by rewrite find_by_credentials_unique.
Qed.

Lemma login_success_witness :
  let d := mkDb [mkUser 1 "ann" "pw"; mkUser 2 "bob" "pw"] [] [] in
  login POST d None [("username", "bob"); ("password", "pw")] =
    (RRedirect "dashboard", Some 2%Z).
Proof.
  intros d. apply (login_success d None _ (mkUser 2 "bob" "pw")).
  - repeat constructor; simpl; intuition discriminate.
  - simpl; auto.
  - reflexivity.
  - reflexivity.
Defined.

(** C30: a login whose user name or password matches no user answers
    ["Invalid credentials"] and leaves the session as it was: a client
    already logged in stays logged in as before. *)
Theorem login_failure_keeps_session d s f u p :
  form_get f "username" = Ok u -> form_get f "password" = Ok p ->
  (forall x, In x (users d) -> username x <> u \/ password x <> p) ->
  login POST d s f = (RText 200 "Invalid credentials", s).
Proof.
  intros Hfu Hfp Hno. unfold login.
  rewrite (form_pair_ok f _ _ Hfu Hfp). by rewrite find_by_credentials_none.
Qed.

Lemma login_failure_keeps_session_witness :
  let d := mkDb [mkUser 1 "ann" "pw"; mkUser 2 "bob" "pw"] [] [] in
  login POST d (Some 1%Z) [("username", "bob"); ("password", "nope")] =
    (RText 200 "Invalid credentials", Some 1%Z).
Proof.
  intros d. apply (login_failure_keeps_session d _ _ "bob" "nope"); try reflexivity.
  intros x [<-|[<-|[]]]; [left|right]; simpl; discriminate.
Defined.

(** C36: a session whose id has no user row (a deleted user, a forged
    cookie) makes the dashboard fail with an HTTP 500 ([None.username])
    instead of treating the client as unauthorized. *)
Lemma dashboard_dangling_session d uid :
  (forall x, In x (users d) -> user_id x <> uid) -> dashboard d (Some uid) = RAbort 500.
Proof.
  intros H. simpl. unfold tbl_get.
  rewrite find_none_intro; [done|]. intros x Hx. apply Z.eqb_neq. auto.
Qed.

Lemma dashboard_dangling_session_witness :
  dashboard (mkDb [mkUser 1 "ann" "pw"] [] []) (Some 7%Z) = RAbort 500.
Proof.
  apply dashboard_dangling_session. intros x [<-|[]]. simpl. discriminate.
Defined.

End Auth.
