(* ===== verification/Activities.v ===== *)
(** * The calendar API: [get_events], [get_event], [save_event], [delete_event]

    app.py lines 78-165.  Every handler is parameterised by the date
    parser ([DateParser]); the section below fixes one.  The state they
    change is the Activity table of the database.  [save_event] is an
    upsert keyed by (user, date), written at its commit by SQLAlchemy's
    flush ([flush_insert], [flush_update]: the changed columns only, the
    salary through [float()]); [delete_event] deletes by id when the row
    belongs to the session's user. *)

From S2P Require Import Prelude Dates Json Store Http.

Local Open Scope Z_scope.

Module Activities.
Import Dates Json Store Http.

(** The key the application keeps unique: (owner, date). *)
Definition act_key (a : activity) : Z * date := (act_user a, act_date a).

(** [Activity.query.filter_by(user_id=u, date=dt).first()] *)
Definition find_activity (acts : list activity) (u : Z) (dt : date) : option activity :=
  List.find (fun a => (act_user a =? u) && bool_decide (act_date a = dt)) acts.

(** The invariant: at most one row per (user, date). *)
Definition one_per_date (acts : list activity) : Prop := List.NoDup (map act_key acts).

#[export] Instance one_per_date_dec acts : Decision (one_per_date acts).
Proof.
  unfold one_per_date.
  destruct (decide (NoDup (map act_key acts))) as [Hn|Hn];
    [left | right]; by rewrite <- NoDup_ListNoDup.
Defined.

(** The summary [get_events] sends for a row (lines 94-98). *)
Definition event_json (a : activity) : json :=
  JObj [("title", JStr "work"); ("start", JStr (isoformat (act_date a)));
        ("id", JNum (inject_Z (act_id a)))].

(** The detail [get_event] sends for a row (lines 113-119). *)
Definition detail_json (a : activity) : json :=
  JObj [("start", start_time a); ("end", end_time a); ("notes", notes a);
        ("salary", salary a); ("id", JNum (inject_Z (act_id a)))].

Definition success_json : json := JObj [("success", JBool true)].

Definition not_found : response := RJson 404 (err_json "Not found").

(** The four data columns a client sends, in the order Python reads them. *)
Record fields := mkFields { f_start : json; f_end : json; f_notes : json; f_salary : json }.

Definition read_fields (data : json) : result fields :=
  st <-? json_index data "start" ;;
  en <-? json_index data "end" ;;
  nt <-? json_index data "notes" ;;
  sl <-? json_index data "salary" ;;
  Ok (mkFields st en nt sl).

(** The parameters of the four columns at flush time: SQLAlchemy's
    [float()] of the salary first, then sqlite3's binding of the
    [String] columns, which refuses a list or a dict ([InterfaceError]).
    The result is the salary as it is stored. *)
Definition bind_fields (fs : fields) : result json :=
  sal <-? to_float (f_salary fs) ;;
  if sql_bindable (f_start fs) && sql_bindable (f_end fs) && sql_bindable (f_notes fs)
  then Ok sal else Exc InterfaceError.

Definition fields_of (a : activity) : fields :=
  mkFields (start_time a) (end_time a) (notes a) (salary a).

(** The assignments of lines 145-148. *)
Definition set_fields (fs : fields) (a : activity) : activity :=
  mkActivity (act_id a) (act_date a) (f_start fs) (f_end fs) (f_notes fs) (f_salary fs)
             (act_user a).

Definition with_salary (sal : json) (a : activity) : activity :=
  mkActivity (act_id a) (act_date a) (start_time a) (end_time a) (notes a) sal (act_user a).

(** ** The flush at [db.session.commit()] *)

(** SQLAlchemy's test of a changed attribute: the value now held,
    unless it is [==] to the value loaded. *)
Definition dirty (loaded now : json) : option json := if py_eq now loaded then None else Some now.

(** The columns an UPDATE sets, [None] for a column left alone. *)
Record changes := mkChanges {
  ch_start : option json; ch_end : option json; ch_notes : option json; ch_salary : option json }.

Definition changes_of (ex obj : activity) : changes :=
  mkChanges (dirty (start_time ex) (start_time obj)) (dirty (end_time ex) (end_time obj))
            (dirty (notes ex) (notes obj)) (dirty (salary ex) (salary obj)).

Definition no_change (c : changes) : bool :=
  match c with
  | mkChanges None None None None => true
  | _ => false
  end.

(** [SET col = ?] for the columns of [c]. *)
Definition set_changes (c : changes) (a : activity) : activity :=
  mkActivity (act_id a) (act_date a) (default (start_time a) (ch_start c))
             (default (end_time a) (ch_end c)) (default (notes a) (ch_notes c))
             (default (salary a) (ch_salary c)) (act_user a).

Definition bind_opt (f : json -> result json) (o : option json) : result (option json) :=
  match o with
  | Some v => v' <-? f v ;; Ok (Some v')
  | None => Ok None
  end.

Definition bindable_opt (o : option json) : bool :=
  match o with
  | Some v => sql_bindable v
  | None => true
  end.

Definition with_activities (d : db) (acts : list activity) : db :=
  mkDb (users d) acts (feedbacks d).

(** The INSERT of the new object [a]: its salary through [float()], the
    [String] columns bound, the rowid the one [a] was given. *)
Definition flush_insert (d : db) (a : activity) : result db :=
  sal <-? bind_fields (fields_of a) ;;
  Ok (with_activities d (tbl_insert (activities d) (with_salary sal a))).

(** The flush of the object [obj] loaded as the row [ex]: no statement
    when no column changed; otherwise [UPDATE activity SET <changed
    columns> WHERE id = ?], a changed salary through [float()], the
    other parameters bound by sqlite3; an UPDATE that matches no row
    makes SQLAlchemy raise [StaleDataError]. *)
Definition flush_update (d : db) (ex obj : activity) : result db :=
  let c := changes_of ex obj in
  if no_change c then Ok d
  else
    sal <-? bind_opt to_float (ch_salary c) ;;
    if bindable_opt (ch_start c) && bindable_opt (ch_end c) && bindable_opt (ch_notes c) then
      match tbl_get act_id (activities d) (act_id ex) with
      | Some _ =>
          Ok (with_activities d (tbl_update act_id (activities d) (act_id ex)
                (set_changes (mkChanges (ch_start c) (ch_end c) (ch_notes c) sal))))
      | None => Exc StaleDataError
      end
    else Exc InterfaceError.

(** [act_key a = k], as a test. *)
Definition key_is (k : Z * date) (a : activity) : bool := bool_decide (act_key a = k).

(** The row [save_event] inserts when (uid, dt) has none (lines 135-143). *)
Definition new_activity (acts : list activity) (uid : Z) (dt : date) (fs : fields) : activity :=
  mkActivity (next_rowid act_id acts) dt (f_start fs) (f_end fs) (f_notes fs) (f_salary fs) uid.

(** The columns a sequential save of [fs] over the row [ex] changes,
    [sal] the salary as [float()] made it. *)
Definition changes_with (ex : activity) (fs : fields) (sal : json) : changes :=
  mkChanges (dirty (start_time ex) (f_start fs)) (dirty (end_time ex) (f_end fs))
            (dirty (notes ex) (f_notes fs)) (if py_eq (f_salary fs) (salary ex) then None else Some sal).

(** The table after a successful [save_event]: insertion or update. *)
Definition upsert_rows (acts : list activity) (uid : Z) (dt : date) (fs : fields) (sal : json)
  : list activity :=
  match find_activity acts uid dt with
  | None => tbl_insert acts (with_salary sal (new_activity acts uid dt fs))
  | Some ex => tbl_update act_id acts (act_id ex) (set_changes (changes_with ex fs sal))
  end.

(** Every stored salary is a number or NULL. *)
Definition floats_ok (acts : list activity) : Prop :=
  Forall (fun a => float_value (salary a) = true) acts.

Section Handlers.
Context `{DateParser}.

(** [parser.parse(x).date()]: a non-string argument raises [TypeError]. *)
Definition parse_json_date (j : json) : result date :=
  match j with
  | JStr s => parse_date s
  | _ => Exc TypeError
  end.

(** [get_events()], lines 78-103.  Both bounds are used only when both
    are non-empty ([if start and end:]). *)
Definition get_events (d : db) (s : session) (a : args) : response :=
  match s with
  | None => RJson 200 (JArr [])
  | Some uid =>
      let mine := List.filter (fun x => act_user x =? uid) (activities d) in
      let sel :=
        match args_get a "start", args_get a "end" with
        | Some st, Some en =>
            if truthy (Some st) && truthy (Some en) then
              sd <-? parse_date st ;;
              ed <-? parse_date en ;;
              Ok (List.filter (fun x => date_in sd ed (act_date x)) mine)
            else Ok mine
        | _, _ => Ok mine
        end in
      match sel with
      | Ok acts => RJson 200 (JArr (map event_json acts))
      | Exc e => RJsonExc e
      end
  end.

(** [get_event(date)], lines 105-123. *)
Definition get_event (d : db) (s : session) (ds : string) : response :=
  match s with
  | None => unauthorized
  | Some uid =>
      match parse_date ds with
      | Exc e => RJsonExc e
      | Ok dt =>
          match find_activity (activities d) uid dt with
          | Some x => RJson 200 (detail_json x)
          | None => RJson 200 (JObj [])
          end
      end
  end.

(** The body of the [try] of [save_event] (lines 131-151): the new
    database, or the exception.  The new object, or the assignments to
    the row loaded, are flushed at [commit()]. *)
Definition save_event_tx (d : db) (uid : Z) (data : json) : result db :=
  dj <-? json_index data "date" ;;
  dt <-? parse_json_date dj ;;
  match find_activity (activities d) uid dt with
  | None =>
      fs <-? read_fields data ;;
      flush_insert d (new_activity (activities d) uid dt fs)
  | Some ex =>
      fs <-? read_fields data ;;
      flush_update d ex (set_fields fs ex)
  end.

(** What the body of a save decodes, in the order the handler reads
    it: the date, the four fields, the stored salary. *)
Record save_args := mkSaveArgs { sa_date : date; sa_fields : fields; sa_salary : json }.

Definition decode_save (data : json) : result save_args :=
  dj <-? json_index data "date" ;;
  dt <-? parse_json_date dj ;;
  fs <-? read_fields data ;;
  sal <-? bind_fields fs ;;
  Ok (mkSaveArgs dt fs sal).

(** [save_event()], lines 125-154.  [request.json] is read outside the
    [try]: a body that is not JSON ([None] here) is Flask's HTTP 400. *)
Definition save_event (d : db) (s : session) (body : option json) : response * db :=
  match s with
  | None => (unauthorized, d)
  | Some uid =>
      match body with
      | None => (RAbort 400, d)
      | Some data =>
          match save_event_tx d uid data with
          | Ok d' => (RJson 200 success_json, d')
          | Exc e => (RJsonExc e, d)
          end
      end
  end.
End Handlers.

(** [delete_event(event_id)], lines 156-165. *)
Definition delete_event (d : db) (s : session) (eid : Z) : response * db :=
  match s with
  | None => (unauthorized, d)
  | Some uid =>
      match tbl_get act_id (activities d) eid with
      | Some a =>
          if act_user a =? uid
          then (RJson 200 success_json, with_activities d (tbl_delete act_id (activities d) eid))
          else (not_found, d)
      | None => (not_found, d)
      end
  end.

(** ** Lemmas *)

Lemma find_activity_some acts u dt a :
  find_activity acts u dt = Some a -> In a acts /\ act_key a = (u, dt).
Proof.
  unfold find_activity. intros Hf. apply find_some in Hf as [Hin Hp].
  apply andb_true_iff in Hp as [Hu Hd]. apply Z.eqb_eq in Hu.
  apply bool_decide_eq_true in Hd. unfold act_key. by subst.
Qed.

Lemma find_activity_none acts u dt :
  find_activity acts u dt = None -> forall a, In a acts -> act_key a <> (u, dt).
Proof.
  intros Hf a Hin Hk. eapply find_none in Hf; [|exact Hin].
  unfold act_key in Hk. injection Hk as Hu Hd. rewrite Hu, Hd in Hf.
  by rewrite Z.eqb_refl, bool_decide_eq_true_2 in Hf.
Qed.

Lemma find_activity_in acts a :
  one_per_date acts -> In a acts -> find_activity acts (act_user a) (act_date a) = Some a.
Proof.
  intros Hu Hin. destruct (find_activity acts _ _) as [b|] eqn:E.
  - apply find_activity_some in E as [Hb Hk]. f_equal. by eapply NoDup_map_eq.
  - exfalso. by eapply find_activity_none.
Qed.

(** An UPDATE keeps every key and every rowid. *)
Lemma keys_update acts i c :
  map act_key (tbl_update act_id acts i (set_changes c)) = map act_key acts.
Proof.
  unfold tbl_update. rewrite map_map. apply map_ext. intros a. by destruct (act_id a =? i).
Qed.

Lemma set_changes_none a : set_changes (mkChanges None None None None) a = a.
Proof. by destruct a. Qed.

Lemma update_no_change acts i : tbl_update act_id acts i (set_changes (mkChanges None None None None)) = acts.
Proof.
  unfold tbl_update. rewrite <- (map_id acts) at 2. apply map_ext. intros a.
  rewrite set_changes_none. by destruct (act_id a =? i).
Qed.

Lemma fields_of_new acts uid dt fs : fields_of (new_activity acts uid dt fs) = fs.
Proof. by destruct fs. Qed.

Lemma with_activities_same d : with_activities d (activities d) = d.
Proof. by destruct d. Qed.

(** An unchanged column is bindable. *)
Lemma dirty_bindable old v : bindable_opt (dirty old v) = sql_bindable v.
Proof. unfold dirty. destruct (py_eq v old) eqn:E; simpl; [by rewrite (py_eq_bindable _ _ E) | done]. Qed.

(** Over a stored [Float] value, [float()] of the salary sent fails
    exactly when the salary changed and fails to convert. *)
Lemma bind_opt_salary old v :
  float_value old = true ->
  bind_opt to_float (dirty old v) = w <-? to_float v ;; Ok (if py_eq v old then None else Some w).
Proof.
  intros Hf. unfold dirty. destruct (py_eq v old) eqn:E; simpl; [|by destruct (to_float v)].
  destruct (to_float_unchanged v old Hf E) as (w & -> & _). done.
Qed.

Lemma no_change_dirty a1 b1 a2 b2 a3 b3 o :
  no_change (mkChanges (dirty a1 b1) (dirty a2 b2) (dirty a3 b3) o) = true ->
  py_eq b1 a1 = true /\ py_eq b2 a2 = true /\ py_eq b3 a3 = true /\ o = None.
Proof.
  unfold dirty, no_change.
  destruct (py_eq b1 a1), (py_eq b2 a2), (py_eq b3 a3), o; simpl; by try discriminate.
Qed.

(** The flush of the assignments of lines 145-148 to the row loaded,
    with nothing in between: [bind_fields], then the UPDATE of the
    changed columns of that row (none, when nothing changed). *)
Lemma flush_update_seq d ex fs :
  In ex (activities d) -> float_value (salary ex) = true ->
  flush_update d ex (set_fields fs ex) =
  sal <-? bind_fields fs ;;
  Ok (with_activities d (tbl_update act_id (activities d) (act_id ex) (set_changes (changes_with ex fs sal)))).
Proof.
  intros Hin Hf.
  destruct (find_exists (fun r => act_id r =? act_id ex) _ ex Hin (Z.eqb_refl _)) as [y Hy].
  unfold flush_update, bind_fields. cbn [changes_of set_fields start_time end_time notes salary ch_salary ch_start ch_end ch_notes].
  destruct (no_change _) eqn:En.
  - apply no_change_dirty in En as (E1 & E2 & E3 & E4). cbn in E1, E2, E3, E4.
    rewrite (py_eq_bindable _ _ E1), (py_eq_bindable _ _ E2), (py_eq_bindable _ _ E3).
    unfold dirty in E4. destruct (py_eq (f_salary fs) (salary ex)) eqn:E5; [|discriminate].
    destruct (to_float_unchanged _ _ Hf E5) as (w & -> & _). simpl.
    unfold changes_with, dirty. by rewrite E1, E2, E3, E5, update_no_change, with_activities_same.
  - rewrite bind_opt_salary, !dirty_bindable by done. cbn.
    destruct (to_float (f_salary fs)); simpl; [|done].
    destruct (_ && _); [|done]. unfold tbl_get. by rewrite Hy.
Qed.

Section HandlerLemmas.
Context `{DateParser}.

(** On a store whose salaries are numbers or NULL, the [try] body of
    [save_event] is the decoding of the body followed by the upsert. *)
Lemma save_event_tx_decode d uid data :
  floats_ok (activities d) ->
  save_event_tx d uid data =
  sa <-? decode_save data ;;
  Ok (with_activities d (upsert_rows (activities d) uid (sa_date sa) (sa_fields sa) (sa_salary sa))).
Proof.
  intros Hf. unfold save_event_tx, decode_save, upsert_rows.
  destruct (json_index data "date") as [dj|e]; cbn [rbind]; [|done].
  destruct (parse_json_date dj) as [dt|e]; cbn [rbind]; [|done].
  destruct (find_activity (activities d) uid dt) as [ex|] eqn:E;
    destruct (read_fields data) as [fs|e]; cbn [rbind]; try done.
  - pose proof (find_activity_some _ _ _ _ E) as [Hin _].
    rewrite flush_update_seq by (done || by eapply List.Forall_forall in Hf; [|exact Hin]).
    destruct (bind_fields fs); cbn [rbind sa_date sa_fields sa_salary]; [by rewrite E | done].
  - unfold flush_insert. rewrite fields_of_new.
    destruct (bind_fields fs); cbn [rbind sa_date sa_fields sa_salary]; [by rewrite E | done].
Qed.

Lemma save_event_tx_ok d uid data d' :
  floats_ok (activities d) ->
  save_event_tx d uid data = Ok d' <->
  exists sa, decode_save data = Ok sa /\
    d' = with_activities d (upsert_rows (activities d) uid (sa_date sa) (sa_fields sa) (sa_salary sa)).
Proof.
  intros Hf. rewrite save_event_tx_decode by done.
  destruct (decode_save data) as [sa|e]; simpl; split.
  - intros [= <-]. eauto.
  - by intros (? & [= <-] & ->).
  - discriminate.
  - by intros (? & ? & _).
Qed.

Lemma flush_update_tables d ex obj d' :
  flush_update d ex obj = Ok d' -> users d' = users d /\ feedbacks d' = feedbacks d.
Proof.
  unfold flush_update. destruct (no_change (changes_of ex obj)); [by intros [= <-]|].
  destruct (bind_opt _ _); cbn [rbind]; [|discriminate].
  destruct (_ && _); [|discriminate]. destruct (tbl_get _ _ _); [|discriminate]. by intros [= <-].
Qed.

(** Whatever the store, a save writes only the activity table. *)
Lemma save_event_tx_tables d uid data d' :
  save_event_tx d uid data = Ok d' -> users d' = users d /\ feedbacks d' = feedbacks d.
Proof.
  unfold save_event_tx.
  destruct (json_index data "date"); cbn [rbind]; [|discriminate].
  destruct (parse_json_date _); cbn [rbind]; [|discriminate].
  destruct (find_activity _ _ _), (read_fields data); cbn [rbind]; try discriminate.
  - apply flush_update_tables.
  - unfold flush_insert. destruct (bind_fields _); cbn [rbind]; [by intros [= <-] | discriminate].
Qed.

(** [save_event] for a session user, on a store whose salaries are
    numbers or NULL. *)
Lemma save_event_decode d uid data :
  floats_ok (activities d) ->
  save_event d (Some uid) (Some data) =
  match decode_save data with
  | Ok sa => (RJson 200 success_json,
              with_activities d (upsert_rows (activities d) uid (sa_date sa) (sa_fields sa) (sa_salary sa)))
  | Exc e => (RJsonExc e, d)
  end.
Proof. intros Hf. cbn [save_event]. rewrite save_event_tx_decode by done. by destruct (decode_save data). Qed.

(** A failed [save_event] writes nothing. *)
Lemma save_event_exc_unchanged d uid data e :
  save_event_tx d uid data = Exc e -> save_event d (Some uid) (Some data) = (RJsonExc e, d).
Proof. intros He. simpl. by rewrite He. Qed.
End HandlerLemmas.

Section Upsert.
Context (acts : list activity) (uid : Z) (dt : date) (fs : fields) (sal : json).
Hypothesis (Huniq : one_per_date acts) (Hrow : rowids_ok act_id acts).

Lemma upsert_one_per_date : one_per_date (upsert_rows acts uid dt fs sal).
Proof.
  unfold upsert_rows, one_per_date in *.
  destruct (find_activity acts uid dt) as [ex|] eqn:E.
  - by rewrite keys_update.
  - unfold tbl_insert. rewrite map_app. apply NoDup_snoc; [done|].
    intros Hin. apply in_map_iff in Hin as (a & Hk & Hin).
    by eapply find_activity_none.
Qed.

Lemma upsert_rowids_ok : rowids_ok act_id (upsert_rows acts uid dt fs sal).
Proof.
  unfold upsert_rows. destruct (find_activity acts uid dt).
  - by apply rowids_ok_update.
  - by apply rowids_ok_insert.
Qed.

(** The row of (uid, dt) after the upsert: the updated row, or the new
    one with the next rowid. *)
Definition upserted_row : activity :=
  match find_activity acts uid dt with
  | None => with_salary sal (new_activity acts uid dt fs)
  | Some ex => set_changes (changes_with ex fs sal) ex
  end.

Lemma upsert_target :
  List.filter (key_is (uid, dt)) (upsert_rows acts uid dt fs sal) = [upserted_row].
Proof.
  unfold upsert_rows, upserted_row, key_is.
  destruct (find_activity acts uid dt) as [ex|] eqn:E.
  - apply find_activity_some in E as [Hin Hk].
    rewrite <- Hk. unfold tbl_update.
    rewrite filter_map_comm by (intros a; by destruct (act_id a =? act_id ex)).
    rewrite filter_key_single by done. simpl. by rewrite Z.eqb_refl.
  - unfold tbl_insert. rewrite List.filter_app, filter_key_none.
    + simpl. by rewrite bool_decide_eq_true_2.
    + by apply find_activity_none.
Qed.

Lemma upsert_others :
  List.filter (fun a => negb (key_is (uid, dt) a)) (upsert_rows acts uid dt fs sal) =
  List.filter (fun a => negb (key_is (uid, dt) a)) acts.
Proof.
  unfold upsert_rows, key_is.
  destruct (find_activity acts uid dt) as [ex|] eqn:E.
  - apply find_activity_some in E as [Hin Hk]. unfold tbl_update.
    rewrite filter_map_comm by (intros a; by destruct (act_id a =? act_id ex)).
    apply map_id_in'. intros a Ha. apply filter_In in Ha as [Ha Hn].
    destruct (Z.eqb_spec (act_id a) (act_id ex)) as [Hid|]; [|done].
    assert (a = ex) as ->.
    { eapply (NoDup_map_eq act_id); [by apply rowids_ok_nodup| done | done | done]. }
    rewrite Hk, bool_decide_eq_true_2 in Hn; done.
  - unfold tbl_insert. rewrite List.filter_app. simpl.
    rewrite bool_decide_eq_true_2 by done. apply app_nil_r.
Qed.
End Upsert.

#[export] Hint Resolve upsert_one_per_date upsert_rowids_ok : worklog.

(** ** Properties *)

(** The row holds the values [fs] sent, as Python compares them, and
    [sal], the salary as [float()] made it, which is a number or NULL. *)
Definition holds (a : activity) (fs : fields) (sal : json) : Prop :=
  py_eq (start_time a) (f_start fs) = true /\ py_eq (end_time a) (f_end fs) = true /\
  py_eq (notes a) (f_notes fs) = true /\ py_eq (salary a) sal = true /\
  float_value (salary a) = true.

(** A column after the flush: the loaded value when the one sent is
    [==] to it, the one sent otherwise; either way [==] to the one sent. *)
Lemma dirty_col_py_eq old v :
  sql_bindable v = true -> py_eq (default old (dirty old v)) v = true.
Proof.
  intros Hb. unfold dirty. destruct (py_eq v old) eqn:E; simpl; [by rewrite py_eq_sym|].
  by apply py_eq_refl.
Qed.

Lemma bind_fields_ok fs sal :
  bind_fields fs = Ok sal ->
  to_float (f_salary fs) = Ok sal /\ sql_bindable (f_start fs) = true /\
  sql_bindable (f_end fs) = true /\ sql_bindable (f_notes fs) = true.
Proof.
  unfold bind_fields. destruct (to_float _); simpl; [|discriminate].
  destruct (sql_bindable (f_start fs)), (sql_bindable (f_end fs)), (sql_bindable (f_notes fs));
    simpl; by try intros [= <-].
Qed.

Lemma upserted_row_holds acts uid dt fs sal :
  floats_ok acts -> bind_fields fs = Ok sal -> holds (upserted_row acts uid dt fs sal) fs sal.
Proof.
  intros Hf Hb. apply bind_fields_ok in Hb as (Hs & B1 & B2 & B3).
  pose proof (to_float_value _ _ Hs) as Hv. unfold upserted_row, holds.
  destruct (find_activity acts uid dt) as [ex|] eqn:E; simpl.
  - apply find_activity_some in E as [Hin _].
    eapply List.Forall_forall in Hin as Hfe; [|exact Hf]. simpl in Hfe.
    rewrite !dirty_col_py_eq by done.
    destruct (py_eq (f_salary fs) (salary ex)) eqn:E5; simpl.
    + destruct (to_float_unchanged _ _ Hfe E5) as (w & Hw & Hwe). rewrite Hs in Hw. injection Hw as <-.
      by rewrite py_eq_sym, Hwe.
    + by rewrite py_eq_refl by (by destruct sal).
  - rewrite !py_eq_refl by (try by destruct sal). done.
Qed.

Lemma upsert_floats acts uid dt fs sal :
  floats_ok acts -> bind_fields fs = Ok sal -> floats_ok (upsert_rows acts uid dt fs sal).
Proof.
  intros Hf Hb. pose proof (upserted_row_holds acts uid dt fs sal Hf Hb) as (_ & _ & _ & _ & Hr).
  apply bind_fields_ok in Hb as (Hs & _). apply to_float_value in Hs.
  unfold upsert_rows, upserted_row, floats_ok in *.
  destruct (find_activity acts uid dt) as [ex|].
  - apply List.Forall_forall. intros y Hy. apply in_map_iff in Hy as (x & <- & Hx).
    eapply List.Forall_forall in Hx; [|exact Hf].
    destruct (act_id x =? act_id ex); [|done]. simpl. unfold changes_with.
    by destruct (py_eq _ _).
  - apply Forall_app. split; [done|]. by constructor.
Qed.

(** What a successful [save_event] for (uid, dt) with values [fs]
    promises: exactly one row of that user and date, holding [fs] and
    the stored salary [sal]; every other row as before; still one row
    per (user, date), and only numbers or NULL as salaries. *)
Definition upsert_spec (acts acts' : list activity) (uid : Z) (dt : date) (fs : fields) (sal : json)
  : Prop :=
  (exists a, List.filter (key_is (uid, dt)) acts' = [a] /\ holds a fs sal) /\
  List.filter (fun a => negb (key_is (uid, dt) a)) acts' =
    List.filter (fun a => negb (key_is (uid, dt) a)) acts /\
  one_per_date acts' /\ floats_ok acts'.

Lemma upsert_rows_spec acts uid dt fs sal :
  one_per_date acts -> rowids_ok act_id acts -> floats_ok acts -> bind_fields fs = Ok sal ->
  upsert_spec acts (upsert_rows acts uid dt fs sal) uid dt fs sal.
Proof.
  intros Hu Hr Hf Hb. split; [|split; [by apply upsert_others | split; [by apply upsert_one_per_date | by apply upsert_floats]]].
  exists (upserted_row acts uid dt fs sal). split; [by apply upsert_target|].
  by apply upserted_row_holds.
Qed.

Section Properties.
Context `{DateParser}.

(** A valid request is a success that upserts the table. *)
Lemma save_event_success d uid data dt fs sal :
  floats_ok (activities d) ->
  rbind (json_index data "date") parse_json_date = Ok dt ->
  read_fields data = Ok fs -> bind_fields fs = Ok sal ->
  save_event d (Some uid) (Some data) =
    (RJson 200 success_json, with_activities d (upsert_rows (activities d) uid dt fs sal)).
Proof.
  intros Hf Hd Hr Hb. cbn [save_event]. rewrite save_event_tx_decode by done. unfold decode_save.
  destruct (json_index data "date"); cbn [rbind] in *; [|discriminate].
  rewrite Hd; cbn [rbind]. rewrite Hr; cbn [rbind]. by rewrite Hb.
Qed.

(** C1: [save_event] is an upsert keyed by (user, date): when the date
    parses, the four fields are present, the salary converts with
    [float()] (to [sal]) and no text column holds a list or dict, it
    answers [{success: true}] and afterwards exactly one row has the
    session's user and that date, holding the values sent (as Python's
    [==] compares them) and the salary [sal]; the rows of every other
    (user, date) are as before, the table still has one row per (user,
    date) and only numbers or NULL as salaries. *)
Theorem save_event_upsert d uid data dt fs sal :
  one_per_date (activities d) -> rowids_ok act_id (activities d) -> floats_ok (activities d) ->
  rbind (json_index data "date") parse_json_date = Ok dt ->
  read_fields data = Ok fs -> bind_fields fs = Ok sal ->
  exists d', save_event d (Some uid) (Some data) = (RJson 200 success_json, d') /\
    upsert_spec (activities d) (activities d') uid dt fs sal /\
    users d' = users d /\ feedbacks d' = feedbacks d.
Proof.
  intros Hu Hr Hf Hd Hfs Hb. eexists. rewrite (save_event_success d uid data dt fs sal) by done.
  split; [done|]. split; [by apply upsert_rows_spec | done].
Qed.

(** C2: the failures of [save_event]: on a store whose salaries are
    numbers or NULL, a body that does not decode (a missing key, a date
    that does not parse, a salary [float()] refuses, a list or dict in a
    text column) is answered with that exception as the 500 error and
    nothing is written, whether or not the date already has a row. *)
Theorem save_event_errors d uid data e :
  floats_ok (activities d) -> decode_save data = Exc e ->
  save_event d (Some uid) (Some data) = (RJsonExc e, d).
Proof. intros Hf He. by rewrite save_event_decode, He. Qed.

(** C8: two saves for the same user and date, one after the other: both
    succeed, and the table then has exactly one row for that date, with
    the values of the second save and the id the first save gave it. *)
Theorem save_event_twice d uid data1 data2 dt fs1 fs2 sal1 sal2 :
  one_per_date (activities d) -> rowids_ok act_id (activities d) -> floats_ok (activities d) ->
  rbind (json_index data1 "date") parse_json_date = Ok dt ->
  rbind (json_index data2 "date") parse_json_date = Ok dt ->
  read_fields data1 = Ok fs1 -> bind_fields fs1 = Ok sal1 ->
  read_fields data2 = Ok fs2 -> bind_fields fs2 = Ok sal2 ->
  exists d1 d2 a1 a2,
    save_event d (Some uid) (Some data1) = (RJson 200 success_json, d1) /\
    save_event d1 (Some uid) (Some data2) = (RJson 200 success_json, d2) /\
    List.filter (key_is (uid, dt)) (activities d1) = [a1] /\
    List.filter (key_is (uid, dt)) (activities d2) = [a2] /\
    act_id a2 = act_id a1 /\ upsert_spec (activities d) (activities d2) uid dt fs2 sal2.
Proof.
  intros Hu Hr Hf Hd1 Hd2 Hf1 Hb1 Hf2 Hb2.
  set (acts1 := upsert_rows (activities d) uid dt fs1 sal1).
  set (acts2 := upsert_rows acts1 uid dt fs2 sal2).
  assert (Hu1 : one_per_date acts1) by (by apply upsert_one_per_date).
  assert (Hr1 : rowids_ok act_id acts1) by (by apply upsert_rowids_ok).
  assert (Hfl1 : floats_ok acts1) by (by apply upsert_floats).
  set (a1 := upserted_row (activities d) uid dt fs1 sal1).
  assert (Ht1 : List.filter (key_is (uid, dt)) acts1 = [a1]) by (by apply upsert_target).
  assert (Hin1 : In a1 acts1 /\ act_key a1 = (uid, dt)).
  { assert (In a1 (List.filter (key_is (uid, dt)) acts1)) as Hin by (rewrite Ht1; left; done).
    apply filter_In in Hin as [Hin Hk]. split; [done|]. by apply bool_decide_eq_true in Hk. }
  assert (Hfind : find_activity acts1 uid dt = Some a1).
  { destruct Hin1 as [Hin Hk]. pose proof (find_activity_in acts1 a1 Hu1 Hin) as Hf'.
    unfold act_key in Hk. injection Hk as E1 E2. by rewrite E1, E2 in Hf'. }
  exists (with_activities d acts1), (with_activities (with_activities d acts1) acts2),
    a1, (upserted_row acts1 uid dt fs2 sal2).
  rewrite (save_event_success d uid data1 dt fs1 sal1) by done.
  rewrite (save_event_success _ uid data2 dt fs2 sal2) by done.
  do 3 (split; [done|]). split; [by apply upsert_target|].
  split; [unfold upserted_row; by rewrite Hfind|].
  destruct (upsert_rows_spec acts1 uid dt fs2 sal2 Hu1 Hr1 Hfl1 Hb2) as (Hex & Hoth & Hu2 & Hfl2).
  split; [done|]. split; [|done].
  simpl. unfold acts2. rewrite Hoth. by apply upsert_others.
Qed.
End Properties.


(** C10: the owner deleting one of their events by its id succeeds and
    removes exactly that row. *)
Theorem delete_event_owner d uid a :
  rowids_ok act_id (activities d) -> In a (activities d) -> act_user a = uid ->
  exists d', delete_event d (Some uid) (act_id a) = (RJson 200 success_json, d') /\
    (forall x, In x (activities d') <-> In x (activities d) /\ x <> a) /\
    users d' = users d /\ feedbacks d' = feedbacks d.
Proof.
  intros Hr Hin Hu. simpl. rewrite (tbl_get_in act_id _ a Hr Hin), Hu, Z.eqb_refl.
  eexists. split; [done|]. split; [|done]. intros x. simpl. rewrite tbl_delete_in.
  split; intros [Hx Hne]; split; try done.
  - intros ->. done.
  - intros Hid. apply Hne. eapply (NoDup_map_eq act_id); [by apply rowids_ok_nodup | done | done | done].
Qed.

Section ReadProperties.
Context `{DateParser}.

(** C21: with both bounds present and non-empty, [get_events] lists, in
    table order, exactly the session user's rows whose date lies in the
    inclusive range, as [{title: 'work', start: iso date, id}]. *)
Theorem get_events_range d uid a st en sd ed :
  args_get a "start" = Some st -> args_get a "end" = Some en ->
  st <> "" -> en <> "" -> parse_date st = Ok sd -> parse_date en = Ok ed ->
  exists sel, get_events d (Some uid) a = RJson 200 (JArr (map event_json sel)) /\
    sel = List.filter (fun x => (act_user x =? uid) && date_in sd ed (act_date x)) (activities d) /\
    (forall x, In x sel <->
       In x (activities d) /\ act_user x = uid /\
       date_leb sd (act_date x) = true /\ date_leb (act_date x) ed = true).
Proof.
  intros Hs He Hst Hen Hsd Hed. eexists. split.
  - simpl. rewrite Hs, He. simpl.
    rewrite (proj2 (String.eqb_neq st "") Hst), (proj2 (String.eqb_neq en "") Hen).
    simpl. rewrite Hsd, Hed. simpl. rewrite filter_filter. reflexivity.
  - split; [done|]. intros x. rewrite filter_In. unfold date_in.
    rewrite !andb_true_iff, Z.eqb_eq. tauto.
Qed.

(** [get_event] for a date that parses returns the detail of the
    session user's row of that date, or [{}] when there is none. *)
Theorem get_event_detail d uid ds dt :
  one_per_date (activities d) -> parse_date ds = Ok dt ->
  (forall a, In a (activities d) -> act_key a = (uid, dt) ->
     get_event d (Some uid) ds = RJson 200 (detail_json a)) /\
  ((forall a, In a (activities d) -> act_key a <> (uid, dt)) ->
     get_event d (Some uid) ds = RJson 200 (JObj [])).
Proof.
  intros Hu Hp. simpl. rewrite Hp. split.
  - intros a Hin Hk. unfold act_key in Hk. injection Hk as E1 E2.
    pose proof (find_activity_in _ a Hu Hin) as Hf. rewrite E1, E2 in Hf. by rewrite Hf.
  - intros Hno. destruct (find_activity _ uid dt) as [a|] eqn:E; [|done].
    apply find_activity_some in E as [Hin Hk]. exfalso. by apply (Hno a).
Qed.

(** C20: [save_event] commits all or nothing: a request that is not
    answered [{success: true}] (no session, a body that is not JSON, a
    missing key, a date that does not parse, a salary [float()]
    refuses, a list or dict value, an UPDATE of a row gone) leaves the
    database unchanged. *)
Theorem save_event_atomic d s body :
  fst (save_event d s body) <> RJson 200 success_json -> snd (save_event d s body) = d.
Proof.
  destruct s as [uid|]; simpl; [|done]. destruct body as [data|]; simpl; [|done].
  destruct (save_event_tx d uid data); simpl; [done|]. done.
Qed.
End ReadProperties.

(** A database with two events of user 1 and one of user 2. *)
Definition sample_db : db :=
  mkDb [mkUser 1 "ann" "pw"; mkUser 2 "bob" "pw"]
       [mkActivity 1 (mkDate 2024 1 1) (JStr "08:00") (JStr "16:00") (JStr "") (JNum 100) 1;
        mkActivity 2 (mkDate 2024 1 2) (JStr "08:00") (JStr "12:00") (JStr "") (JNum 50) 1;
        mkActivity 3 (mkDate 2024 1 1) (JStr "10:00") (JStr "11:00") (JStr "") (JNum 10) 2]
       [].

Definition sample_body (dt : string) (st : string) (sal : Q) : json :=
  JObj [("date", JStr dt); ("start", JStr st); ("end", JStr "17:00");
        ("notes", JStr "late"); ("salary", JNum sal)].

Definition sample_fields (st : string) (sal : Q) : fields :=
  mkFields (JStr st) (JStr "17:00") (JStr "late") (JNum sal).

Ltac check_tables :=
  first [ apply (bool_decide_unpack _); vm_compute; exact I
        | apply rowids_okb_sound; vm_compute; reflexivity ].

(** A save whose salary is sent as a numeric string: [float()] stores
    the number. *)
Definition string_salary_body : json :=
  JObj [("date", JStr "2024-01-01"); ("start", JStr "09:00"); ("end", JStr "17:00");
        ("notes", JStr "late"); ("salary", JStr " 120.5 ")].

Lemma save_event_upsert_witness :
  exists d', save_event sample_db (Some 1%Z) (Some string_salary_body) = (RJson 200 success_json, d') /\
    upsert_spec (activities sample_db) (activities d') 1 (mkDate 2024 1 1)
      (mkFields (JStr "09:00") (JStr "17:00") (JStr "late") (JStr " 120.5 ")) (JNum (1205 # 10)) /\
    users d' = users sample_db /\ feedbacks d' = feedbacks sample_db.
Proof.
  apply (save_event_upsert sample_db 1 _ (mkDate 2024 1 1)); try check_tables; reflexivity.
Defined.

Lemma save_event_twice_witness :
  exists d1 d2 a1 a2,
    save_event sample_db (Some 2%Z) (Some (sample_body "2024-01-03" "09:00" 120)) =
      (RJson 200 success_json, d1) /\
    save_event d1 (Some 2%Z) (Some (sample_body "2024-01-03" "07:30" 130)) =
      (RJson 200 success_json, d2) /\
    List.filter (key_is (2, mkDate 2024 1 3)) (activities d1) = [a1] /\
    List.filter (key_is (2, mkDate 2024 1 3)) (activities d2) = [a2] /\
    act_id a2 = act_id a1 /\
    upsert_spec (activities sample_db) (activities d2) 2 (mkDate 2024 1 3) (sample_fields "07:30" 130)
      (JNum 130).
Proof.
  apply (save_event_twice sample_db 2 _ _ (mkDate 2024 1 3) (sample_fields "09:00" 120) _ (JNum 120));
    try check_tables; reflexivity.
Defined.

(** A salary [float()] refuses, for a date that has a row. *)
Definition bad_salary_body : json :=
  JObj [("date", JStr "2024-01-01"); ("start", JStr "09:00"); ("end", JStr "17:00");
        ("notes", JStr ""); ("salary", JStr "abc")].

Lemma save_event_errors_witness :
  save_event sample_db (Some 1%Z) (Some bad_salary_body) = (RJsonExc ValueError, sample_db).
Proof.
  apply save_event_errors; [check_tables | reflexivity].
Defined.


Lemma delete_event_owner_witness :
  let a := mkActivity 2 (mkDate 2024 1 2) (JStr "08:00") (JStr "12:00") (JStr "") (JNum 50) 1 in
  exists d', delete_event sample_db (Some 1%Z) (act_id a) = (RJson 200 success_json, d') /\
    (forall x, In x (activities d') <-> In x (activities sample_db) /\ x <> a) /\
    users d' = users sample_db /\ feedbacks d' = feedbacks sample_db.
Proof.
  intros a. apply delete_event_owner; [check_tables | simpl; tauto | reflexivity].
Defined.

Lemma get_events_range_witness :
  exists sel, get_events sample_db (Some 1%Z) [("start", "2024-01-02"); ("end", "2024-01-31")] =
      RJson 200 (JArr (map event_json sel)) /\
    sel = List.filter (fun x => (act_user x =? 1) && date_in (mkDate 2024 1 2) (mkDate 2024 1 31) (act_date x))
            (activities sample_db) /\
    (forall x, In x sel <->
       In x (activities sample_db) /\ act_user x = 1 /\
       date_leb (mkDate 2024 1 2) (act_date x) = true /\ date_leb (act_date x) (mkDate 2024 1 31) = true).
Proof. apply (get_events_range _ _ _ "2024-01-02" "2024-01-31"); try reflexivity; discriminate. Defined.

(** The query the calendar widget sends: the visible range as ISO
    datetimes with an offset, read by the datetime parser. *)
Example get_events_widget_query :
  get_events (H := iso_datetime_parser) sample_db (Some 1%Z)
    [("start", "2024-01-02T00:00:00+02:00"); ("end", "2024-02-01T00:00:00+02:00")] =
  RJson 200 (JArr [JObj [("title", JStr "work"); ("start", JStr "2024-01-02"); ("id", JNum 2)]]).
Proof. vm_compute. reflexivity. Qed.

(** A note of 300 characters, longer than the [String(255)] of line 26. *)
Definition long_note : string := string_of_list_ascii (repeat "x"%char 300).

(** SQLite does not enforce the length of a [VARCHAR]: the note is stored
    whole, not cut at 255 characters. *)
Example long_note_stored_whole :
  exists d', save_event sample_db (Some 1%Z)
      (Some (JObj [("date", JStr "2024-01-05"); ("start", JStr "08:00"); ("end", JStr "09:00");
                   ("notes", JStr long_note); ("salary", JNum 1)])) = (RJson 200 success_json, d') /\
    find_activity (activities d') 1 (mkDate 2024 1 5) <> None /\
    option_map notes (find_activity (activities d') 1 (mkDate 2024 1 5)) = Some (JStr long_note) /\
    String.length long_note = 300%nat.
Proof. eexists. vm_compute. split; [reflexivity|]. split; [discriminate|]. split; reflexivity. Qed.

Lemma get_event_detail_witness :
  let a := mkActivity 2 (mkDate 2024 1 2) (JStr "08:00") (JStr "12:00") (JStr "") (JNum 50) 1 in
  get_event sample_db (Some 1%Z) "2024-01-02" = RJson 200 (detail_json a).
Proof.
  intros a. apply (get_event_detail sample_db 1 "2024-01-02" (mkDate 2024 1 2)); try check_tables;
    try reflexivity. simpl; tauto.
Defined.

Lemma save_event_atomic_witness :
  fst (save_event sample_db (Some 1%Z) (Some (JObj [("date", JStr "2024-01-01")]))) <>
    RJson 200 success_json /\
  snd (save_event sample_db (Some 1%Z) (Some (JObj [("date", JStr "2024-01-01")]))) = sample_db.
Proof.
  split; [vm_compute; discriminate|].
  apply save_event_atomic. vm_compute. discriminate.
Defined.

(** A salary sent as a list: [float([])] raises [TypeError] at the
    commit, the answer is a 500 and the row of that date keeps its
    values; a list as the notes is refused by sqlite3's binding. *)
Example save_event_list_value :
  save_event sample_db (Some 1%Z)
    (Some (JObj [("date", JStr "2024-01-01"); ("start", JStr "09:00"); ("end", JStr "17:00");
                 ("notes", JStr ""); ("salary", JArr [])])) = (RJsonExc TypeError, sample_db) /\
  save_event sample_db (Some 1%Z)
    (Some (JObj [("date", JStr "2024-01-01"); ("start", JStr "09:00"); ("end", JStr "17:00");
                 ("notes", JArr []); ("salary", JNum 1)])) = (RJsonExc InterfaceError, sample_db).
Proof. split; reflexivity. Qed.

End Activities.
