(* ===== verification/Feedback.v ===== *)
(** * The public feedback form: [index] and [submit_feedback]

    app.py lines 42-45 and 172-189.  [submit_feedback] appends a row when
    the three fields are non-empty; [index] lists the rows newest first
    ([ORDER BY timestamp DESC]), modelled by a stable insertion sort. *)

From S2P Require Import Prelude Store Http.
From Stdlib Require Import Permutation.

Local Open Scope Z_scope.

Module Feedback.
Import Store Http.

(** ** [ORDER BY timestamp DESC] *)

(** Insert [x] after every row at least as recent: rows with equal
    timestamps keep their table order. *)
Fixpoint fb_insert (x : feedback) (l : list feedback) : list feedback :=
  match l with
  | [] => [x]
  | y :: r => if timestamp y <? timestamp x then x :: y :: r else y :: fb_insert x r
  end.

Definition sort_desc (l : list feedback) : list feedback :=
  fold_left (fun acc x => fb_insert x acc) l [].

(** [index()], lines 42-45. *)
Definition index (d : db) : response := RPage (PIndex (sort_desc (feedbacks d))).

Definition fill_all_fields : string := "Будь ласка, заповніть усі поля".
Definition save_failed : string := "Помилка при збереженні відгуку".

(** The row [submit_feedback] inserts; [timestamp] defaults to
    [datetime.utcnow()], here [now]. *)
Definition new_feedback (d : db) (s n m : string) (now : Z) : feedback :=
  mkFeedback (next_rowid fb_id (feedbacks d)) s n m now.

(** [submit_feedback()], lines 172-189.  The form reads are inside the
    [try]: a missing field is caught by [except Exception] and answered
    with the 500 message. *)
Definition submit_feedback (d : db) (f : form) (now : Z) : response * db :=
  match (s <-? form_get f "subject" ;; n <-? form_get f "name" ;;
         m <-? form_get f "message" ;; Ok (s, n, m)) with
  | Exc _ => (RText 500 save_failed, d)
  | Ok (s, n, m) =>
      if String.eqb s "" || String.eqb n "" || String.eqb m ""
      then (RText 400 fill_all_fields, d)
      else (RRedirect "index",
            mkDb (users d) (activities d) (tbl_insert (feedbacks d) (new_feedback d s n m now)))
  end.

(** Newer first: the order [index] promises. *)
Definition newest_first : feedback -> feedback -> Prop := fun a b => timestamp b <= timestamp a.

(** ** Lemmas *)

Lemma fb_insert_perm x l : Permutation (fb_insert x l) (x :: l).
Proof.
  induction l as [|y l IH]; simpl; [done|].
  destruct (timestamp y <? timestamp x); [done|].
  rewrite IH. apply perm_swap.
Qed.

Lemma fb_insert_hd y x l :
  newest_first y x -> HdRel newest_first y l -> HdRel newest_first y (fb_insert x l).
Proof.
  intros Hyx Hl. destruct l as [|z l]; simpl; [by constructor|].
  destruct (timestamp z <? timestamp x); constructor; [done|]. by invc Hl.
Qed.

Lemma fb_insert_sorted x l : Sorted newest_first l -> Sorted newest_first (fb_insert x l).
Proof.
  induction l as [|y l IH]; simpl; intros Hs; [by repeat constructor|].
  destruct (timestamp y <? timestamp x) eqn:E; bool_to_prop.
  - constructor; [done|]. constructor. unfold newest_first. lia.
  - invc Hs. constructor; [auto|]. apply fb_insert_hd; [unfold newest_first; lia | done].
Qed.

Lemma sort_desc_acc l acc :
  Sorted newest_first acc ->
  Sorted newest_first (fold_left (fun acc x => fb_insert x acc) l acc) /\
  Permutation (fold_left (fun acc x => fb_insert x acc) l acc) (rev l ++ acc).
Proof.
  revert acc; induction l as [|x l IH]; intros acc Hs; simpl; [done|].
  destruct (IH (fb_insert x acc) (fb_insert_sorted x acc Hs)) as [H1 H2].
  split; [done|]. rewrite H2, fb_insert_perm, <- app_assoc. simpl.
  apply Permutation_app_head. done.
Qed.

(** A successful submission reads the three fields. *)
Lemma form_triple_ok f s n m :
  form_get f "subject" = Ok s -> form_get f "name" = Ok n -> form_get f "message" = Ok m ->
  (s' <-? form_get f "subject" ;; n' <-? form_get f "name" ;;
   m' <-? form_get f "message" ;; Ok (s', n', m')) = Ok (s, n, m).
Proof. intros Hs Hn Hm. by rewrite Hs; simpl; rewrite Hn; simpl; rewrite Hm. Qed.

(** ** Properties *)

(** C34: the home page lists every feedback row once, newest first. *)
Theorem index_newest_first d :
  exists fbs, index d = RPage (PIndex fbs) /\
    Sorted newest_first fbs /\ Permutation fbs (feedbacks d).
Proof.
  eexists. split; [done|]. unfold sort_desc.
  destruct (sort_desc_acc (feedbacks d) [] ltac:(constructor)) as [H1 H2].
  split; [done|]. rewrite H2, app_nil_r. symmetry. apply Permutation_rev.
Qed.

(** C31: a submission with the three fields present and one of them empty
    is refused with HTTP 400 and nothing is inserted. *)
Theorem submit_feedback_empty_field d f now s n m :
  form_get f "subject" = Ok s -> form_get f "name" = Ok n -> form_get f "message" = Ok m ->
  s = "" \/ n = "" \/ m = "" ->
  submit_feedback d f now = (RText 400 fill_all_fields, d).
Proof.
  intros Hs Hn Hm He. unfold submit_feedback. rewrite (form_triple_ok f s n m) by done.
  by destruct He as [-> | [-> | ->]]; rewrite ?String.eqb_refl, ?orb_true_r.
Qed.

Lemma submit_feedback_empty_field_witness :
  submit_feedback empty_db [("subject", "hi"); ("name", ""); ("message", "ok")] 7 =
    (RText 400 fill_all_fields, empty_db).
Proof. apply (submit_feedback_empty_field _ _ _ "hi" "" "ok"); try reflexivity. by right; left. Defined.

(** C32: a submission without one of the three form fields is answered
    with the 500 message (the [KeyError] is caught by [except Exception]),
    not with the 400 validation error, and nothing is inserted. *)
Theorem submit_feedback_missing_field d f now :
  (form_get f "subject" = Exc BadRequestKeyError \/ form_get f "name" = Exc BadRequestKeyError \/
   form_get f "message" = Exc BadRequestKeyError) ->
  submit_feedback d f now = (RText 500 save_failed, d).
Proof.
  intros H. unfold submit_feedback.
  destruct H as [H|[H|H]];
    destruct (form_get f "subject") eqn:Es; simpl; try discriminate; try done;
    destruct (form_get f "name") eqn:En; simpl; try discriminate; try done;
    rewrite H; done.
Qed.

Lemma submit_feedback_missing_field_witness :
  submit_feedback empty_db [("subject", "hi"); ("message", "ok")] 7 =
    (RText 500 save_failed, empty_db).
Proof. apply submit_feedback_missing_field. right; left; reflexivity. Defined.

(** C33: a submission with three non-empty fields redirects to the home
    page and appends one row with the next id, the fields and the time of
    the request. *)
Theorem submit_feedback_ok d f now s n m :
  form_get f "subject" = Ok s -> form_get f "name" = Ok n -> form_get f "message" = Ok m ->
  s <> "" -> n <> "" -> m <> "" ->
  submit_feedback d f now =
    (RRedirect "index",
     mkDb (users d) (activities d)
       (feedbacks d ++ [mkFeedback (next_rowid fb_id (feedbacks d)) s n m now])).
Proof.
  intros Hs Hn Hm Hs' Hn' Hm'. unfold submit_feedback. rewrite (form_triple_ok f s n m) by done.
  by rewrite (proj2 (String.eqb_neq _ _) Hs'), (proj2 (String.eqb_neq _ _) Hn'),
             (proj2 (String.eqb_neq _ _) Hm').
Qed.

Lemma submit_feedback_ok_witness :
  submit_feedback empty_db [("subject", "hi"); ("name", "Ann"); ("message", "ok")] 7 =
    (RRedirect "index", mkDb [] [] [mkFeedback 1 "hi" "Ann" "ok" 7]).
Proof. apply (submit_feedback_ok empty_db _ 7 "hi" "Ann" "ok"); try reflexivity; discriminate. Defined.

Lemma submit_feedback_rowids_ok d f now :
  rowids_ok fb_id (feedbacks d) -> rowids_ok fb_id (feedbacks (snd (submit_feedback d f now))).
Proof.
  intros Hr. unfold submit_feedback.
  repeat case_match; simplify_eq/=; auto using rowids_ok_insert.
Qed.

#[export] Hint Resolve submit_feedback_rowids_ok : worklog.

End Feedback.
