(* ===== verification/Statistics.v ===== *)
(** * The statistics endpoint: [calculate_statistics]

    app.py lines 194-267.  The request names a period; the handler turns
    it into a date range anchored at [today] ([period_range]), selects
    the session user's rows in the range, and aggregates their durations
    ([calc_duration], from the stored ["HH:MM"] texts) and salaries:
    sums, maxima and minima rounded with [round(x, 2)] ([round2]), and a
    detail line per row.  Floats are exact rationals here. *)

From S2P Require Import Prelude PyStr Dates Json Store Http Activities.
From Stdlib Require Import Lqa.

Local Open Scope Z_scope.

Module Statistics.
Import PyStr Dates Json Store Http Activities.

(** ** [round(x, 2)]: round half to even at two decimals *)

Definition round_half_even (y : Q) : Z :=
  let f := Qfloor y in
  let r := (y - inject_Z f)%Q in
  if Qlt_le_dec r (1 # 2) then f
  else if Qeq_dec r (1 # 2) then (if Z.even f then f else f + 1)
  else f + 1.

Definition round2 (x : Q) : Q := Qred (inject_Z (round_half_even (x * 100)) / 100).

(** ** [sum], [max], [min] over a list of numbers *)

Definition qsum (l : list Q) : Q := fold_left Qplus l 0%Q.

(** [max(l)] keeps the first maximum: it moves on a strictly larger item. *)
Definition qmax (cur x : Q) : Q := if Qlt_le_dec cur x then x else cur.
Definition qmin (cur x : Q) : Q := if Qlt_le_dec x cur then x else cur.

Definition qmax_list (l : list Q) : Q :=
  match l with [] => 0%Q | x :: r => fold_left qmax r x end.
Definition qmin_list (l : list Q) : Q :=
  match l with [] => 0%Q | x :: r => fold_left qmin r x end.

(** ** [calc_duration(a)], lines 240-243 *)

(** [h, m = map(int, s.split(":"))]: every failure is a [ValueError]
    (a bad integer, or not exactly two parts). *)
Definition unpack2 (parts : list string) : result (Z * Z) :=
  match parts with
  | [] => Exc ValueError
  | [a] => _ <-? py_int a ;; Exc ValueError
  | [a; b] => x <-? py_int a ;; y <-? py_int b ;; Ok (x, y)
  | a :: b :: _ => _ <-? py_int a ;; _ <-? py_int b ;; Exc ValueError
  end.

(** [a.start_time.split(":")] on the stored value: [None] has no
    [split]; a number or bool, stored as text by SQLite, has no [':']. *)
Definition hm_of (j : json) : result (Z * Z) :=
  match j with
  | JStr s => unpack2 (py_split ":" s)
  | JNull => Exc AttributeError
  | _ => Exc ValueError
  end.

Definition calc_duration (a : activity) : result Q :=
  t1 <-? hm_of (start_time a) ;;
  t2 <-? hm_of (end_time a) ;;
  let '(h1, m1) := t1 in let '(h2, m2) := t2 in
  Ok (inject_Z (h2 * 60 + m2 - h1 * 60 - m1) / 60)%Q.

(** A stored salary as a number for [sum]: [None] raises [TypeError].
    In a reachable store a salary is a number or NULL ([float_value],
    kept by [App.db_ok]); the other cases are those of Python's [sum] on
    a bool or a string, for stores built by hand. *)
Definition salary_num (j : json) : result Q :=
  match j with
  | JNum q => Ok q
  | JBool b => Ok (if b then 1 else 0)%Q
  | _ => Exc TypeError
  end.

(** ** The result *)

Record stats := mkStats {
  total_hours : Q; total_salary : Q; max_hours : Q; min_hours : Q;
  max_salary : Q; min_salary : Q; details : list json }.

Definition zero_stats : stats := mkStats 0 0 0 0 0 0 [].

Definition stats_json (st : stats) : json :=
  JObj [("total_hours", JNum (total_hours st)); ("total_salary", JNum (total_salary st));
        ("max_hours", JNum (max_hours st)); ("min_hours", JNum (min_hours st));
        ("max_salary", JNum (max_salary st)); ("min_salary", JNum (min_salary st));
        ("details", JArr (details st))].

(** One line of [details] (lines 256-260). *)
Definition detail_line (a : activity) (dur : Q) : json :=
  JObj [("date", JStr (strftime_dmy (act_date a))); ("duration", JNum (round2 dur));
        ("salary", salary a)].

(** Lines 245-263 on a non-empty selection. *)
Definition compute_stats (acts : list activity) : result stats :=
  durs <-? map_result calc_duration acts ;;
  sals <-? map_result (fun a => salary_num (salary a)) acts ;;
  Ok (mkStats (round2 (qsum durs)) (round2 (qsum sals))
              (round2 (qmax_list durs)) (round2 (qmin_list durs))
              (round2 (qmax_list sals)) (round2 (qmin_list sals))
              (map (fun '(a, dur) => detail_line a dur) (combine acts durs))).

(** ** The period, lines 201-220 *)

(** ** Lemmas on the aggregates *)

Lemma fold_qmax_ge l acc : (acc <= fold_left qmax l acc)%Q /\
  forall x, In x l -> (x <= fold_left qmax l acc)%Q.
Proof.
  revert acc; induction l as [|y l IH]; intros acc; simpl; [split; [apply Qle_refl | done]|].
  destruct (IH (qmax acc y)) as [H1 H2]. unfold qmax in *.
  destruct (Qlt_le_dec acc y); split.
  - eapply Qle_trans; [apply Qlt_le_weak; eassumption | done].
  - intros x [<-|Hx]; auto.
  - done.
  - intros x [<-|Hx]; [eapply Qle_trans; eassumption | auto].
Qed.

Lemma fold_qmin_le l acc : (fold_left qmin l acc <= acc)%Q /\
  forall x, In x l -> (fold_left qmin l acc <= x)%Q.
Proof.
  revert acc; induction l as [|y l IH]; intros acc; simpl; [split; [apply Qle_refl | done]|].
  destruct (IH (qmin acc y)) as [H1 H2]. unfold qmin in *.
  destruct (Qlt_le_dec y acc); split.
  - eapply Qle_trans; [eassumption | apply Qlt_le_weak; done].
  - intros x [<-|Hx]; auto.
  - done.
  - intros x [<-|Hx]; [eapply Qle_trans; eassumption | auto].
Qed.

Lemma fold_qmax_in l acc : In (fold_left qmax l acc) (acc :: l).
Proof.
  revert acc; induction l as [|y l IH]; intros acc; simpl; [auto|].
  destruct (IH (qmax acc y)) as [E|E]; unfold qmax in *;
    destruct (Qlt_le_dec acc y); rewrite <- ?E; simpl; auto.
Qed.

Lemma fold_qmin_in l acc : In (fold_left qmin l acc) (acc :: l).
Proof.
  revert acc; induction l as [|y l IH]; intros acc; simpl; [auto|].
  destruct (IH (qmin acc y)) as [E|E]; unfold qmin in *;
    destruct (Qlt_le_dec y acc); rewrite <- ?E; simpl; auto.
Qed.

(** [min(l) <= x <= max(l)] for every item, and both are items. *)
Lemma qmin_max_list_bounds l x :
  In x l -> (qmin_list l <= x)%Q /\ (x <= qmax_list l)%Q.
Proof.
  destruct l as [|y l]; [done|]. simpl. intros Hx.
  pose proof (fold_qmax_ge l y) as [A1 A2]. pose proof (fold_qmin_le l y) as [B1 B2].
  destruct Hx as [<-|Hx]; split; auto.
Qed.

Lemma qmax_list_in l : l <> [] -> In (qmax_list l) l.
Proof. destruct l as [|y l]; [done|]. intros _. apply fold_qmax_in. Qed.

Lemma qmin_list_in l : l <> [] -> In (qmin_list l) l.
Proof. destruct l as [|y l]; [done|]. intros _. apply fold_qmin_in. Qed.

(** Rounding to the nearest integer, ties to even: the floor or the next
    integer. *)
Lemma round_half_even_bounds y :
  (inject_Z (Qfloor y) <= y)%Q /\
  (round_half_even y = Qfloor y \/ round_half_even y = Qfloor y + 1).
Proof.
  split; [apply Qfloor_le|]. unfold round_half_even.
  destruct (Qlt_le_dec _ _); [auto|]. destruct (Qeq_dec _ _); [destruct (Z.even _)|]; auto.
Qed.

(** ... and the nearest of the two: at most one half away. *)
Lemma round_half_even_near y :
  (y - (1 # 2) <= inject_Z (round_half_even y) <= y + (1 # 2))%Q.
Proof.
  pose proof (Qfloor_le y). pose proof (Qlt_floor y). unfold round_half_even.
  set (f := Qfloor y) in *. rewrite inject_Z_plus in *.
  destruct (Qlt_le_dec (y - inject_Z f) (1 # 2)); [split; lra|].
  destruct (Qeq_dec (y - inject_Z f) (1 # 2)); [destruct (Z.even f)|];
    rewrite ?inject_Z_plus; change (inject_Z 1) with 1%Q in *; split; lra.
Qed.

Lemma round_half_even_mono y1 y2 : (y1 <= y2)%Q -> round_half_even y1 <= round_half_even y2.
Proof.
  intros Hle. pose proof (Qfloor_resp_le y1 y2 Hle) as Hf.
  destruct (Z.eq_dec (Qfloor y1) (Qfloor y2)) as [E|Hne].
  - unfold round_half_even. rewrite E.
    set (f := Qfloor y2).
    assert (Hr : (y1 - inject_Z f <= y2 - inject_Z f)%Q).
    { apply Qplus_le_l. done. }
    destruct (Qlt_le_dec (y1 - inject_Z f) (1 # 2)) as [A|A];
    destruct (Qlt_le_dec (y2 - inject_Z f) (1 # 2)) as [B|B];
    try destruct (Qeq_dec (y1 - inject_Z f) (1 # 2)) as [C|C];
    try destruct (Qeq_dec (y2 - inject_Z f) (1 # 2)) as [D|D];
    try destruct (Z.even f); first [lia | exfalso; lra].
  - assert (Qfloor y1 < Qfloor y2) by lia.
    destruct (round_half_even_bounds y1) as [_ [R1|R1]];
    destruct (round_half_even_bounds y2) as [_ [R2|R2]]; lia.
Qed.

Lemma round2_mono x y : (x <= y)%Q -> (round2 x <= round2 y)%Q.
Proof.
  intros Hle. unfold round2. rewrite !Qred_correct.
  apply Qmult_le_r; [reflexivity|]. rewrite <- Zle_Qle.
  apply round_half_even_mono. apply Qmult_le_r; [reflexivity | done].
Qed.

(** ** Properties *)

(** [round(x, 2)] is within half a cent of [x]. *)
Theorem round2_error x : (x - (1 # 200) <= round2 x <= x + (1 # 200))%Q.
Proof.
  unfold round2. rewrite Qred_correct.
  pose proof (round_half_even_near (x * 100)) as [H1 H2].
  set (r := inject_Z (round_half_even (x * 100))) in *.
  assert (E : (r / 100 == r * (1 # 100))%Q) by reflexivity. rewrite E. split; lra.
Qed.


Lemma hm_of_fmt h m : 0 <= h -> 0 <= m -> hm_of (JStr (fmt_hm h m)) = Ok (h, m).
Proof. intros Hh Hm. simpl. rewrite py_split_fmt_hm. simpl. by rewrite !py_int_pad_dec. Qed.

(** C15: on stored times of the form ["HH:MM"], [calc_duration] is the
    difference of the two times in minutes, divided by 60. *)
Theorem calc_duration_hm a h1 m1 h2 m2 :
  0 <= h1 -> 0 <= m1 -> 0 <= h2 -> 0 <= m2 ->
  start_time a = JStr (fmt_hm h1 m1) -> end_time a = JStr (fmt_hm h2 m2) ->
  calc_duration a = Ok (inject_Z (h2 * 60 + m2 - h1 * 60 - m1) / 60)%Q.
Proof.
  intros ? ? ? ? Hs He. unfold calc_duration. rewrite Hs, He, !hm_of_fmt by done. done.
Qed.

Lemma calc_duration_hm_witness :
  calc_duration (mkActivity 1 (mkDate 2024 1 1) (JStr (fmt_hm 8 15)) (JStr (fmt_hm 16 45))
                            (JStr "") (JNum 100) 1) = Ok (inject_Z (16 * 60 + 45 - 8 * 60 - 15) / 60)%Q.
Proof. apply (calc_duration_hm _ 8 15 16 45); (lia || reflexivity). Defined.

(** Nothing checks that the end time is after the start time: an
    entry that ends before it starts (an overnight shift) has a negative
    duration. *)
Theorem calc_duration_negative a h1 m1 h2 m2 :
  0 <= h1 -> 0 <= m1 -> 0 <= h2 -> 0 <= m2 ->
  start_time a = JStr (fmt_hm h1 m1) -> end_time a = JStr (fmt_hm h2 m2) ->
  h2 * 60 + m2 < h1 * 60 + m1 ->
  exists q, calc_duration a = Ok q /\ (q < 0)%Q.
Proof.
  intros ? ? ? ? Hs He Hlt. eexists. split; [by apply (calc_duration_hm a h1 m1 h2 m2)|].
  apply Qlt_shift_div_r; [reflexivity|]. rewrite Qmult_0_l.
  change 0%Q with (inject_Z 0). rewrite <- Zlt_Qlt. lia.
Qed.

Lemma calc_duration_negative_witness :
  exists q, calc_duration (mkActivity 1 (mkDate 2024 1 1) (JStr (fmt_hm 22 0)) (JStr (fmt_hm 6 0))
                                      (JStr "") (JNum 100) 1) = Ok q /\ (q < 0)%Q.
Proof. apply (calc_duration_negative _ 22 0 6 0); (lia || reflexivity). Defined.

(** C13: when every selected row has parsable times and a numeric salary,
    the aggregates are computed: the totals are the rounded sums; the
    rounded duration and salary of every row lie between the reported
    minimum and maximum, which are themselves rounded row values; and
    there is one detail line per row, in the order of the rows. *)
Theorem compute_stats_spec acts durs sals :
  Forall2 (fun a dur => calc_duration a = Ok dur) acts durs ->
  Forall2 (fun a s => salary_num (salary a) = Ok s) acts sals ->
  exists st, compute_stats acts = Ok st /\
    total_hours st = round2 (qsum durs) /\ total_salary st = round2 (qsum sals) /\
    (forall x, In x durs -> (min_hours st <= round2 x <= max_hours st)%Q) /\
    (forall x, In x sals -> (min_salary st <= round2 x <= max_salary st)%Q) /\
    (acts <> [] -> In (max_hours st) (map round2 durs) /\ In (min_hours st) (map round2 durs) /\
                   In (max_salary st) (map round2 sals) /\ In (min_salary st) (map round2 sals)) /\
    map (fun l => json_get l "date") (details st) = map (fun a => Ok (JStr (strftime_dmy (act_date a)))) acts.
Proof.
  intros Hd Hs.
  assert (Ed : map_result calc_duration acts = Ok durs) by (by apply map_result_Forall2).
  assert (Es : map_result (fun a => salary_num (salary a)) acts = Ok sals)
    by (by apply map_result_Forall2).
  unfold compute_stats. rewrite Ed. simpl. rewrite Es. simpl.
  eexists. split; [done|]. simpl. do 2 (split; [done|]).
  split; [|split; [|split]].
  - intros x Hx. destruct (qmin_max_list_bounds durs x Hx). split; by apply round2_mono.
  - intros x Hx. destruct (qmin_max_list_bounds sals x Hx). split; by apply round2_mono.
  - intros Hne. assert (durs <> []) by (intros ->; invc Hd; done).
    assert (sals <> []) by (intros ->; invc Hs; done).
    repeat split; apply in_map; auto using qmax_list_in, qmin_list_in.
  - clear -Hd. induction Hd; simpl; [done|]. by f_equal.
Qed.

Section Handler.
Context `{DateParser}.

(** [Some (start, end)], or [None] for an unknown period (HTTP 400). *)
Definition period_range (today : date) (data : json) : result (option (date * date)) :=
  period <-? json_get data "period" ;;
  match period with
  | JStr p =>
      if String.eqb p "week" then
        st <-? date_replace today None None (Some (Z.max 1 (day today - 7))) ;; Ok (Some (st, today))
      else if String.eqb p "month" then
        st <-? date_replace today None None (Some 1) ;; Ok (Some (st, today))
      else if String.eqb p "year" then
        st <-? date_replace today None (Some 1) (Some 1) ;; Ok (Some (st, today))
      else if String.eqb p "custom" then
        sj <-? json_get data "start_date" ;; sd <-? parse_json_date sj ;;
        ej <-? json_get data "end_date" ;; ed <-? parse_json_date ej ;;
        Ok (Some (sd, ed))
      else Ok None
  | _ => Ok None
  end.

Definition unknown_period : response := RJson 400 (err_json "Невідомий період").

(** Lines 222-226: the session user's rows with [start <= date <= end]. *)
Definition select_range (d : db) (uid : Z) (sd ed : date) : list activity :=
  List.filter (fun a => (act_user a =? uid) && date_in sd ed (act_date a)) (activities d).

(** The body of the [try] (lines 200-263). *)
Definition stats_tx (d : db) (uid : Z) (body : option json) (today : date) : result response :=
  data <-? ok_of body BadRequest ;;
  rng <-? period_range today data ;;
  match rng with
  | None => Ok unknown_period
  | Some (sd, ed) =>
      match select_range d uid sd ed with
      | [] => Ok (RJson 200 (stats_json zero_stats))
      | acts => st <-? compute_stats acts ;; Ok (RJson 200 (stats_json st))
      end
  end.

(** [calculate_statistics()], lines 194-267; [today] is
    [datetime.today().date()]. *)
Definition calculate_statistics (d : db) (s : session) (body : option json) (today : date)
  : response :=
  match s with
  | None => unauthorized
  | Some uid =>
      match stats_tx d uid body today with
      | Ok r => r
      | Exc e => RJsonExc e
      end
  end.
End Handler.

(** ** Properties of the handler *)

Lemma period_range_custom_or_named `{DateParser} today data p :
  json_get data "period" = Ok (JStr p) ->
  period_range today data =
    if String.eqb p "week" then
      st <-? date_replace today None None (Some (Z.max 1 (day today - 7))) ;; Ok (Some (st, today))
    else if String.eqb p "month" then
      st <-? date_replace today None None (Some 1) ;; Ok (Some (st, today))
    else if String.eqb p "year" then
      st <-? date_replace today None (Some 1) (Some 1) ;; Ok (Some (st, today))
    else if String.eqb p "custom" then
      sj <-? json_get data "start_date" ;; sd <-? parse_json_date sj ;;
      ej <-? json_get data "end_date" ;; ed <-? parse_json_date ej ;; Ok (Some (sd, ed))
    else Ok None.
Proof. intros Hp. unfold period_range. by rewrite Hp. Qed.

Lemma date_replace_day_ok today n :
  date_valid today = true -> 1 <= n <= day today ->
  date_replace today None None (Some n) = Ok (mkDate (year today) (month today) n).
Proof.
  intros Hv Hn. unfold date_replace. simpl.
  apply date_valid_bounds in Hv as (? & ? & ?).
  rewrite date_valid_intro by lia. done.
Qed.

Section HandlerProperties.
Context `{DateParser}.

(** C16: the "week" period runs from day [max(1, today.day - 7)] of the
    current month to today: it never reaches into the previous month, and
    it spans [min(today.day, 8)] days, eight days and not seven. *)
Theorem week_period_window today data :
  date_valid today = true -> json_get data "period" = Ok (JStr "week") ->
  period_range today data = Ok (Some (mkDate (year today) (month today) (Z.max 1 (day today - 7)), today)) /\
  day today - Z.max 1 (day today - 7) + 1 = Z.min (day today) 8.
Proof.
  intros Hv Hp. rewrite (period_range_custom_or_named today data "week" Hp). simpl.
  pose proof (date_valid_bounds today Hv) as (_ & _ & Hd).
  rewrite date_replace_day_ok by (done || lia). split; [done | lia].
Qed.

(** C17: the named periods never fail: for "week", "month" and "year"
    the range is a valid date of the current year, at most [today], to
    [today]. *)
Theorem named_period_range today data p :
  date_valid today = true -> json_get data "period" = Ok (JStr p) ->
  p = "week" \/ p = "month" \/ p = "year" ->
  exists sd, period_range today data = Ok (Some (sd, today)) /\
    date_valid sd = true /\ date_leb sd today = true /\ year sd = year today.
Proof.
  intros Hv Hp Hn. rewrite (period_range_custom_or_named today data p Hp).
  pose proof (date_valid_bounds today Hv) as (Hy & Hm & Hd).
  pose proof (days_in_month_le (year today) (month today) Hm).
  pose proof (days_in_month_le (year today) 1 ltac:(lia)).
  destruct Hn as [-> | [-> | ->]]; simpl.
  - rewrite date_replace_day_ok by (done || lia). eexists. split; [done|].
    split; [apply date_valid_intro; lia|]. split; [|done].
    apply date_leb_key; [apply date_valid_intro; lia | done |]. unfold date_key; simpl; lia.
  - rewrite date_replace_day_ok by (done || lia). eexists. split; [done|].
    split; [apply date_valid_intro; lia|]. split; [|done].
    apply date_leb_key; [apply date_valid_intro; lia | done |]. unfold date_key; simpl; lia.
  - unfold date_replace; simpl. rewrite date_valid_intro by lia.
    eexists. split; [done|]. split; [apply date_valid_intro; lia|]. split; [|done].
    apply date_leb_key; [apply date_valid_intro; lia | done |].
    unfold date_key; simpl; lia.
Qed.

(** C18: a period that is not one of "week", "month", "year", "custom"
    (or no period at all) is answered with HTTP 400 "unknown period". *)
Theorem unknown_period_400 d uid data today :
  (exists kvs, data = JObj kvs) ->
  (forall p, json_get data "period" = Ok (JStr p) ->
     p <> "week" /\ p <> "month" /\ p <> "year" /\ p <> "custom") ->
  calculate_statistics d (Some uid) (Some data) today = unknown_period.
Proof.
  intros [kvs ->] Hp. unfold calculate_statistics, stats_tx, period_range. cbn [rbind ok_of].
  destruct (json_get (JObj kvs) "period") as [v|e] eqn:Hv; [|done]. cbn [rbind].
  destruct v as [| b | q | p | l | kvs']; try done.
  destruct (Hp p eq_refl) as (H1 & H2 & H3 & H4).
  by rewrite (proj2 (String.eqb_neq _ _) H1), (proj2 (String.eqb_neq _ _) H2),
             (proj2 (String.eqb_neq _ _) H3), (proj2 (String.eqb_neq _ _) H4).
Qed.


(** C19: one selected row whose times cannot be read (not ["H:M"], not a
    number, [None]) makes the whole request a 500 with the exception. *)
Theorem stats_bad_row_500 d uid data today sd ed a e :
  period_range today data = Ok (Some (sd, ed)) ->
  In a (select_range d uid sd ed) -> calc_duration a = Exc e ->
  exists e', calculate_statistics d (Some uid) (Some data) today = RJsonExc e'.
Proof.
  intros Hr Ha He. unfold calculate_statistics, stats_tx. cbn [rbind ok_of]. rewrite Hr.
  cbn [rbind].
  destruct (select_range d uid sd ed) as [|b l] eqn:Es; [done|].
  unfold compute_stats. destruct (map_result_exc calc_duration (b :: l) a e Ha He) as [e' ->].
  by exists e'.
Qed.
End HandlerProperties.

(** The example of the specification: two days, 08:00-16:00 for 100 and
    08:00-12:00 for 50, over the custom range 2024-01-01 .. 2024-01-02. *)
Definition example_db : db :=
  mkDb [] [mkActivity 1 (mkDate 2024 1 1) (JStr "08:00") (JStr "16:00") (JStr "") (JNum 100) 1;
           mkActivity 2 (mkDate 2024 1 2) (JStr "08:00") (JStr "12:00") (JStr "") (JNum 50) 1] [].

Definition example_body : json :=
  JObj [("period", JStr "custom"); ("start_date", JStr "2024-01-01"); ("end_date", JStr "2024-01-02")].

(** The worked example of the specification, computed. *)
Example stats_spec_example :
  calculate_statistics example_db (Some 1) (Some example_body) (mkDate 2024 3 5) =
    RJson 200 (stats_json (mkStats 12 150 8 4 100 50
      [JObj [("date", JStr "01.01.2024"); ("duration", JNum 8); ("salary", JNum 100)];
       JObj [("date", JStr "02.01.2024"); ("duration", JNum 4); ("salary", JNum 50)]])).
Proof. vm_compute. reflexivity. Qed.

Lemma week_period_window_witness :
  period_range (mkDate 2024 3 3) (JObj [("period", JStr "week")]) =
    Ok (Some (mkDate 2024 3 (Z.max 1 (3 - 7)), mkDate 2024 3 3)) /\
  3 - Z.max 1 (3 - 7) + 1 = Z.min 3 8.
Proof. exact (week_period_window (mkDate 2024 3 3) (JObj [("period", JStr "week")]) eq_refl eq_refl). Defined.

Lemma named_period_range_witness :
  exists sd, period_range (mkDate 2024 2 29) (JObj [("period", JStr "year")]) =
               Ok (Some (sd, mkDate 2024 2 29)) /\
    date_valid sd = true /\ date_leb sd (mkDate 2024 2 29) = true /\ year sd = 2024.
Proof.
  apply (named_period_range (mkDate 2024 2 29) (JObj [("period", JStr "year")]) "year");
    try reflexivity. right; right; reflexivity.
Defined.

Lemma unknown_period_400_witness :
  calculate_statistics example_db (Some 1) (Some (JObj [("period", JStr "decade")])) (mkDate 2024 3 5) =
    unknown_period.
Proof.
  apply unknown_period_400; [by eexists|]. intros p Hp. simpl in Hp. injection Hp as <-.
  repeat split; discriminate.
Defined.


Lemma stats_bad_row_500_witness :
  exists e', calculate_statistics
    (mkDb [] [mkActivity 1 (mkDate 2024 1 1) (JStr "8h") (JStr "16:00") (JStr "") (JNum 100) 1] [])
    (Some 1) (Some example_body) (mkDate 2024 3 5) = RJsonExc e'.
Proof.
  apply (stats_bad_row_500 _ _ _ _ (mkDate 2024 1 1) (mkDate 2024 1 2)
           (mkActivity 1 (mkDate 2024 1 1) (JStr "8h") (JStr "16:00") (JStr "") (JNum 100) 1) ValueError);
    [reflexivity | simpl; auto | reflexivity].
Defined.

Lemma compute_stats_spec_witness :
  exists st, compute_stats (activities example_db) = Ok st /\
    total_hours st = round2 (qsum [480 # 60; 240 # 60]%Q) /\ total_salary st = round2 (qsum [100; 50]%Q) /\
    (forall x, In x [480 # 60; 240 # 60]%Q -> (min_hours st <= round2 x <= max_hours st)%Q) /\
    (forall x, In x [100; 50]%Q -> (min_salary st <= round2 x <= max_salary st)%Q) /\
    (activities example_db <> [] ->
       In (max_hours st) (map round2 [480 # 60; 240 # 60]%Q) /\ In (min_hours st) (map round2 [480 # 60; 240 # 60]%Q) /\
       In (max_salary st) (map round2 [100; 50]%Q) /\ In (min_salary st) (map round2 [100; 50]%Q)) /\
    map (fun l => json_get l "date") (details st) =
      map (fun a => Ok (JStr (strftime_dmy (act_date a)))) (activities example_db).
Proof.
  apply compute_stats_spec; repeat constructor; vm_compute; reflexivity.
Defined.

End Statistics.
