(* ===== verification/App.v ===== *)
(** * The whole application: dispatch, the store's step relation, invariants

    The routes of app.py (the [@app.route] decorators, lines 42-267)
    dispatch a request to its view ([handle]).  Clients are independent
    and each holds its own cookie; since the cookie is signed with a
    constant key (line 8), a request may carry any session.  The store
    therefore evolves by [step]: any request, with any session, at any
    time.  [db_ok] collects the invariants of the store, proved for every
    reachable store by induction on the steps. *)

From S2P Require Import Prelude Dates Json Store Http Auth Activities Feedback Statistics.

Local Open Scope Z_scope.

Module App.
Import Dates Json Store Http Auth Activities Feedback Statistics.

(** One request per route. *)
Inductive request :=
| RqIndex                          (** GET / *)
| RqRegister (m : method) (f : form)  (** /register *)
| RqLogin (m : method) (f : form)     (** /login *)
| RqDashboard                      (** GET /dashboard *)
| RqEvents (a : args)              (** GET /events?start&end *)
| RqEvent (ds : string)            (** GET /event/<date> *)
| RqSaveEvent (body : option json) (** POST /event *)
| RqDeleteEvent (eid : Z)          (** POST /event/delete/<int:event_id> *)
| RqLogout                         (** GET /logout *)
| RqFeedback (f : form)            (** POST /submit_feedback *)
| RqStatistics (body : option json). (** POST /statistics *)

Section Dispatch.
Context `{DateParser}.

(** The response, the client's new session and the new store; [now] is
    [datetime.utcnow()] and [today] is [datetime.today().date()].  The
    [<int:event_id>] converter matches non-negative integers only: another
    path is a 404 of the router. *)
Definition handle (d : db) (s : session) (rq : request) (now : Z) (today : date)
  : response * session * db :=
  match rq with
  | RqIndex => (index d, s, d)
  | RqRegister m f => let '(r, d') := register m d f in (r, s, d')
  | RqLogin m f => let '(r, s') := login m d s f in (r, s', d)
  | RqDashboard => (dashboard d s, s, d)
  | RqEvents a => (get_events d s a, s, d)
  | RqEvent ds => (get_event d s ds, s, d)
  | RqSaveEvent b => let '(r, d') := save_event d s b in (r, s, d')
  | RqDeleteEvent eid =>
      if 0 <=? eid then let '(r, d') := delete_event d s eid in (r, s, d')
      else (RAbort 404, s, d)
  | RqLogout => let '(r, s') := logout s in (r, s', d)
  | RqFeedback f => let '(r, d') := submit_feedback d f now in (r, s, d')
  | RqStatistics b => (calculate_statistics d s b today, s, d)
  end.

(** The store after a request. *)
Definition db_after (d : db) (s : session) (rq : request) (now : Z) (today : date) : db :=
  snd (handle d s rq now today).

(** A step of the store: one request of some client. *)
Inductive step : db -> db -> Prop :=
| step_request d s rq now today : step d (db_after d s rq now today).

(** [db.create_all()] at start-up (lines 37-38, and again at 271-272
    when the module is run as a script): it creates the tables a database
    file lacks and leaves the rows of an existing file alone; [None] is a
    new file. *)
Definition create_all (file : option db) : db :=
  match file with
  | None => empty_db
  | Some d => d
  end.

(** The stores reachable from a new database file: requests, and
    restarts of the server on the file it left. *)
Inductive reachable : db -> Prop :=
| reach_init : reachable (create_all None)
| reach_step d d' : reachable d -> step d d' -> reachable d'
| reach_restart d : reachable d -> reachable (create_all (Some d)).

End Dispatch.

(** The invariants of the store. *)
Record db_ok (d : db) : Prop := {
  ok_usernames : usernames_unique (users d);
  ok_user_rows : rowids_ok user_id (users d);
  ok_activity_rows : rowids_ok act_id (activities d);
  ok_one_per_date : one_per_date (activities d);
  ok_dates : Forall (fun a => date_valid (act_date a) = true) (activities d);
  ok_salaries : floats_ok (activities d);
  ok_feedback_rows : rowids_ok fb_id (feedbacks d);
  ok_feedback_filled :
    Forall (fun f => subject f <> "" /\ fb_name f <> "" /\ message f <> "") (feedbacks d) }.

(** The routes that need a session. *)
Definition protected (rq : request) : bool :=
  match rq with
  | RqDashboard | RqEvents _ | RqEvent _ | RqSaveEvent _ | RqDeleteEvent _ | RqStatistics _ => true
  | _ => false
  end.

(** What a protected route answers without a session. *)
Definition unauth_response (rq : request) : response :=
  match rq with
  | RqDashboard => RRedirect "login"
  | RqEvents _ => RJson 200 (JArr [])
  | RqDeleteEvent eid => if 0 <=? eid then unauthorized else RAbort 404
  | _ => unauthorized
  end.

(** The routes that may write the store. *)
Definition writes (rq : request) : bool :=
  match rq with
  | RqRegister POST _ | RqSaveEvent _ | RqDeleteEvent _ | RqFeedback _ => true
  | _ => false
  end.

(** ** Each view keeps the invariants *)

Lemma Forall_filter' {A} (P : A -> Prop) (p : A -> bool) l :
  Forall P l -> Forall P (List.filter p l).
Proof.
  intros H. apply List.Forall_forall. intros x Hx. apply filter_In in Hx as [Hx _].
  by eapply List.Forall_forall in Hx; [|exact H].
Qed.

Lemma register_tables m d f :
  activities (snd (register m d f)) = activities d /\ feedbacks (snd (register m d f)) = feedbacks d.
Proof.
  destruct m; simpl; [done|]. destruct (u <-? _ ;; _) as [[u p]|e]; simpl; [|done].
  by destruct (find_by_username (users d) u).
Qed.

Lemma register_db_ok m d f : db_ok d -> db_ok (snd (register m d f)).
Proof.
  intros [Hu Hr Ha Hk Hd Hs Hf Hn]. pose proof (register_tables m d f) as [Ea Ef].
  constructor; rewrite ?Ea, ?Ef; auto with worklog.
Qed.

Section Views.
Context `{DateParser}.

Lemma parse_json_date_valid j dt : parse_json_date j = Ok dt -> date_valid dt = true.
Proof. destruct j; simpl; try discriminate. apply parse_date_valid. Qed.

Lemma upsert_dates acts uid dt fs sal :
  Forall (fun a => date_valid (act_date a) = true) acts -> date_valid dt = true ->
  Forall (fun a => date_valid (act_date a) = true) (upsert_rows acts uid dt fs sal).
Proof.
  intros Hd Hdt. unfold upsert_rows. destruct (find_activity acts uid dt) as [ex|].
  - apply Forall_map. eapply Forall_impl; [exact Hd|].
    intros x Hx. simpl. by destruct (act_id x =? act_id ex).
  - apply Forall_app. split; [done|]. by constructor.
Qed.

Lemma save_event_db_ok d s b : db_ok d -> db_ok (snd (save_event d s b)).
Proof.
  intros Hok. destruct s as [uid|]; [|done]. destruct b as [data|]; [|done]. simpl.
  destruct (save_event_tx d uid data) as [d'|e] eqn:E; [|done]. simpl.
  destruct Hok as [Hu Hr Ha Hk Hd Hs Hf Hn].
  apply save_event_tx_ok in E as ([dt fs sal] & Hdec & ->); [|done].
  unfold decode_save in Hdec. simpl.
  destruct (json_index data "date") as [dj|]; simpl in Hdec; [|discriminate].
  destruct (parse_json_date dj) as [dt'|] eqn:Ed; simpl in Hdec; [|discriminate].
  destruct (read_fields data) as [fs'|]; simpl in Hdec; [|discriminate].
  destruct (bind_fields fs') as [sal'|] eqn:Eb; simpl in Hdec; [|discriminate]. simplify_eq.
  constructor; simpl; auto with worklog.
  - apply upsert_dates; [done | by eapply parse_json_date_valid].
  - by apply upsert_floats.
Qed.

Lemma delete_event_db_ok d s eid : db_ok d -> db_ok (snd (delete_event d s eid)).
Proof.
  intros Hok. destruct s as [uid|]; [|done]. simpl.
  destruct (tbl_get act_id (activities d) eid) as [a|]; [|done].
  destruct (act_user a =? uid); [|done]. simpl.
  destruct Hok as [Hu Hr Ha Hk Hd Hs Hf Hn].
  constructor; simpl; try done; unfold one_per_date, tbl_delete in *;
    first [by apply (rowids_ok_delete act_id) | by apply NoDup_map_filter | by apply Forall_filter'].
Qed.

Lemma submit_feedback_db_ok d f now : db_ok d -> db_ok (snd (submit_feedback d f now)).
Proof.
  intros Hok. pose proof (submit_feedback_rowids_ok d f now) as Hfr.
  destruct Hok as [Hu Hr Ha Hk Hd Hs Hf Hn]. unfold submit_feedback in *.
  destruct (s <-? _ ;; _) as [[[s' n] m]|e]; simpl in *; [|by constructor].
  destruct (String.eqb s' "" || String.eqb n "" || String.eqb m "") eqn:E; simpl in *;
    [by constructor|].
  constructor; auto. simpl. apply Forall_app. split; [done|]. constructor; [|done].
  simpl. apply orb_false_iff in E as [E Em]. apply orb_false_iff in E as [Es En].
  apply String.eqb_neq in Es, En, Em. done.
Qed.

(** Every request keeps the invariants. *)
Lemma handle_db_ok d s rq now today : db_ok d -> db_ok (db_after d s rq now today).
Proof.
  intros Hok. unfold db_after. destruct rq; simpl; try done.
  - pose proof (register_db_ok m d f Hok). by destruct (register m d f).
  - by destruct (login m d s f).
  - pose proof (save_event_db_ok d s body Hok). by destruct (save_event d s body).
  - destruct (0 <=? eid); [|done].
    pose proof (delete_event_db_ok d s eid Hok). by destruct (delete_event d s eid).
  - pose proof (submit_feedback_db_ok d f now Hok). by destruct (submit_feedback d f now).
Qed.
End Views.

Lemma empty_db_ok : db_ok empty_db.
Proof. constructor; simpl; repeat constructor. Qed.

(** ** Properties *)

Section Properties.
Context `{DateParser}.

(** C3: in every store reachable from a new database file by any sequence
    of requests, with any sessions, and server restarts: user names are
    unique, every table's
    rowids are positive and increasing, there is at most one activity per
    (user, date), every activity date is a valid date, every salary is
    a number or NULL (what [float()] stores), and every feedback row has
    its three fields non-empty. *)
Theorem reachable_db_ok d : reachable d -> db_ok d.
Proof.
  induction 1 as [|d d' _ IH Hstep|d _ IH]; [apply empty_db_ok| |done].
  destruct Hstep. by apply handle_db_ok.
Qed.

(** C11: without a session, every protected route leaves the store and
    the session as they were, and answers 401 (an empty list for
    [/events], a redirect to the login page for [/dashboard]). *)
Theorem unauthenticated_requests d rq now today :
  protected rq = true -> handle d None rq now today = (unauth_response rq, None, d).
Proof. destruct rq; simpl; try discriminate; try done. by destruct (0 <=? eid). Qed.

(** C12: a client's session changes only by logging out (to no session)
    or by a successful login, which binds it to the id of a user row
    whose name and password are the ones the form sent. *)
Theorem session_changes d s rq now today r s' d' :
  handle d s rq now today = (r, s', d') ->
  s' = s \/ (rq = RqLogout /\ s' = None) \/
  (exists f usr, rq = RqLogin POST f /\ In usr (users d) /\ s' = Some (user_id usr) /\
     form_get f "username" = Ok (username usr) /\ form_get f "password" = Ok (password usr)).
Proof.
  destruct rq as [| m f | m f | | a | ds | b | eid | | f | b]; simpl; intros Hh.
  all: try (repeat case_match; simplify_eq; by left).
  - destruct m; simpl in Hh; [simplify_eq; by left|].
    destruct (form_get f "username") as [u|e] eqn:Eu; simpl in Hh; [|simplify_eq; by left].
    destruct (form_get f "password") as [p|e] eqn:Ep; simpl in Hh; [|simplify_eq; by left].
    destruct (find_by_credentials (users d) u p) as [usr|] eqn:E; simplify_eq; [|by left].
    apply find_by_credentials_some in E as (Hin & <- & <-). right; right. by exists f, usr.
  - simplify_eq. right; left. done.
Qed.

(** C27: a user name registered on a store with the invariants can log in
    at once with the same form: the session is bound to the id the
    registration gave the new row. *)
Theorem register_then_login d s f u p now today :
  db_ok d -> form_get f "username" = Ok u -> form_get f "password" = Ok p ->
  find_by_username (users d) u = None ->
  let d1 := db_after d s (RqRegister POST f) now today in
  handle d1 s (RqLogin POST f) now today =
    (RRedirect "dashboard", Some (next_rowid user_id (users d)), d1).
Proof.
  intros Hok Hu Hp Hn d1.
  assert (E1 : d1 = mkDb (tbl_insert (users d) (new_user d u p)) (activities d) (feedbacks d)).
  { subst d1. unfold db_after. cbn [handle]. by rewrite (register_post_ok d f u p Hu Hp), Hn. }
  simpl. rewrite (form_pair_ok f u p Hu Hp).
  rewrite E1 at 1. simpl. rewrite (find_by_credentials_unique _ (new_user d u p)); [done| |].
  - pose proof (register_usernames_unique POST d f (ok_usernames _ Hok)) as Hu'.
    rewrite (register_post_ok d f u p Hu Hp), Hn in Hu'. exact Hu'.
  - unfold tbl_insert. apply in_or_app. simpl; auto.
Qed.

(** Only registration, saving or deleting an event and submitting
    feedback can change the store. *)
Theorem read_only_routes d s rq now today :
  writes rq = false -> db_after d s rq now today = d.
Proof.
  unfold db_after. destruct rq; simpl; try discriminate; try done.
  - destruct m; [done | discriminate].
  - by destruct (login m d s f).
Qed.
End Properties.

Lemma session_changes_witness :
  let d := mkDb [mkUser 1 "ann" "pw"] [] [] in
  let f := [("username", "ann"); ("password", "pw")] in
  Some 1 = None \/ (RqLogin POST f = RqLogout /\ Some 1 = None) \/
  (exists f' usr, RqLogin POST f = RqLogin POST f' /\ In usr (users d) /\ Some 1 = Some (user_id usr) /\
     form_get f' "username" = Ok (username usr) /\ form_get f' "password" = Ok (password usr)).
Proof.
  intros d f.
  exact (session_changes (H := iso_parser) d None (RqLogin POST f) 0 (mkDate 2024 1 1)
           (RRedirect "dashboard") (Some 1) d eq_refl).
Defined.

Lemma register_then_login_witness :
  let f := [("username", "ann"); ("password", "pw")] in
  let d1 := db_after (H := iso_parser) empty_db None (RqRegister POST f) 0 (mkDate 2024 1 1) in
  handle (H := iso_parser) d1 None (RqLogin POST f) 0 (mkDate 2024 1 1) =
    (RRedirect "dashboard", Some 1, d1).
Proof.
  exact (register_then_login (H := iso_parser) empty_db None [("username", "ann"); ("password", "pw")]
           "ann" "pw" 0 (mkDate 2024 1 1)
           ltac:(constructor; simpl; repeat constructor) eq_refl eq_refl eq_refl).
Defined.

Lemma reachable_db_ok_witness :
  db_ok (db_after empty_db None (RqRegister POST [("username", "ann"); ("password", "pw")]) 0
           (mkDate 2024 1 1)).
Proof.
  apply reachable_db_ok. eapply reach_step; [apply reach_init | constructor].
Defined.

Lemma unauthenticated_requests_witness :
  handle (H := iso_parser) empty_db None (RqSaveEvent (Some (JObj []))) 0 (mkDate 2024 1 1) =
    (unauthorized, None, empty_db).
Proof. exact (unauthenticated_requests empty_db (RqSaveEvent (Some (JObj []))) 0 _ eq_refl). Defined.

Lemma read_only_routes_witness :
  db_after (H := iso_parser) empty_db (Some 1) (RqStatistics (Some (JObj []))) 0 (mkDate 2024 1 1) =
    empty_db.
Proof. exact (read_only_routes empty_db (Some 1) (RqStatistics (Some (JObj []))) 0 _ eq_refl). Defined.

(** A request carrying a session for a user id with no row (the cookie is
    signed with the key of line 8, so any client can make one) stores an
    activity whose owner does not exist: the foreign key of line 28 is
    not an invariant of the reachable stores. *)
Definition orphan_db : db :=
  db_after (H := iso_parser) empty_db (Some 42)
    (RqSaveEvent (Some (JObj [("date", JStr "2024-01-01"); ("start", JStr "08:00");
                             ("end", JStr "16:00"); ("notes", JStr ""); ("salary", JNum 1)])))
    0 (mkDate 2024 1 1).

(** C35: some reachable store holds an activity whose owner has no user
    row. *)
Theorem forged_session_orphan_activity :
  reachable (H := iso_parser) orphan_db /\
  exists a, In a (activities orphan_db) /\ forall u, In u (users orphan_db) -> user_id u <> act_user a.
Proof.
  split.
  - eapply reach_step; [apply reach_init | constructor].
  - eexists. split; [vm_compute; left; reflexivity|]. vm_compute. intros u [].
Qed.

(** Rowids are reused: after the owner deletes the newest event, the
    next event saved gets the deleted event's id, so an id a client kept
    may come to name another entry. *)
Example rowid_reused :
  let body := JObj [("date", JStr "2024-01-01"); ("start", JStr "08:00"); ("end", JStr "16:00");
                    ("notes", JStr ""); ("salary", JNum 1)] in
  let d1 := db_after (H := iso_parser) empty_db (Some 1) (RqSaveEvent (Some body)) 0 (mkDate 2024 1 1) in
  let d2 := db_after (H := iso_parser) d1 (Some 1) (RqDeleteEvent 1) 0 (mkDate 2024 1 1) in
  let d3 := db_after (H := iso_parser) d2 (Some 1) (RqSaveEvent (Some body)) 0 (mkDate 2024 1 1) in
  map act_id (activities d1) = [1] /\ activities d2 = [] /\ map act_id (activities d3) = [1].
Proof. vm_compute. auto. Qed.

End App.
