(* ===== verification/Spec.v ===== *)
(** * The activity calendar as an abstract map, and the refinement

    What the calendar promises a user (spec: one entry per user and day,
    saving a day overwrites it, deleting removes the entry the user owns)
    is a finite map from (user id, date) to an entry.  [abs] reads the
    [activity] table as that map; the theorems show that [save_event],
    [delete_event] and [get_event] of [Activities] are the map's insert,
    filter and lookup, that [get_events] is a filtered listing of the
    map, and that every step of the whole application acts
    on the calendar as one of these abstract operations. *)

From S2P Require Import Prelude Dates Json Store Http Auth Activities Feedback Statistics App.
From stdpp Require Import gmap.

Local Open Scope Z_scope.

Module Spec.
Import Dates Json Store Http Auth Activities Feedback App.

(** ** The abstract calendar *)

(** An entry: the rowid a client addresses it by and the four columns
    it sets. *)
Record entry := mkEntry { e_id : Z; e_start : json; e_end : json; e_notes : json; e_salary : json }.

Abbreviation calendar := (gmap (Z * date) entry).

(** Save: the entry of [k] takes the values [fs] and the stored salary
    [sal]; it keeps its id, or gets [fresh] when [k] had none. *)
Definition a_save (m : calendar) (k : Z * date) (fs : fields) (sal : json) (fresh : Z) : calendar :=
  let i := match m !! k with Some e => e_id e | None => fresh end in
  <[k := mkEntry i (f_start fs) (f_end fs) (f_notes fs) sal]> m.

(** Column values a client cannot tell apart: equal, or [==] in Python
    (the flush keeps a stored value that is [==] to the one sent). *)
Definition jeq (x y : json) : Prop := x = y \/ py_eq x y = true.

#[export] Instance jeq_equivalence : Equivalence jeq.
Proof.
  split.
  - by left.
  - intros x y [->|E]; [by left | right; by rewrite py_eq_sym].
  - intros x y z [->|E1] [->|E2]; [by left | by right | by right | right; by eapply py_eq_trans].
Qed.

#[export] Instance entry_equiv : Equiv entry := fun e1 e2 =>
  e_id e1 = e_id e2 /\ jeq (e_start e1) (e_start e2) /\ jeq (e_end e1) (e_end e2) /\
  jeq (e_notes e1) (e_notes e2) /\ jeq (e_salary e1) (e_salary e2).

#[export] Instance entry_equivalence : Equivalence (≡@{entry}).
Proof.
  split.
  - intros e. repeat split; reflexivity.
  - intros e1 e2 (? & ? & ? & ? & ?). repeat split; by symmetry.
  - intros e1 e2 e3 (? & ? & ? & ? & ?) (? & ? & ? & ? & ?). repeat split; by etrans.
Qed.

(** Delete: the entry of [uid] with id [eid] disappears, if any. *)
Definition a_delete (m : calendar) (uid eid : Z) : calendar :=
  filter (fun ke : (Z * date) * entry => ~ (ke.1.1 = uid /\ e_id ke.2 = eid)) m.

(** What [get_event] sends for an entry. *)
Definition entry_json (e : entry) : json :=
  JObj [("start", e_start e); ("end", e_end e); ("notes", e_notes e);
        ("salary", e_salary e); ("id", JNum (inject_Z (e_id e)))].

(** The listing of a user's entries whose date passes [sel], each as
    the summary [/events] sends ([{title, start, id}]); in the map's
    order, which the spec leaves open ("the store's natural order"). *)
Definition summary (ke : (Z * date) * entry) : json :=
  JObj [("title", JStr "work"); ("start", JStr (isoformat ke.1.2)); ("id", JNum (inject_Z (e_id ke.2)))].

Definition a_events (m : calendar) (uid : Z) (sel : date -> bool) : list json :=
  map summary (List.filter (fun ke : (Z * date) * entry => (ke.1.1 =? uid) && sel ke.1.2) (map_to_list m)).

(** ** The abstraction of the table *)

Definition entry_of (a : activity) : entry :=
  mkEntry (act_id a) (start_time a) (end_time a) (notes a) (salary a).

Definition abs (acts : list activity) : calendar :=
  list_to_map (map (fun a => (act_key a, entry_of a)) acts).

(** ** Lemmas *)

Lemma abs_lookup acts k : abs acts !! k = entry_of <$> List.find (key_is k) acts.
Proof.
  induction acts as [|a acts IH]; [done|]. unfold abs in *. cbn [map List.find].
  rewrite list_to_map_cons, lookup_insert, IH. unfold key_is.
  case_bool_decide; case_decide; simpl; congruence.
Qed.

Lemma find_activity_key acts u dt : find_activity acts u dt = List.find (key_is (u, dt)) acts.
Proof.
  induction acts as [|a acts IH]; [done|]. simpl. rewrite IH. unfold key_is, act_key.
  destruct (Z.eqb_spec (act_user a) u); case_bool_decide; case_bool_decide; simpl; congruence.
Qed.

Lemma abs_find acts u dt : abs acts !! (u, dt) = entry_of <$> find_activity acts u dt.
Proof. by rewrite abs_lookup, find_activity_key. Qed.

Lemma find_key_filter_other k k' l :
  k <> k' ->
  List.find (key_is k) (List.filter (fun a => negb (key_is k' a)) l) = List.find (key_is k) l.
Proof.
  intros Hne. induction l as [|a l IH]; [done|]. cbn [List.filter List.find].
  destruct (key_is k' a) eqn:E'; simpl; rewrite IH; [|done].
  destruct (key_is k a) eqn:E; [|done].
  unfold key_is in E, E'. apply bool_decide_eq_true in E, E'. congruence.
Qed.

Lemma detail_json_entry a : detail_json a = entry_json (entry_of a).
Proof. done. Qed.

Lemma upserted_row_id acts uid dt fs sal :
  act_id (upserted_row acts uid dt fs sal) =
  match abs acts !! (uid, dt) with Some e => e_id e | None => next_rowid act_id acts end.
Proof. unfold upserted_row. rewrite abs_find. by destruct (find_activity acts uid dt). Qed.

(** The upsert of the table is the abstract save, up to Python's [==]
    on the columns the flush left alone. *)
Lemma abs_upsert acts uid dt fs sal :
  one_per_date acts -> rowids_ok act_id acts -> floats_ok acts -> bind_fields fs = Ok sal ->
  abs (upsert_rows acts uid dt fs sal) ≡ a_save (abs acts) (uid, dt) fs sal (next_rowid act_id acts).
Proof.
  intros Hu Hr Hf Hb. apply map_equiv_iff. intros k. unfold a_save. rewrite lookup_insert.
  case_decide as Hk.
  - subst k. rewrite abs_lookup, find_filter_hd, upsert_target by done. simpl. constructor.
    destruct (upserted_row_holds acts uid dt fs sal Hf Hb) as (E1 & E2 & E3 & E4 & _).
    repeat split; simpl; try (right; assumption). by rewrite upserted_row_id.
  - rewrite !abs_lookup, <- (find_key_filter_other k (uid, dt)) by congruence.
    rewrite upsert_others by done. by rewrite find_key_filter_other by congruence.
Qed.

(** With one row per key, [find] of a key among the rows passing [q] is
    the key's row, if it passes. *)
Lemma find_key_unique_and acts k q :
  one_per_date acts ->
  List.find (fun a => key_is k a && q a) acts = List.find (key_is k) acts ≫= (fun a => if q a then Some a else None).
Proof.
  unfold one_per_date. induction acts as [|a acts IH]; intros Hu; [done|]. simpl in *.
  invc Hu. destruct (key_is k a) eqn:E; simpl; [|by apply IH].
  destruct (q a); [done|]. apply find_none_intro. intros x Hx.
  apply andb_false_intro1. unfold key_is in *. apply bool_decide_eq_false_2.
  apply bool_decide_eq_true in E. intros Hk. apply H1. rewrite E, <- Hk. by apply in_map.
Qed.

Lemma abs_Some acts k e :
  abs acts !! k = Some e -> exists a, In a acts /\ act_key a = k /\ entry_of a = e.
Proof.
  rewrite abs_lookup. destruct (List.find (key_is k) acts) as [a|] eqn:E; simpl; [|discriminate].
  intros [= <-]. apply find_some in E as [Ha Hk]. unfold key_is in Hk.
  apply bool_decide_eq_true in Hk. eauto.
Qed.

(** Deleting rowid [eid] from the table removes the entry with id [eid]. *)
Lemma abs_delete acts eid :
  one_per_date acts ->
  abs (tbl_delete act_id acts eid) = filter (fun ke : (Z * date) * entry => e_id ke.2 <> eid) (abs acts).
Proof.
  intros Hu. apply map_eq. intros k. rewrite map_lookup_filter, !abs_lookup.
  unfold tbl_delete. rewrite find_filter_and, find_key_unique_and by done.
  destruct (List.find (key_is k) acts) as [a|]; simpl; [|done].
  destruct (Z.eqb_spec (act_id a) eid); simpl; case_guard; simpl in *; done.
Qed.

Lemma a_delete_owned m uid eid :
  (forall k e, m !! k = Some e -> e_id e = eid -> k.1 = uid) ->
  a_delete m uid eid = filter (fun ke : (Z * date) * entry => e_id ke.2 <> eid) m.
Proof.
  intros Ho. apply map_filter_ext. intros k e He. simpl.
  split; [intros Hn Hi; by apply Hn, (conj (Ho k e He Hi))|]. by intros Hn [_ Hi].
Qed.

Lemma a_delete_none m uid eid :
  (forall k e, m !! k = Some e -> e_id e = eid -> k.1 <> uid) -> a_delete m uid eid = m.
Proof. intros Hn. apply map_filter_id. intros k e He [Hu Hi]. by apply (Hn k e). Qed.

Lemma abs_keys acts : (map (fun a => (act_key a, entry_of a)) acts).*1 = map act_key acts.
Proof. induction acts as [|a acts IH]; [done|]. rewrite map_cons, fmap_cons. simpl. by f_equal. Qed.

(** With one row per key, the map lists the rows of the table. *)
Lemma abs_to_list acts :
  one_per_date acts -> map_to_list (abs acts) ≡ₚ map (fun a => (act_key a, entry_of a)) acts.
Proof.
  intros Hu. apply map_to_list_to_map. rewrite abs_keys. by apply NoDup_ListNoDup.
Qed.

(** The summaries of the user's rows passing [sel] are the listing of
    the map, up to order. *)
Lemma events_abs acts uid sel :
  one_per_date acts ->
  map event_json (List.filter (fun x => sel (act_date x)) (List.filter (fun x => act_user x =? uid) acts))
    ≡ₚ a_events (abs acts) uid sel.
Proof.
  intros Hu. unfold a_events.
  rewrite (Permutation_map _ (Permutation_filter' _ _ _ (abs_to_list acts Hu))).
  rewrite filter_map_gen, map_map, filter_filter. done.
Qed.

(** ** The views on the calendar *)

(** [delete_event] is the abstract delete. *)
Lemma delete_event_abs d uid eid :
  one_per_date (activities d) -> rowids_ok act_id (activities d) ->
  abs (activities (snd (delete_event d (Some uid) eid))) = a_delete (abs (activities d)) uid eid.
Proof.
  intros Hu Hr. simpl. destruct (tbl_get act_id (activities d) eid) as [b|] eqn:Eb.
  - apply tbl_get_some in Eb as [Hb Hid].
    assert (forall k e, abs (activities d) !! k = Some e -> e_id e = eid -> k.1 = act_user b) as Ho.
    { intros k e He Hi. apply abs_Some in He as (a & Ha & <- & <-). simpl in Hi.
      by rewrite (NoDup_map_eq act_id (activities d) a b (rowids_ok_nodup _ _ Hr) Ha Hb ltac:(congruence)). }
    destruct (Z.eqb_spec (act_user b) uid) as [<-|Hne]; simpl.
    + rewrite abs_delete by done. symmetry. by apply a_delete_owned.
    + symmetry. apply a_delete_none. intros k e He Hi. rewrite (Ho k e He Hi). done.
  - symmetry. apply a_delete_none. intros k e He Hi. apply abs_Some in He as (a & Ha & _ & <-).
    simpl in Hi. subst eid. by rewrite (tbl_get_in act_id _ a Hr Ha) in Eb.
Qed.

Lemma submit_feedback_activities d f now :
  activities (snd (submit_feedback d f now)) = activities d.
Proof. unfold submit_feedback. by repeat case_match; simplify_eq/=. Qed.

Section Effect.
Context `{DateParser}.

Lemma decode_save_bind data sa : decode_save data = Ok sa -> bind_fields (sa_fields sa) = Ok (sa_salary sa).
Proof.
  unfold decode_save. destruct (json_index _ _); cbn [rbind]; [|discriminate].
  destruct (parse_json_date _); cbn [rbind]; [|discriminate].
  destruct (read_fields _); cbn [rbind]; [|discriminate].
  destruct (bind_fields _) eqn:E; cbn [rbind]; [by intros [= <-] | discriminate].
Qed.

(** What a request does to the calendar, by the spec: a save of a body
    that decodes is the abstract save of the session's user, the date
    and the values sent (and fails with the decoding's exception
    otherwise); a delete by a session user is the abstract delete of
    that user's entry with that id; nothing else changes the calendar. *)
Definition a_effect (m : calendar) (s : session) (rq : request) (fresh : Z) : result calendar :=
  match rq, s with
  | RqSaveEvent (Some data), Some uid =>
      sa <-? decode_save data ;; Ok (a_save m (uid, sa_date sa) (sa_fields sa) (sa_salary sa) fresh)
  | RqDeleteEvent eid, Some uid => Ok (if 0 <=? eid then a_delete m uid eid else m)
  | _, _ => Ok m
  end.
End Effect.

(** ** Properties *)

Section Refinement.
Context `{DateParser}.

(** C25: [get_event] is the lookup of the calendar: the detail of the
    session user's entry of the parsed date, or an empty object. *)
Theorem get_event_refines d uid ds :
  get_event d (Some uid) ds =
  match parse_date ds with
  | Exc e => RJsonExc e
  | Ok dt => RJson 200 (match abs (activities d) !! (uid, dt) with
                        | Some e => entry_json e
                        | None => JObj []
                        end)
  end.
Proof. simpl. destruct (parse_date ds) as [dt|e]; [|done]. rewrite abs_find. by destruct (find_activity _ _ _). Qed.

(** C4: refinement.  Every request, with any session, on a store with
    the invariants, acts on the calendar exactly as [a_effect] says: a
    save by a session user of a body that decodes is the abstract save
    of that user, the date and the values sent, with the next rowid as
    the id of a new entry (up to Python's [==] on the columns the flush
    leaves alone); a delete by a session user is the abstract delete of
    that user's entry with that id; every other request leaves the
    calendar as it was.  When the abstract effect fails (a save whose
    body does not decode), the request answers that exception as a 500
    and writes nothing. *)
Theorem step_refines d s rq now today :
  db_ok d ->
  match a_effect (abs (activities d)) s rq (next_rowid act_id (activities d)) with
  | Ok m' => abs (activities (db_after d s rq now today)) ≡ m'
  | Exc e => fst (fst (handle d s rq now today)) = RJsonExc e /\ db_after d s rq now today = d
  end.
Proof.
  intros Hok. pose proof (ok_one_per_date _ Hok) as Hu.
  pose proof (ok_activity_rows _ Hok) as Hr. pose proof (ok_salaries _ Hok) as Hf.
  unfold db_after. destruct rq as [| m f | m f | | a | ds | [data|] | eid | | f | b];
    cbn [a_effect handle]; try reflexivity.
  - pose proof (register_tables m d f) as [Ea _]. destruct (register m d f). simpl in *. by rewrite Ea.
  - by destruct (login m d s f).
  - destruct s as [uid|]; [|reflexivity]. rewrite save_event_decode by done.
    destruct (decode_save data) as [sa|e] eqn:Ed; cbn [rbind]; simpl; [|done].
    apply abs_upsert; try done. by apply (decode_save_bind data).
  - by destruct s.
  - destruct s as [uid|]; destruct (0 <=? eid); try reflexivity.
    pose proof (delete_event_abs d uid eid Hu Hr) as E.
    destruct (delete_event d (Some uid) eid). simpl in *. by rewrite E.
  - pose proof (submit_feedback_activities d f now) as E.
    destruct (submit_feedback d f now); simpl in *. by rewrite E.
Qed.

(** C26: [/events] is the listing of the calendar: for a session user,
    when both range bounds are given, non-empty and parsed, the events
    sent are, up to order, the summaries of the user's calendar entries
    with a date in the inclusive range; when a bound is missing or empty
    (the boundary case of [if start and end:]), they are the summaries of
    all the user's entries. *)
Theorem get_events_refines d uid a :
  one_per_date (activities d) ->
  (forall st en sd ed,
     args_get a "start" = Some st -> args_get a "end" = Some en -> st <> "" -> en <> "" ->
     parse_date st = Ok sd -> parse_date en = Ok ed ->
     exists l, get_events d (Some uid) a = RJson 200 (JArr l) /\
       l ≡ₚ a_events (abs (activities d)) uid (date_in sd ed)) /\
  (truthy (args_get a "start") && truthy (args_get a "end") = false ->
     exists l, get_events d (Some uid) a = RJson 200 (JArr l) /\
       l ≡ₚ a_events (abs (activities d)) uid (fun _ => true)).
Proof.
  intros Hu. split.
  - intros st en sd ed Hs He Hst Hen Hps Hpe. simpl. rewrite Hs, He.
    rewrite (proj2 (String.eqb_neq _ _) Hst), (proj2 (String.eqb_neq _ _) Hen). simpl.
    rewrite Hps. simpl. rewrite Hpe. simpl. eexists. split; [done|]. by apply events_abs.
  - intros Hn. simpl.
    assert (Hall : map event_json (List.filter (fun x => act_user x =? uid) (activities d))
                   ≡ₚ a_events (abs (activities d)) uid (fun _ => true)).
    { rewrite <- (filter_true (List.filter _ _)) at 1. by apply (events_abs _ _ (fun _ => true)). }
    destruct (args_get a "start"), (args_get a "end"); simpl in *; try by eexists.
    rewrite Hn. by eexists.
Qed.
End Refinement.

(** The store after one save of 2024-01-01 by user 1. *)
Definition saved_db : db :=
  db_after (H := iso_parser) empty_db (Some 1)
    (RqSaveEvent (Some (JObj [("date", JStr "2024-01-01"); ("start", JStr "08:00");
                             ("end", JStr "16:00"); ("notes", JStr ""); ("salary", JNum 1)])))
    0 (mkDate 2024 1 1).

Lemma step_refines_witness :
  match a_effect (H := iso_parser) (abs (activities saved_db)) (Some 1)
          (RqSaveEvent (Some string_salary_body)) (next_rowid act_id (activities saved_db)) with
  | Ok m' => abs (activities (db_after (H := iso_parser) saved_db (Some 1)
                               (RqSaveEvent (Some string_salary_body)) 0 (mkDate 2024 1 1))) ≡ m'
  | Exc e => fst (fst (handle (H := iso_parser) saved_db (Some 1) (RqSaveEvent (Some string_salary_body))
                         0 (mkDate 2024 1 1))) = RJsonExc e /\
             db_after (H := iso_parser) saved_db (Some 1) (RqSaveEvent (Some string_salary_body))
               0 (mkDate 2024 1 1) = saved_db
  end.
Proof.
  apply step_refines. apply reachable_db_ok.
  eapply reach_step; [apply reach_init | constructor].
Defined.

Lemma get_events_refines_witness :
  exists l, get_events (H := iso_parser) sample_db (Some 1)
                       [("start", "2024-01-01"); ("end", "2024-01-01")] = RJson 200 (JArr l) /\
    l ≡ₚ a_events (abs (activities sample_db)) 1 (date_in (mkDate 2024 1 1) (mkDate 2024 1 1)).
Proof.
  apply (proj1 (get_events_refines (H := iso_parser) sample_db 1 _ ltac:(check_tables))
           "2024-01-01" "2024-01-01"); try reflexivity; try discriminate; vm_compute; reflexivity.
Defined.

End Spec.
