(* ===== verification/Concurrency.v ===== *)
(** * Concurrent requests: the read-then-write of [save_event]

    [save_event] (app.py 125-154) reads first (the date, the existing
    row of line 132, the four fields) and writes at [db.session.commit()]
    (line 150): the INSERT of the new object, with the rowid it gets
    then, or the flush of the assignments to the row loaded, which
    SQLAlchemy turns into an UPDATE of the columns whose value changed,
    or into no statement at all.  Python's sqlite3 driver opens a
    transaction only at the first write, so nothing locks the row read
    at line 132 until the commit: the requests of other clients, and
    other saves, may run in between.  [save_read] and [save_write] are
    the two halves (the write is the [flush_insert] or [flush_update] of
    [Activities], the same as in the sequential handler); [cstep]
    interleaves them with the atomic requests of [App]; [register]
    (lines 47-57) is split the same way, its commit checked by the
    UNIQUE index of [User.username]. *)

From S2P Require Import Prelude Dates Json Store Http Auth Activities Feedback Statistics App.
From stdpp Require Import relations.

Local Open Scope Z_scope.

Module Concurrency.
Import Dates Json Store Http Auth Activities Feedback App.

(** What a save has decided when it reaches [commit()]. *)
Inductive plan :=
| PInsert (uid : Z) (dt : date) (fs : fields)     (** [db.session.add(activity)] *)
| PUpdate (ex : activity) (fs : fields).          (** the assignments to [existing], loaded as [ex] *)

Section Phases.
Context `{DateParser}.

(** Lines 131-148: the reads of the [try] block, up to the commit. *)
Definition save_read (d : db) (uid : Z) (data : json) : result plan :=
  dj <-? json_index data "date" ;;
  dt <-? parse_json_date dj ;;
  match find_activity (activities d) uid dt with
  | None => fs <-? read_fields data ;; Ok (PInsert uid dt fs)
  | Some ex => fs <-? read_fields data ;; Ok (PUpdate ex fs)
  end.
End Phases.

(** Line 150, [db.session.commit()] on the store as it is then: the
    INSERT takes the next rowid; the UPDATE sets the changed columns of
    the row, if it is still there. *)
Definition save_write (d : db) (p : plan) : result db :=
  match p with
  | PInsert uid dt fs => flush_insert d (new_activity (activities d) uid dt fs)
  | PUpdate ex fs => flush_update d ex (set_fields fs ex)
  end.

(** [register()] reads too (lines 50-52) before it writes (line 56):
    its read either answers at once (the name is taken, or a field is
    missing) or leaves a user to insert. *)
Definition reg_read (d : db) (f : form) : result (option (string * string)) :=
  u <-? form_get f "username" ;;
  p <-? form_get f "password" ;;
  match find_by_username (users d) u with
  | Some _ => Ok None
  | None => Ok (Some (u, p))
  end.

(** Line 56 on the store as it is then: the [unique=True] of line 17 is
    a UNIQUE index, and SQLite refuses a second row with the name:
    [IntegrityError], which nothing catches (an HTTP 500). *)
Definition reg_write (d : db) (u p : string) : result db :=
  match find_by_username (users d) u with
  | Some _ => Exc IntegrityError
  | None => Ok (mkDb (tbl_insert (users d) (mkUser (next_rowid user_id (users d)) u p))
                    (activities d) (feedbacks d))
  end.

(** A request that has read and not yet committed. *)
Inductive pending :=
| PSave (p : plan)                 (** a [save_event] *)
| PReg (u p : string).             (** a [register] *)

Definition commit (d : db) (q : pending) : result db :=
  match q with
  | PSave p => save_write d p
  | PReg u p => reg_write d u p
  end.

(** A server state: the store and the requests that have read and not
    yet committed. *)
Record config := mkConfig { c_db : db; c_pending : list pending }.

Section Interleaving.
Context `{DateParser}.

(** Any request runs atomically, or a save or a registration reads, or a
    pending request commits (or fails at its commit and writes nothing). *)
Inductive cstep : config -> config -> Prop :=
| cs_request d ps s rq now today :
    cstep (mkConfig d ps) (mkConfig (db_after d s rq now today) ps)
| cs_read d ps uid data p :
    save_read d uid data = Ok p -> cstep (mkConfig d ps) (mkConfig d (ps ++ [PSave p]))
| cs_reg_read d ps f u p :
    reg_read d f = Ok (Some (u, p)) -> cstep (mkConfig d ps) (mkConfig d (ps ++ [PReg u p]))
| cs_commit d ps1 q ps2 d' :
    commit d q = Ok d' -> cstep (mkConfig d (ps1 ++ q :: ps2)) (mkConfig d' (ps1 ++ ps2))
| cs_abort d ps1 q ps2 e :
    commit d q = Exc e -> cstep (mkConfig d (ps1 ++ q :: ps2)) (mkConfig d (ps1 ++ ps2)).

End Interleaving.

(** ** Lemmas *)

Section PhaseLemmas.
Context `{DateParser}.

(** Read then write, with nothing in between, is the [try] body of
    [save_event]. *)
Lemma save_event_tx_split d uid data :
  save_event_tx d uid data = p <-? save_read d uid data ;; save_write d p.
Proof.
  unfold save_event_tx, save_read.
  destruct (json_index data "date"); cbn [rbind]; [|done].
  destruct (parse_json_date _); cbn [rbind]; [|done].
  by destruct (find_activity _ _ _), (read_fields data).
Qed.
End PhaseLemmas.

(** ** User names under interleaving *)

Lemma usernames_unique_snoc us x :
  usernames_unique us -> find_by_username us (username x) = None -> usernames_unique (us ++ [x]).
Proof.
  unfold usernames_unique. intros Hu Hn. rewrite map_app. apply NoDup_snoc; [done|].
  intros Hx. apply in_map_iff in Hx as (y & Hy & Hin).
  by eapply find_by_username_none in Hn; [|exact Hin].
Qed.

Section Users.
Context `{DateParser}.

Lemma save_event_users d s b : users (snd (save_event d s b)) = users d.
Proof.
  destruct s as [uid|], b as [data|]; simpl; try done.
  destruct (save_event_tx d uid data) as [d'|] eqn:E; [|done].
  simpl. by apply save_event_tx_tables in E as [? _].
Qed.

(** Every atomic request keeps the user names unique. *)
Lemma db_after_usernames_unique d s rq now today :
  usernames_unique (users d) -> usernames_unique (users (db_after d s rq now today)).
Proof.
  intros Hu. unfold db_after. destruct rq as [| m f | m f | | | | b | eid | | f |]; simpl; try done.
  - pose proof (register_usernames_unique m d f Hu). by destruct (register m d f).
  - by destruct (login m d s f).
  - pose proof (save_event_users d s b) as E. destruct (save_event d s b). simpl in *. by rewrite E.
  - destruct (0 <=? eid); [|done]. destruct s as [uid|]; [|done]. simpl.
    by repeat case_match; simplify_eq/=.
  - unfold submit_feedback. by repeat case_match; simplify_eq/=.
Qed.

Lemma commit_usernames_unique d q d' :
  usernames_unique (users d) -> commit d q = Ok d' -> usernames_unique (users d').
Proof.
  intros Hu. destruct q as [[uid dt fs|i fs]|u p]; simpl.
  - unfold flush_insert. destruct (bind_fields _); cbn [rbind]; [by intros [= <-] | discriminate].
  - by intros [-> _]%flush_update_tables.
  - unfold reg_write. destruct (find_by_username (users d) u) eqn:E; [done|].
    intros [= <-]. simpl. by apply (usernames_unique_snoc _ (mkUser _ u p)).
Qed.

Lemma cstep_usernames_unique c c' :
  usernames_unique (users (c_db c)) -> cstep c c' -> usernames_unique (users (c_db c')).
Proof.
  intros Hu Hs. destruct Hs; simpl in *; auto using db_after_usernames_unique.
  by eapply commit_usernames_unique.
Qed.
End Users.

(** ** Properties *)

Section Properties.
Context `{DateParser}.

(** C7: user names stay unique on the concurrent server: two
    registrations of one name may both read before either writes (the
    race that duplicates activities), but the UNIQUE index of line 17
    refuses the second insert at its commit, so every store reached by
    any interleaving of requests has unique user names. *)
Theorem concurrent_usernames_unique c :
  rtc cstep (mkConfig empty_db []) c -> usernames_unique (users (c_db c)).
Proof.
  intros Hrun.
  assert (Hgen : forall c0 c1, rtc cstep c0 c1 ->
            usernames_unique (users (c_db c0)) -> usernames_unique (users (c_db c1))).
  { induction 1; eauto using cstep_usernames_unique. }
  apply (Hgen _ _ Hrun). constructor.
Qed.
End Properties.

(** Two saves of user 1 for 2024-01-01 with the same body. *)
Definition race_body : json :=
  JObj [("date", JStr "2024-01-01"); ("start", JStr "08:00"); ("end", JStr "16:00");
        ("notes", JStr ""); ("salary", JNum 100)].

Definition race_plan : plan :=
  PInsert 1 (mkDate 2024 1 1) (mkFields (JStr "08:00") (JStr "16:00") (JStr "") (JNum 100)).

(** C6: the race of the spec: two saves of the same (user, date) that
    both read before either commits both insert, and the store holds two
    rows for that (user, date): one row per date is not an invariant of
    the concurrent server. *)
Theorem concurrent_saves_duplicate :
  exists c, rtc (cstep (H := iso_parser)) (mkConfig empty_db []) c /\
    ~ one_per_date (activities (c_db c)).
Proof.
  eexists. split.
  - eapply rtc_l; [apply (cs_read empty_db [] 1 race_body race_plan); reflexivity|].
    eapply rtc_l; [apply (cs_read empty_db [PSave race_plan] 1 race_body race_plan); reflexivity|].
    eapply rtc_l; [apply (cs_commit empty_db [] (PSave race_plan) [PSave race_plan]); reflexivity|].
    eapply rtc_l; [apply (cs_commit _ [] (PSave race_plan) []); reflexivity|].
    apply rtc_refl.
  - simpl. unfold one_per_date. cbn. intros Hn. invc Hn. apply H1. by left.
Qed.

(** The store after user 1 saved [race_body]. *)
Definition saved_once : db :=
  mkDb [] [mkActivity 1 (mkDate 2024 1 1) (JStr "08:00") (JStr "16:00") (JStr "") (JNum 100) 1] [].

(** [race_body] with another start, and with another salary. *)
Definition body_start : json :=
  JObj [("date", JStr "2024-01-01"); ("start", JStr "09:00"); ("end", JStr "16:00");
        ("notes", JStr ""); ("salary", JNum 100)].

Definition body_salary : json :=
  JObj [("date", JStr "2024-01-01"); ("start", JStr "08:00"); ("end", JStr "16:00");
        ("notes", JStr ""); ("salary", JNum 120)].

Definition row_loaded : activity :=
  mkActivity 1 (mkDate 2024 1 1) (JStr "08:00") (JStr "16:00") (JStr "") (JNum 100) 1.

Definition plan_of (b : json) : plan :=
  PUpdate row_loaded
    (match read_fields b with Ok fs => fs | Exc _ => mkFields JNull JNull JNull JNull end).

(** From a new database: user 1 saves [race_body], then a second save
    of that date with the body [b] reads. *)
Lemma run_saved_then_read b :
  save_read (H := iso_parser) saved_once 1 b = Ok (plan_of b) ->
  rtc (cstep (H := iso_parser)) (mkConfig empty_db []) (mkConfig saved_once [PSave (plan_of b)]).
Proof.
  intros Hr. apply (rtc_l _ _ (mkConfig saved_once [])).
  - exact (cs_request empty_db [] (Some 1) (RqSaveEvent (Some race_body)) 0 (mkDate 2024 1 1)).
  - eapply rtc_l; [apply (cs_read _ [] 1 b (plan_of b) Hr) | apply rtc_refl].
Qed.

(** C22: a save that found the row of its date, and whose row the owner
    deletes before the save commits, fails at its commit when it changes
    a column: the UPDATE matches no row, SQLAlchemy raises
    [StaleDataError] and the client gets the 500 answer although the
    date has no row any more. *)
Theorem concurrent_delete_stale_update :
  exists c p, rtc (cstep (H := iso_parser)) (mkConfig empty_db []) c /\
    In (PSave p) (c_pending c) /\ save_write (c_db c) p = Exc StaleDataError /\
    find_activity (activities (c_db c)) 1 (mkDate 2024 1 1) = None.
Proof.
  exists (mkConfig (mkDb [] [] []) [PSave (plan_of body_start)]), (plan_of body_start).
  split; [|split; [by left | split; reflexivity]].
  eapply rtc_trans; [apply (run_saved_then_read body_start); vm_compute; reflexivity|].
  eapply rtc_l; [apply (cs_request _ _ (Some 1) (RqDeleteEvent 1) 0 (mkDate 2024 1 1))|].
  vm_compute. apply rtc_refl.
Qed.

(** C23: a save that sends back the values stored, racing the owner's
    delete of that row, commits without error: no column changed, so
    SQLAlchemy issues no UPDATE and cannot see that the row is gone; the
    client is answered [{success: true}] and the date has no row. *)
Theorem concurrent_resave_after_delete :
  exists c p d', rtc (cstep (H := iso_parser)) (mkConfig empty_db []) c /\
    In (PSave p) (c_pending c) /\ save_write (c_db c) p = Ok d' /\
    find_activity (activities d') 1 (mkDate 2024 1 1) = None.
Proof.
  exists (mkConfig (mkDb [] [] []) [PSave (plan_of race_body)]), (plan_of race_body), (mkDb [] [] []).
  split; [|split; [by left | split; reflexivity]].
  eapply rtc_trans; [apply (run_saved_then_read race_body); vm_compute; reflexivity|].
  eapply rtc_l; [apply (cs_request _ _ (Some 1) (RqDeleteEvent 1) 0 (mkDate 2024 1 1))|].
  vm_compute. apply rtc_refl.
Qed.

(** The row of 2024-01-01 after the saves of [b1] then [b2], one after
    the other, from [saved_once]. *)
Definition serial_row (b1 b2 : json) : option activity :=
  let step d b := db_after (H := iso_parser) d (Some 1) (RqSaveEvent (Some b)) 0 (mkDate 2024 1 1) in
  find_activity (activities (step (step saved_once b1) b2)) 1 (mkDate 2024 1 1).

(** C24: two saves of one date that both read the row before either
    commits, one changing the start and the other the salary: each
    commit updates only the column its client changed, and the row ends
    with the first client's start and the second client's salary, a row
    that neither order of the two saves one after the other produces
    (the spec's "full replace, not partial merge" holds only without
    concurrency). *)
Theorem concurrent_updates_merge :
  exists c, rtc (cstep (H := iso_parser)) (mkConfig empty_db []) c /\ c_pending c = [] /\
    find_activity (activities (c_db c)) 1 (mkDate 2024 1 1) =
      Some (mkActivity 1 (mkDate 2024 1 1) (JStr "09:00") (JStr "16:00") (JStr "") (JNum 120) 1) /\
    serial_row body_start body_salary <> find_activity (activities (c_db c)) 1 (mkDate 2024 1 1) /\
    serial_row body_salary body_start <> find_activity (activities (c_db c)) 1 (mkDate 2024 1 1).
Proof.
  eexists. split; [|split; [|split; [|split]]].
  - eapply rtc_trans; [apply (run_saved_then_read body_start); vm_compute; reflexivity|].
    eapply rtc_l; [apply (cs_read _ [PSave (plan_of body_start)] 1 body_salary (plan_of body_salary));
                   vm_compute; reflexivity|].
    eapply rtc_l; [apply (cs_commit _ [] (PSave (plan_of body_start)) [PSave (plan_of body_salary)]);
                   vm_compute; reflexivity|].
    eapply rtc_l; [apply (cs_commit _ [] (PSave (plan_of body_salary)) []); vm_compute; reflexivity|].
    apply rtc_refl.
  - reflexivity.
  - vm_compute. reflexivity.
  - vm_compute. discriminate.
  - vm_compute. discriminate.
Qed.

(** Two clients register the name "ann": both read before either
    commits. *)
Definition reg_form (pw : string) : form := [("username", "ann"); ("password", pw)].

Definition one_ann : db := mkDb [mkUser 1 "ann" "pw1"] [] [].

Lemma concurrent_usernames_unique_witness :
  usernames_unique (users (c_db (mkConfig one_ann []))).
Proof.
  apply (concurrent_usernames_unique (H := iso_parser)).
  eapply rtc_l; [apply (cs_reg_read empty_db [] (reg_form "pw1") "ann" "pw1"); reflexivity|].
  eapply rtc_l; [apply (cs_reg_read empty_db [PReg "ann" "pw1"] (reg_form "pw2") "ann" "pw2"); reflexivity|].
  eapply rtc_l; [apply (cs_commit empty_db [] (PReg "ann" "pw1") [PReg "ann" "pw2"] one_ann); reflexivity|].
  eapply rtc_l; [apply (cs_abort one_ann [] (PReg "ann" "pw2") [] IntegrityError); reflexivity|].
  apply rtc_refl.
Defined.

(** In that run the second registration fails at its commit with
    [IntegrityError]: the client gets an HTTP 500, not the answer
    ["User already exists"] a sequential run gives. *)
Example concurrent_register_integrity_error :
  commit one_ann (PReg "ann" "pw2") = Exc IntegrityError /\
  fst (register POST one_ann (reg_form "pw2")) = RText 200 "User already exists".
Proof. split; reflexivity. Qed.

End Concurrency.
