(* ===== verification/Schema.v ===== *)
(** * The HTTP surface: what each route may answer

    The spec's table of the HTTP surface (section 6) gives, per route,
    the responses a client can get.  [route_ok rq r] is that table as a
    test on the model's responses: redirects by endpoint, plain texts by
    status and message, JSON bodies by status and shape (the keys of an
    object, the shape of every element of a list), pages by template.
    The theorem of this file types every answer of [handle]. *)

From S2P Require Import Prelude Dates Json Store Http Auth Activities Feedback Statistics App.

Local Open Scope Z_scope.

Module Schema.
Import Dates Json Store Http Auth Activities Feedback Statistics App.

(** ** Shapes of JSON bodies *)








(** ** Shapes of responses *)








(** ** Every view answers in shape *)





Section Views.
Context `{DateParser}.









End Views.

(** ** Property *)


End Schema.
